(** * Trend mining engine: a shallow embedding and its properties

    The development embeds the mining code of the dashboard pages
    (trend aggregation and temporal classification, trend metrics,
    association / itemset / sequential mining) and proves what the
    specification says about them.

    Conventions of the embedding.
    - A JavaScript string is a [string]; the text is taken to be ASCII
      ([toLowerCase] folds [A-Z] only, [trim] strips the ASCII white
      space, [length] counts characters).
    - A JavaScript number holding a count or an engagement is a [Z];
      ratios, means and growth rates are exact rationals ([Q]); the one
      transcendental function ([Math.log10]) lives in [R].
    - The label of a temporal pattern depends on how the means of the
      growth rates round, so the temporal classification is also
      embedded as the engine computes it, in IEEE 754 binary64
      ([TemporalPatterns], on the primitive [float] of the kernel).  The
      exact model [TrendAnalysis] is kept for the bounds and the
      ranking, which do not depend on rounding.
    - [new Date(post.timestamp).getTime()] is the field [timestamp]
      itself: a post carries its time in milliseconds.
    - A [Map] or a [Set] is an association list or a list kept in
      insertion order, which is the order [forEach] visits.
    - [Math.random()] is the next element of a stream handed to the
      function that draws from it. *)

From Stdlib Require Import ZArith QArith Qminmax Qround Qabs.
From Stdlib Require Import String Ascii List Bool Lia Permutation.
From Stdlib Require Import Reals Lra.
From Stdlib Require Import Sorted.
From Stdlib Require PrimFloat FloatOps SpecFloat.
Import ListNotations.

Open Scope string_scope.
Open Scope Z_scope.

(* ================================================================== *)
(** * JavaScript primitives *)
(* ================================================================== *)

Module JS.

Definition code (c : ascii) : N := N_of_ascii c.

Definition is_upper (c : ascii) : bool := ((65 <=? code c) && (code c <=? 90))%N.
Definition is_lower (c : ascii) : bool := ((97 <=? code c) && (code c <=? 122))%N.
Definition is_digit (c : ascii) : bool := ((48 <=? code c) && (code c <=? 57))%N.

(** [\w] of a regular expression. *)
Definition is_word (c : ascii) : bool :=
  is_upper c || is_lower c || is_digit c || (code c =? 95)%N.

(** White space as [String.prototype.trim] sees it (ASCII part). *)
Definition is_space (c : ascii) : bool :=
  ((9 <=? code c) && (code c <=? 13) || (code c =? 32))%N.

Definition lower_char (c : ascii) : ascii :=
  if is_upper c then ascii_of_N (code c + 32) else c.

Fixpoint toLowerCase (s : string) : string :=
  match s with
  | EmptyString => EmptyString
  | String c r => String (lower_char c) (toLowerCase r)
  end.

Fixpoint trimStart (s : string) : string :=
  match s with
  | EmptyString => EmptyString
  | String c r => if is_space c then trimStart r else s
  end.

Fixpoint trimEnd (s : string) : string :=
  match s with
  | EmptyString => EmptyString
  | String c r =>
      match trimEnd r with
      | EmptyString => if is_space c then EmptyString else String c EmptyString
      | r' => String c r'
      end
  end.

Definition trim (s : string) : string := trimEnd (trimStart s).

(** [s.split(sep)] for a one-character separator: never empty. *)
Fixpoint split (sep : ascii) (s : string) : list string :=
  match s with
  | EmptyString => [EmptyString]
  | String c r =>
      if Ascii.eqb c sep then EmptyString :: split sep r
      else match split sep r with
           | h :: t => String c h :: t
           | [] => [String c EmptyString]
           end
  end.

(** [l.join(sep)]. *)
Definition join (sep : string) (l : list string) : string := String.concat sep l.

(** [s.includes(sub)]. *)
Fixpoint includes (s sub : string) : bool :=
  if String.prefix sub s then true
  else match s with
       | EmptyString => false
       | String _ r => includes r sub
       end.

(** [s.replace(/^#/, '')]. *)
Definition stripLeadingHash (s : string) : string :=
  match s with
  | String c r => if Ascii.eqb c "#" then r else s
  | EmptyString => EmptyString
  end.

(** [s.replace("#", "")]: a string pattern replaces the first occurrence only. *)
Fixpoint removeFirstHash (s : string) : string :=
  match s with
  | EmptyString => EmptyString
  | String c r => if Ascii.eqb c "#" then r else String c (removeFirstHash r)
  end.

(** [s.substring(0, n)]. *)
Definition substring0 (n : nat) (s : string) : string := String.substring 0 n s.

(** Truthiness of a string: [if (s)], [!s]. *)
Definition truthy (s : string) : bool :=
  match s with EmptyString => false | _ => true end.

(** [l.slice(0, n)] and [l.slice(-n)]. *)
Definition slice0 {A} (n : nat) (l : list A) : list A := firstn n l.
Definition sliceLast {A} (n : nat) (l : list A) : list A := skipn (length l - n) l.

(** [Array.prototype.sort] is stable; [le a b] says that the comparator
    does not put [b] before [a] ([cmp(a,b) <= 0]). *)
Section Sort.
Context {A : Type} (le : A -> A -> bool).

Fixpoint insert (x : A) (l : list A) : list A :=
  match l with
  | [] => [x]
  | y :: t => if le x y then x :: l else y :: insert x t
  end.

Definition sort (l : list A) : list A := fold_right insert [] l.
End Sort.

(** The default comparator of [sort()] on strings: code-unit order. *)
Definition sortStrings : list string -> list string := sort String.leb.

(** [Math.round]: to the nearest integer, halves towards +infinity. *)
Definition round (q : Q) : Z := Qfloor (q + (1 # 2)).

Definition Qltb (x y : Q) : bool := negb (Qle_bool y x).

(** [Math.sign]. *)
Definition sign (q : Q) : Z := Z.sgn (Qnum q).

(** An insertion-ordered [Map]. *)
Section OrderedMap.
Context {K V : Type} (keq : K -> K -> bool).

Fixpoint get (k : K) (m : list (K * V)) : option V :=
  match m with
  | [] => None
  | (k', v) :: t => if keq k k' then Some v else get k t
  end.

Definition has (k : K) (m : list (K * V)) : bool :=
  match get k m with Some _ => true | None => false end.

(** [m.set(k, v)]: an existing key keeps its place. *)
Fixpoint set (k : K) (v : V) (m : list (K * V)) : list (K * V) :=
  match m with
  | [] => [(k, v)]
  | (k', v') :: t => if keq k k' then (k', v) :: t else (k', v') :: set k v t
  end.
End OrderedMap.

(** A [Set] of strings: [s.add(x)]. *)
Definition setAdd (x : string) (s : list string) : list string :=
  if existsb (String.eqb x) s then s else s ++ [x].

End JS.

(* ================================================================== *)
(** * The post record (the same interface in every page) *)
(* ================================================================== *)

Record Post : Type := mkPost {
  post_id : string;
  platform : string;
  user : string;
  content : string;
  hashtags : string;
  topic : string;
  likes : Z;
  shares : Z;
  comments : Z;
  sentiment : string;
  timestamp : Z;
  region : string
}.

(** [(post.likes || 0) + (post.shares || 0) + (post.comments || 0)];
    on a number [x || 0] is [x]. *)
Definition rawEngagement (p : Post) : Z := likes p + shares p + comments p.

(** [post.likes + post.shares * 2 + post.comments * 3]. *)
Definition calculateEngagement (p : Post) : Z := likes p + shares p * 2 + comments p * 3.

(** [7 * 24 * 60 * 60 * 1000]. *)
Definition weekMs : Z := 7 * 24 * 60 * 60 * 1000.

(** [Math.floor(new Date(post.timestamp).getTime() / weekMs)]. *)
Definition weekOf (p : Post) : Z := timestamp p / weekMs.

(** The tags of a post as the trend pages read them:
    [hashtags.split(',').map(tag => tag.trim().toLowerCase().replace(/^#/, ''))]. *)
Definition trendTags (p : Post) : list string :=
  map (fun tag => JS.stripLeadingHash (JS.toLowerCase (JS.trim tag)))
      (JS.split "," (hashtags p)).

(** [tag && tag.length > 2]. *)
Definition tagOk (tag : string) : bool :=
  JS.truthy tag && (2 <? String.length tag)%nat.

Definition hasId (id : string) (ps : list Post) : bool :=
  existsb (fun p => String.eqb (post_id p) id) ps.

(* ================================================================== *)
(** * TrendAnalysis.tsx: trend aggregation and temporal classification *)
(* ================================================================== *)

Module TrendAnalysis.

Record TrendData : Type := mkTrend {
  keyword : string;
  posts : list Post;
  totalEngagement : Z;
  timeSeries : list (Z * Z)
}.

Definition TrendMap : Type := list (string * TrendData).

Definition engagementThreshold : Z := 20.

Definition contentKeywords : list string :=
  [ "diwali"; "gemini"; "llama"; "gpt"; "mistral"; "chatgpt"; "ai";
    "crypto"; "bitcoin"; "stocks"; "isro"; "chandrayaan"; "space";
    "cricket"; "kohli"; "bollywood"; "climate"; "elections"; "politics";
    "music"; "bts"; "taylor"; "gaming"; "xbox"; "ps5"; "ott"; "netflix" ].

(** [timeSeries.get(week) || 0]. *)
Definition bucket (week : Z) (ts : list (Z * Z)) : Z :=
  match JS.get Z.eqb week ts with Some v => v | None => 0 end.

(** [if (!trendMap.has(key)) trendMap.set(key, {keyword: key, posts: [], ...})]. *)
Definition ensure (key : string) (m : TrendMap) : TrendMap :=
  if JS.has String.eqb key m then m
  else JS.set String.eqb key (mkTrend key [] 0 []) m.

(** The body shared by the hashtag loop and the keyword loop: fetch or
    create the trend, and unless the post's id is already a member,
    push the post, add [engagement] to the total and to the week's
    bucket. *)
Definition addToTrend (post : Post) (engagement weekNum : Z)
           (key : string) (m : TrendMap) : TrendMap :=
  let m := ensure key m in
  match JS.get String.eqb key m with
  | None => m
  | Some trend =>
      if hasId (post_id post) (posts trend) then m
      else JS.set String.eqb key
             (mkTrend (keyword trend)
                      (posts trend ++ [post])
                      (totalEngagement trend + engagement)
                      (JS.set Z.eqb weekNum
                              (bucket weekNum (timeSeries trend) + engagement)
                              (timeSeries trend)))
             m
  end.

(** One turn of [data.forEach((post) => ...)]. *)
Definition processPost (m : TrendMap) (post : Post) : TrendMap :=
  let engagement := rawEngagement post in
  if engagement <? engagementThreshold then m
  else
    let weekNum := weekOf post in
    let m1 :=
      if JS.truthy (hashtags post) then
        fold_left (fun m tag =>
                     if tagOk tag then addToTrend post engagement weekNum tag m else m)
                  (trendTags post) m
      else m in
    let content := JS.toLowerCase (content post) in
    fold_left (fun m keyword =>
                 if JS.includes content keyword
                 then addToTrend post engagement weekNum keyword m else m)
              contentKeywords m1.

Definition aggregate (data : list Post) : TrendMap :=
  fold_left processPost data [].

Inductive Pattern : Type := emerging | sustained | declining | cyclical.

Record TemporalPattern : Type := mkPattern {
  tp_topic : string;
  tp_pattern : Pattern;
  weeklyGrowth : list Z;
  velocity : Z;
  peakTime : string;
  tp_totalEngagement : Z
}.

Open Scope Q_scope.

(** The growth rates, their means and the label in exact arithmetic;
    [TemporalPatterns] below carries out the same computation in
    binary64, where a mean can round across a threshold. *)

(** [Math.max(-200, Math.min(200, rate))]. *)
Definition clamp200 (rate : Q) : Q := Qmax (-200) (Qmin 200 rate).

(** The body of [for (let i = 1; i < values.length; i++)]. *)
Definition growthAt (values : list Z) (i : nat) : Q :=
  let prev := nth (i - 1) values 0%Z in
  let cur := nth i values 0%Z in
  if (0 <? prev)%Z
  then clamp200 ((inject_Z (cur - prev) / inject_Z prev) * 100)
  else if (0 <? cur)%Z then 100 else 0.

Definition growthRates (values : list Z) : list Q :=
  map (growthAt values) (seq 1 (length values - 1)).

(** [l.reduce((a, b) => a + b, 0)]. *)
Definition sum (l : list Q) : Q := fold_left Qplus l 0.

Definition ofNat (n : nat) : Q := inject_Z (Z.of_nat n).

Definition avgGrowth (growthRates : list Q) : Q :=
  sum growthRates / ofNat (length growthRates).

Definition recentGrowth (growthRates : list Q) : Q :=
  sum (JS.sliceLast (Nat.min 3 (length growthRates)) growthRates)
  / ofNat (Nat.min 3 (length growthRates)).

(** The loop counting [changes]. *)
Definition signChanges (growthRates : list Q) : Z :=
  fold_left
    (fun changes i =>
       if negb (Z.eqb (JS.sign (nth i growthRates 0))
                      (JS.sign (nth (i - 1) growthRates 0)))
          && JS.Qltb 10 (Qabs (nth i growthRates 0))
       then (changes + 1)%Z else changes)
    (seq 1 (length growthRates - 1)) 0%Z.

(** The classification of a non-empty growth-rate sequence. *)
Definition classify (growthRates : list Q) : Pattern :=
  let avg := avgGrowth growthRates in
  let recent := recentGrowth growthRates in
  if JS.Qltb 30 recent && JS.Qltb 15 avg then emerging
  else if JS.Qltb recent (-20) && JS.Qltb avg (-10) then declining
  else if JS.Qltb (Qabs avg) 15 then sustained
  else if Qle_bool (Qmax 2 (ofNat (length growthRates) / 3))
                   (inject_Z (signChanges growthRates))
       then cyclical
       else sustained.

Definition velocityOf (growthRates : list Q) : Z :=
  JS.round (Qmax (-100) (Qmin 100 (recentGrowth growthRates))).

Definition peakTimeOf (p : Pattern) : string :=
  match p with
  | emerging => "Expected in 2-4 weeks"
  | declining => "Peaked recently"
  | _ => "Currently stable"
  end.

Close Scope Q_scope.

(** [Array.from(timeSeries.keys()).sort((a, b) => a - b)]. *)
Definition weeksOf (t : TrendData) : list Z :=
  JS.sort Z.leb (map fst (timeSeries t)).

(** [weeks.map((week) => timeSeries.get(week) || 0)]. *)
Definition weeklyValues (t : TrendData) : list Z :=
  map (fun week => bucket week (timeSeries t)) (weeksOf t).

(** One turn of [trendMap.forEach((trendData, keyword) => ...)]:
    the pattern pushed, if any. *)
Definition patternOf (keyword : string) (t : TrendData) : option TemporalPattern :=
  if (length (posts t) <? 2)%nat then None
  else if (length (weeksOf t) <? 2)%nat then None
  else
    let rates := growthRates (weeklyValues t) in
    match rates with
    | [] => None
    | _ =>
        let pattern := classify rates in
        Some (mkPattern keyword pattern (map JS.round rates) (velocityOf rates)
                        (peakTimeOf pattern) (totalEngagement t))
    end.

Definition processTemporalPatterns (data : list Post) : list TemporalPattern :=
  JS.sort (fun a b => tp_totalEngagement b <=? tp_totalEngagement a)
          (flat_map (fun kv => match patternOf (fst kv) (snd kv) with
                               | Some p => [p]
                               | None => []
                               end)
                    (aggregate data)).

End TrendAnalysis.

(* ================================================================== *)
(** * JavaScript numbers as binary64 *)
(* ================================================================== *)

Module Number.
Import PrimFloat FloatOps SpecFloat.
Open Scope float_scope.

(** An integer as a number: the nearest double (the integer itself up
    to 2^53). *)
Definition ofZ (z : Z) : float := SF2Prim (binary_normalize prec emax z 0 false).

Definition ofNat (n : nat) : float := ofZ (Z.of_nat n).

(** [Math.min(a, b)]: NaN if either is, and -0 below +0. *)
Definition min (a b : float) : float :=
  if is_nan a || is_nan b then nan
  else if a <? b then a
  else if b <? a then b
  else if get_sign a then a else b.

(** [Math.max(a, b)]. *)
Definition max (a b : float) : float :=
  if is_nan a || is_nan b then nan
  else if b <? a then a
  else if a <? b then b
  else if get_sign a then b else a.

(** [Math.sign(x)]: 1, -1, or [x] itself when it is a zero or NaN. *)
Definition sign (x : float) : float :=
  if is_nan x then nan
  else if 0 <? x then 1
  else if x <? 0 then -1
  else x.

(** [a !== b] on numbers. *)
Definition differ (a b : float) : bool := negb (a =? b).

(** [Math.round(x)]: the nearest integer, halves towards +infinity,
    computed exactly from the mantissa and the exponent; a value that
    rounds to zero keeps its sign. *)
Definition round (x : float) : float :=
  match Prim2SF x with
  | S754_finite s m e =>
      if (0 <=? e)%Z then x
      else
        let sm := if s then Z.neg m else Z.pos m in
        let n := ((2 * sm + 2 ^ (- e)) / 2 ^ (- e + 1))%Z in
        if (n =? 0)%Z then (if s then neg_zero else zero) else ofZ n
  | _ => x
  end.

End Number.

(* ================================================================== *)
(** * TrendAnalysis.tsx: the temporal classification in binary64 *)
(* ================================================================== *)

Module TemporalPatterns.
Import PrimFloat.
Open Scope float_scope.

Record TemporalPattern : Type := mkPattern {
  tp_topic : string;
  tp_pattern : TrendAnalysis.Pattern;
  weeklyGrowth : list float;
  velocity : float;
  peakTime : string;
  tp_totalEngagement : Z
}.

(** [Math.max(-200, Math.min(200, rate))]. *)
Definition clamp200 (rate : float) : float := Number.max (-200) (Number.min 200 rate).

(** The body of [for (let i = 1; i < values.length; i++)]. *)
Definition growthAt (values : list Z) (i : nat) : float :=
  let prev := nth (i - 1) values 0%Z in
  let cur := nth i values 0%Z in
  if (0 <? prev)%Z
  then clamp200 (((Number.ofZ cur - Number.ofZ prev) / Number.ofZ prev) * 100)
  else if (0 <? cur)%Z then 100 else 0.

Definition growthRates (values : list Z) : list float :=
  map (growthAt values) (seq 1 (length values - 1)).

(** [l.reduce((a, b) => a + b, 0)]. *)
Definition sum (l : list float) : float := fold_left PrimFloat.add l 0.

Definition avgGrowth (growthRates : list float) : float :=
  sum growthRates / Number.ofNat (length growthRates).

Definition recentGrowth (growthRates : list float) : float :=
  sum (JS.sliceLast (Nat.min 3 (length growthRates)) growthRates)
  / Number.ofNat (Nat.min 3 (length growthRates)).

(** The loop counting [changes]. *)
Definition signChanges (growthRates : list float) : Z :=
  fold_left
    (fun changes i =>
       if Number.differ (Number.sign (nth i growthRates 0))
                        (Number.sign (nth (i - 1) growthRates 0))
          && (10 <? abs (nth i growthRates 0))
       then (changes + 1)%Z else changes)
    (seq 1 (length growthRates - 1)) 0%Z.

(** The if-chain that sets [pattern], which starts as "sustained". *)
Definition classify (growthRates : list float) : TrendAnalysis.Pattern :=
  let avgGrowth := avgGrowth growthRates in
  let recentGrowth := recentGrowth growthRates in
  if (30 <? recentGrowth) && (15 <? avgGrowth) then TrendAnalysis.emerging
  else if (recentGrowth <? -20) && (avgGrowth <? -10) then TrendAnalysis.declining
  else if abs avgGrowth <? 15 then TrendAnalysis.sustained
  else if Number.max 2 (Number.ofNat (length growthRates) / 3)
          <=? Number.ofZ (signChanges growthRates)
       then TrendAnalysis.cyclical
       else TrendAnalysis.sustained.

(** [Math.round(Math.max(-100, Math.min(100, recentGrowth)))]. *)
Definition velocityOf (growthRates : list float) : float :=
  Number.round (Number.max (-100) (Number.min 100 (recentGrowth growthRates))).

(** One turn of [trendMap.forEach((trendData, keyword) => ...)]:
    the pattern pushed, if any. *)
Definition patternOf (keyword : string) (t : TrendAnalysis.TrendData)
  : option TemporalPattern :=
  if (length (TrendAnalysis.posts t) <? 2)%nat then None
  else if (length (TrendAnalysis.weeksOf t) <? 2)%nat then None
  else
    let rates := growthRates (TrendAnalysis.weeklyValues t) in
    match rates with
    | [] => None
    | _ =>
        let pattern := classify rates in
        Some (mkPattern keyword pattern (map Number.round rates) (velocityOf rates)
                        (TrendAnalysis.peakTimeOf pattern)
                        (TrendAnalysis.totalEngagement t))
    end.

Definition processTemporalPatterns (data : list Post) : list TemporalPattern :=
  JS.sort (fun a b => (tp_totalEngagement b <=? tp_totalEngagement a)%Z)
          (flat_map (fun kv => match patternOf (fst kv) (snd kv) with
                               | Some p => [p]
                               | None => []
                               end)
                    (TrendAnalysis.aggregate data)).

End TemporalPatterns.

(* ================================================================== *)
(** * The trend dashboard (src/unnamed/part_001): extraction and metrics *)
(* ================================================================== *)

Module Dashboard.

Record TrendData : Type := mkTrend {
  keyword : string;
  posts : list Post;
  totalEngagement : Z;
  topics : list string;
  platforms : list string
}.

Definition TrendMap : Type := list (string * TrendData).

Definition engagementThreshold : Z := 50.

Definition contentKeywords : list string :=
  [ "diwali"; "gemini"; "llama"; "llama2"; "llama-3"; "gpt-5"; "mistral"; "chatgpt";
    "bts"; "taylor swift"; "beyoncé"; "arijit singh"; "bad bunny";
    "crypto"; "bitcoin"; "stocks"; "markets"; "ethereum";
    "isro"; "chandrayaan"; "space"; "nasa"; "spacex";
    "worldcup"; "cricket"; "kohli"; "babar"; "smith"; "indvpak";
    "aamir khan"; "ranveer singh"; "bollywood"; "ott"; "netflix";
    "heatwave"; "climate"; "cop29"; "sustainability";
    "apple"; "m5"; "oneplus"; "gaming"; "xbox"; "ps5";
    "elections"; "politics"; "vote"; "festival"; "music" ].

Definition ensure (key : string) (m : TrendMap) : TrendMap :=
  if JS.has String.eqb key m then m
  else JS.set String.eqb key (mkTrend key [] 0 [] []) m.

(** [trend.posts.push(post); trend.totalEngagement += engagement;
    trend.topics.add(post.topic); trend.platforms.add(post.platform)]. *)
Definition push (post : Post) (engagement : Z) (trend : TrendData) : TrendData :=
  mkTrend (keyword trend)
          (posts trend ++ [post])
          (totalEngagement trend + engagement)
          (JS.setAdd (topic post) (topics trend))
          (JS.setAdd (platform post) (platforms trend)).

(** The body of [tags.forEach]: no membership test. *)
Definition addTag (post : Post) (engagement : Z) (tag : string) (m : TrendMap) : TrendMap :=
  let m := ensure tag m in
  match JS.get String.eqb tag m with
  | None => m
  | Some trend => JS.set String.eqb tag (push post engagement trend) m
  end.

(** The body of [contentKeywords.forEach]: "Avoid duplicates". *)
Definition addKeyword (post : Post) (engagement : Z) (key : string) (m : TrendMap) : TrendMap :=
  let m := ensure key m in
  match JS.get String.eqb key m with
  | None => m
  | Some trend =>
      if hasId (post_id post) (posts trend) then m
      else JS.set String.eqb key (push post engagement trend) m
  end.

Definition processPost (m : TrendMap) (post : Post) : TrendMap :=
  let engagement := rawEngagement post in
  if engagement <? engagementThreshold then m
  else
    let m1 :=
      if JS.truthy (hashtags post) then
        fold_left (fun m tag => if tagOk tag then addTag post engagement tag m else m)
                  (trendTags post) m
      else m in
    let content := JS.toLowerCase (content post) in
    fold_left (fun m keyword =>
                 if JS.includes content keyword
                 then addKeyword post engagement keyword m else m)
              contentKeywords m1.

Definition trendMap (data : list Post) : TrendMap := fold_left processPost data [].

Open Scope R_scope.

(** [Math.log10]. *)
Definition log10 (x : R) : R := ln x / ln 10.

Definition Rleb (x y : R) : bool := if Rle_dec x y then true else false.
Definition Rltb (x y : R) : bool := if Rlt_dec x y then true else false.

(** [Math.round] on a real. *)
Definition Rround (x : R) : Z := Int_part (x + / 2).

Definition len {A} (l : list A) : R := INR (length l).

(** [ps.reduce((sum, p) => sum + p.likes + p.shares + p.comments, 0)]. *)
Definition engagementSum (ps : list Post) : R :=
  fold_left (fun sum p => sum + IZR (likes p) + IZR (shares p) + IZR (comments p)) ps 0.

(** [now.getTime() - new Date(p.timestamp).getTime()]. *)
Definition msSince (now : Z) (p : Post) : R := IZR (now - timestamp p).

Definition sortedPosts (posts : list Post) : list Post :=
  JS.sort (fun a b => (timestamp a <=? timestamp b)%Z) posts.

Definition withinDays (now : Z) (days : R) (ps : list Post) : list Post :=
  filter (fun p => Rleb (msSince now p / (1000 * 60 * 60 * 24)) days) ps.

Definition support (posts : list Post) (totalPosts : nat) : R :=
  len posts / INR totalPosts.

Definition velocity (now : Z) (posts : list Post) : R :=
  let last7d := withinDays now 7 (sortedPosts posts) in
  let last30d := withinDays now 30 (sortedPosts posts) in
  let recentRate := len last7d / 7 in
  let olderRate := (len last30d - len last7d) / 23 in
  if Rltb 0 olderRate then (recentRate - olderRate) / olderRate else recentRate.

Definition momentum (posts : list Post) : R :=
  let midpoint := Nat.div (length (sortedPosts posts)) 2 in
  let recentPosts := skipn midpoint (sortedPosts posts) in
  let olderPosts := firstn midpoint (sortedPosts posts) in
  let recentEngagement := engagementSum recentPosts / len recentPosts in
  let olderEngagement := engagementSum olderPosts / len olderPosts in
  if Rltb 0 olderEngagement
  then (recentEngagement - olderEngagement) / olderEngagement else 1.

Definition avgEngagement (posts : list Post) : R :=
  engagementSum posts / len posts.

(** [Math.log10(avgEngagement + 1) / 5]. *)
Definition engagementScore (posts : list Post) : R :=
  log10 (avgEngagement posts + 1) / 5.

Definition distinct (l : list string) : list string :=
  fold_left (fun s x => JS.setAdd x s) l [].

Definition diversityScore (posts : list Post) : R :=
  (len (distinct (map platform posts)) / 5 + len (distinct (map topic posts)) / 12) / 2.

Definition avgRecency (now : Z) (posts : list Post) : R :=
  fold_left (fun sum p => sum + exp (- (msSince now p / (1000 * 60 * 60)) / 168)) posts 0
  / len posts.

Definition trendScore (now : Z) (posts : list Post) (totalPosts : nat) : R :=
  support posts totalPosts * 100 + velocity now posts * 50 + momentum posts * 30
  + engagementScore posts * 40 + diversityScore posts * 20 + avgRecency now posts * 30.

Record Metrics : Type := mkMetrics {
  m_support : R;
  m_velocity : R;
  m_momentum : R;
  m_trendScore : R
}.

Definition calculateTrendMetrics (now : Z) (posts : list Post) (totalPosts : nat) : Metrics :=
  match posts with
  | [] => mkMetrics 0 0 0 0
  | _ =>
      mkMetrics (IZR (Rround (support posts totalPosts * 10000)) / 100)
                (IZR (Rround (velocity now posts * 100)) / 100)
                (IZR (Rround (momentum posts * 100)) / 100)
                (IZR (Rround (trendScore now posts totalPosts * 100)) / 100)
  end.

Record Trend : Type := mkRanked {
  t_keyword : string;
  t_posts : list Post;
  t_totalEngagement : Z;
  t_topics : list string;
  t_platforms : list string;
  t_avgEngagement : R;
  t_metrics : Metrics
}.

(** The front-end branch of [extractTrends]; [now] is the clock read by
    [calculateTrendMetrics]. *)
Definition extractTrends (now : Z) (data : list Post) : list Trend :=
  match data with
  | [] => []
  | _ =>
      JS.sort (fun a b => Rleb (m_trendScore (t_metrics b)) (m_trendScore (t_metrics a)))
        (map (fun trend =>
                mkRanked (keyword trend) (posts trend) (totalEngagement trend)
                         (topics trend) (platforms trend)
                         (IZR (totalEngagement trend) / len (posts trend))
                         (calculateTrendMetrics now (posts trend) (length data)))
             (filter (fun trend => (2 <=? length (posts trend))%nat)
                     (map snd (trendMap data))))
  end.

Close Scope R_scope.

End Dashboard.

(* ================================================================== *)
(** * The earlier trend dashboard (src/unnamed/part_002) *)
(* ================================================================== *)

Module DashboardBasic.

Record TrendData : Type := mkTrend {
  keyword : string;
  posts : list Post;
  totalEngagement : Z;
  topics : list string;
  platforms : list string
}.

Definition TrendMap : Type := list (string * TrendData).

Definition engagementThreshold : Z := 100.

Definition contentKeywords : list string :=
  [ "diwali"; "gemini"; "llama"; "llama2"; "llama-3"; "gpt-5"; "mistral";
    "bts"; "taylor swift"; "beyoncé"; "arijit singh"; "bad bunny";
    "crypto"; "bitcoin"; "stocks"; "markets";
    "isro"; "chandrayaan"; "space";
    "worldcup"; "cricket"; "kohli"; "babar"; "smith";
    "aamir khan"; "ranveer singh";
    "heatwave"; "climate"; "cop29"; "sustainability";
    "apple"; "m5"; "netflix"; "gaming"; "xbox"; "ps5";
    "elections"; "politics"; "vote" ].

Definition ensure (key : string) (m : TrendMap) : TrendMap :=
  if JS.has String.eqb key m then m
  else JS.set String.eqb key (mkTrend key [] 0 [] []) m.

Definition push (post : Post) (engagement : Z) (trend : TrendData) : TrendData :=
  mkTrend (keyword trend)
          (posts trend ++ [post])
          (totalEngagement trend + engagement)
          (JS.setAdd (topic post) (topics trend))
          (JS.setAdd (platform post) (platforms trend)).

(** The body of both loops ([tags.forEach] and [contentKeywords.forEach]):
    the post is pushed without a membership test. *)
Definition addToTrend (post : Post) (engagement : Z) (key : string) (m : TrendMap) : TrendMap :=
  let m := ensure key m in
  match JS.get String.eqb key m with
  | None => m
  | Some trend => JS.set String.eqb key (push post engagement trend) m
  end.

Definition processPost (m : TrendMap) (post : Post) : TrendMap :=
  let engagement := rawEngagement post in
  if engagement <? engagementThreshold then m
  else
    let m1 :=
      if JS.truthy (hashtags post) then
        fold_left (fun m tag => if tagOk tag then addToTrend post engagement tag m else m)
                  (trendTags post) m
      else m in
    let content := JS.toLowerCase (content post) in
    fold_left (fun m keyword =>
                 if JS.includes content keyword
                 then addToTrend post engagement keyword m else m)
              contentKeywords m1.

Definition trendMap (data : list Post) : TrendMap := fold_left processPost data [].

Record Trend : Type := mkRanked {
  t_keyword : string;
  t_posts : list Post;
  t_totalEngagement : Z;
  t_topics : list string;
  t_platforms : list string;
  t_avgEngagement : Q
}.

(** The front-end branch of [extractTrends]. *)
Definition extractTrends (data : list Post) : list Trend :=
  match data with
  | [] => []
  | _ =>
      map (fun trend =>
             mkRanked (keyword trend) (posts trend) (totalEngagement trend)
                      (topics trend) (platforms trend)
                      (inject_Z (totalEngagement trend)
                       / inject_Z (Z.of_nat (length (posts trend))))%Q)
          (JS.sort (fun a b => totalEngagement b <=? totalEngagement a)
                   (filter (fun trend => (2 <=? length (posts trend))%nat)
                           (map snd (trendMap data))))
  end.

End DashboardBasic.

(* ================================================================== *)
(** * The pattern-mining page (src/unnamed/part_000) *)
(* ================================================================== *)

Module PatternMining.

(** [hashtagStr.split(",").map((h) => h.trim().replace("#", "")).filter((h) => h.length > 0)]. *)
Definition extractHashtags (hashtagStr : string) : list string :=
  if JS.truthy hashtagStr then
    filter (fun h => (0 <? String.length h)%nat)
           (map (fun h => JS.removeFirstHash (JS.trim h)) (JS.split "," hashtagStr))
  else [].

(** [content.match(/\b[A-Z][a-z]+\b/g)], read as a left-to-right scan.
    A match starts where the previous character is not a word character,
    with one capital, and runs over all the lower-case letters that
    follow (one at least); it succeeds when the character after the run
    is not a word character.  Inside a run of word characters no other
    position has a word boundary, so a failed run is skipped whole. *)
Inductive ScanState : Type :=
| Outside
| Inside
| Candidate (acc : string).

Definition emit (acc : string) : list string :=
  if (2 <=? String.length acc)%nat then [acc] else [].

Fixpoint scanWords (st : ScanState) (s : string) : list string :=
  match s with
  | EmptyString =>
      match st with
      | Candidate acc => emit acc
      | _ => []
      end
  | String c r =>
      match st with
      | Outside =>
          if JS.is_upper c then scanWords (Candidate (String c EmptyString)) r
          else if JS.is_word c then scanWords Inside r
          else scanWords Outside r
      | Inside =>
          if JS.is_word c then scanWords Inside r else scanWords Outside r
      | Candidate acc =>
          if JS.is_lower c then scanWords (Candidate (acc ++ String c EmptyString)) r
          else if JS.is_word c then scanWords Inside r
          else emit acc ++ scanWords Outside r
      end
  end.

(** [(content.match(...) || []).slice(0, 2)]. *)
Definition extractKeywords (content : string) : list string :=
  if JS.truthy content then JS.slice0 2 (scanWords Outside content) else [].

(** The item set of a post: topic, two hashtags at most, the keywords. *)
Definition itemsOf (post : Post) : list string :=
  let items := JS.setAdd (topic post) [] in
  let items := fold_left (fun s h => JS.setAdd h s)
                         (JS.slice0 2 (extractHashtags (hashtags post))) items in
  fold_left (fun s k => JS.setAdd k s) (extractKeywords (content post)) items.

(** [[a, b].sort().join("|")]. *)
Definition pairKey (a b : string) : string := JS.join "|" (JS.sortStrings [a; b]).

(** The keys met by the double loop [i < j], in the order it meets them. *)
Fixpoint pairsOf (itemArray : list string) : list string :=
  match itemArray with
  | [] => []
  | a :: t => map (pairKey a) t ++ pairsOf t
  end.

Record PairData : Type := mkPair {
  count : Z;
  posts : list Post;
  topics : list string
}.

Definition PairMap : Type := list (string * PairData).

Definition recordPair (post : Post) (key : string) (m : PairMap) : PairMap :=
  let m := if JS.has String.eqb key m then m
           else JS.set String.eqb key (mkPair 0 [] []) m in
  match JS.get String.eqb key m with
  | None => m
  | Some pairData =>
      JS.set String.eqb key
             (mkPair (count pairData + 1)
                     (if (length (posts pairData) <? 5)%nat
                      then posts pairData ++ [post] else posts pairData)
                     (JS.setAdd (topic post) (topics pairData)))
             m
  end.

Definition pairStep (m : PairMap) (post : Post) : PairMap :=
  if JS.truthy (topic post)
  then fold_left (fun m key => recordPair post key m) (pairsOf (itemsOf post)) m
  else m.

Definition itemPairs (data : list Post) : PairMap := fold_left pairStep data [].

Record Example : Type := mkExample {
  ex_post_id : string;
  ex_content : string;
  engagement_score : Z
}.

Record AssociationRule : Type := mkRule {
  rule : string;
  antecedent : list string;
  consequent : list string;
  trend_strength : Q;
  popularity_score : Z;
  occurrence_count : Z;
  growth_rate : Z;
  engagement_impact : Z;
  platforms : list string;
  trend_direction : string;
  examples : list Example
}.

(** [p.content && p.content.toLowerCase().includes(item.toLowerCase())]. *)
Definition inContent (p : Post) (item : string) : bool :=
  JS.truthy (content p)
  && JS.includes (JS.toLowerCase (content p)) (JS.toLowerCase item).

(** [p.topic && String(p.topic).includes(item)]. *)
Definition inTopic (p : Post) (item : string) : bool :=
  JS.truthy (topic p) && JS.includes (topic p) item.

Definition contextual (item1 item2 : string) (p : Post) : bool :=
  inContent p item1 || inContent p item2 || inTopic p item1 || inTopic p item2
  || existsb (fun h => String.eqb h item1 || String.eqb h item2)
             (extractHashtags (hashtags p)).

Definition ofZ (z : Z) : Q := inject_Z z.
Definition ofNat (n : nat) : Q := inject_Z (Z.of_nat n).

Open Scope Q_scope.

Definition popularityScore (data : list Post) (item1 item2 : string) (count : Z) : Z :=
  let contextualPosts := length (filter (contextual item1 item2) data) in
  if (0 <? contextualPosts)%nat
  then Z.min 85 (JS.round ((ofZ count / ofNat contextualPosts) * 100))
  else JS.round ((ofZ count / ofNat (length data)) * 100 * 15).

(** [timeGroups]: posts per week, weeks in order of first appearance. *)
Definition timeGroups (sorted : list Post) : list (Z * Z) :=
  fold_left (fun g post =>
               JS.set Z.eqb (weekOf post)
                      (match JS.get Z.eqb (weekOf post) g with
                       | Some n => n | None => 0%Z end + 1)%Z g)
            sorted [].

Definition groupCount (g : list (Z * Z)) (week : Z) : Z :=
  match JS.get Z.eqb week g with Some n => n | None => 0%Z end.

(** The growth rate of a pair from its example posts (sorted by time);
    [r] is what [Math.random()] returns if it is called.  The second
    component tells whether it was called. *)
Definition growthRateOf (sorted : list Post) (r : Q) : Z * bool :=
  if (2 <=? length sorted)%nat then
    let g := timeGroups sorted in
    let weeks := JS.sort Z.leb (map fst g) in
    if (2 <=? length weeks)%nat then
      let firstWeekCount := groupCount g (nth 0 weeks 0%Z) in
      let lastWeekCount := groupCount g (nth (length weeks - 1) weeks 0%Z) in
      let middleWeekCount := groupCount g (nth (Nat.div (length weeks) 2) weeks 0%Z) in
      if (0 <? firstWeekCount)%Z then
        let rawGrowth := (ofZ (lastWeekCount - firstWeekCount) / ofZ firstWeekCount) * 100 in
        if JS.Qltb 0 rawGrowth then
          let growthRate := JS.round (Qmin 100 (50 + rawGrowth / 4)) in
          if ((firstWeekCount <? middleWeekCount) && (middleWeekCount <? lastWeekCount))%Z
          then (Z.min 100 (growthRate + 15), false)
          else (growthRate, false)
        else (JS.round (Qmax (-50) (rawGrowth / 2)), false)
      else if (0 <? lastWeekCount)%Z
           then (Z.min 75 (30 + lastWeekCount * 5), false)
           else (0%Z, false)
    else
      let baseGrowth := 10 + r * 20 in
      (JS.round (if (5 <? length sorted)%nat then baseGrowth else baseGrowth * (1 # 2)), true)
  else (JS.round (r * 15), true).

Close Scope Q_scope.

Definition trendDirectionOf (growthRate : Z) : string :=
  if 50 <? growthRate then "🚀 Rising Fast"
  else if 15 <? growthRate then "📈 Growing"
  else if growthRate <? -50 then "⬇️ Fading"
  else if growthRate <? -15 then "📉 Declining"
  else "➡️ Stable".

(** The three most frequent platforms among the example posts. *)
Definition topPlatforms (ps : list Post) : list string :=
  let platformCounts :=
    fold_left (fun m p =>
                 JS.set String.eqb (platform p)
                        (match JS.get String.eqb (platform p) m with
                         | Some n => n | None => 0 end + 1) m)
              ps [] in
  map fst (JS.slice0 3 (JS.sort (fun a b : string * Z => snd b <=? snd a) platformCounts)).

(** [Math.round(posts.reduce((sum, p) => sum + calculateEngagement(p), 0) / posts.length)]. *)
Definition engagementImpact (ps : list Post) : Z :=
  JS.round (Qdiv (ofZ (fold_left (fun sum p => sum + calculateEngagement p) ps 0))
                 (ofNat (length ps))).

Definition exampleOf (p : Post) : Example :=
  mkExample (post_id p) (JS.substring0 120 (content p) ++ "...") (calculateEngagement p).

(** [pairKey.split("|")] destructured into its first two parts. *)
Definition item1Of (pairKey : string) : string := nth 0 (JS.split "|" pairKey) "".
Definition item2Of (pairKey : string) : string := nth 1 (JS.split "|" pairKey) "".

(** The rule built for a surviving pair.  [pairData.posts.sort(...)]
    sorts the example array in place, so every later read of
    [pairData.posts] sees it sorted. *)
Definition ruleOf (data : list Post) (pairKey : string) (pairData : PairData)
           (r : Q) : AssociationRule * bool :=
  let item1 := item1Of pairKey in
  let item2 := item2Of pairKey in
  let sorted := JS.sort (fun a b => timestamp a <=? timestamp b) (posts pairData) in
  let gr := growthRateOf sorted r in
  (mkRule ("When discussing " ++ item1 ++ ", users often mention " ++ item2)
          [item1] [item2]
          (ofZ (count pairData) / ofNat (length data))%Q
          (popularityScore data item1 item2 (count pairData))
          (count pairData)
          (fst gr)
          (engagementImpact sorted)
          (topPlatforms sorted)
          (trendDirectionOf (fst gr))
          (map exampleOf (JS.slice0 2 sorted)),
   snd gr).

Definition RulesByTopic : Type := list (string * list AssociationRule).

(** [rulesByTopic.get(primaryTopic).push(rule)], the list created on first use. *)
Definition pushRule (primaryTopic : string) (r : AssociationRule)
           (m : RulesByTopic) : RulesByTopic :=
  JS.set String.eqb primaryTopic
         (match JS.get String.eqb primaryTopic m with
          | Some rs => (rs ++ [r])%list
          | None => [r]
          end) m.

(** One turn of [itemPairs.forEach((pairData, pairKey) => ...)]; the state
    is the rules so far and the number of random draws so far. *)
Definition ruleStep (data : list Post) (rnd : nat -> Q)
           (st : RulesByTopic * nat) (kv : string * PairData) : RulesByTopic * nat :=
  let pairData := snd kv in
  if count pairData <? 8 then st
  else
    let res := ruleOf data (fst kv) pairData (rnd (snd st)) in
    (pushRule (nth 0 (topics pairData) "") (fst res) (fst st),
     if snd res then S (snd st) else snd st).

Definition rulesByTopic (rnd : nat -> Q) (data : list Post) : RulesByTopic :=
  fst (fold_left (ruleStep data rnd) (itemPairs data) ([], O)).

Definition byCount (a b : AssociationRule) : bool :=
  occurrence_count b <=? occurrence_count a.

(** The first pass sorts every topic's array in place. *)
Definition sortedByTopic (m : RulesByTopic) : RulesByTopic :=
  map (fun kv => (fst kv, JS.sort byCount (snd kv))) m.

Definition firstPass (m : RulesByTopic) : list AssociationRule :=
  flat_map (fun kv => match snd kv with r :: _ => [r] | [] => [] end) (sortedByTopic m).

Definition allRules (m : RulesByTopic) : list AssociationRule :=
  JS.sort byCount (flat_map snd (sortedByTopic m)).

Definition secondPass (diverseRules all : list AssociationRule) : list AssociationRule :=
  fold_left (fun d r =>
               if (length d <? 50)%nat
                  && negb (existsb (fun r' => String.eqb (rule r') (rule r)) d)
               then (d ++ [r])%list else d)
            all diverseRules.

Definition mineAssociationRules (rnd : nat -> Q) (data : list Post) : list AssociationRule :=
  let m := rulesByTopic rnd data in
  JS.slice0 30 (secondPass (firstPass m) (allRules m)).

(** ** Frequent itemsets *)

Record ItemsetData : Type := mkItemsetData {
  is_count : Z;
  is_topics : list string
}.

(** Topic and two hashtags at most: no content keywords here. *)
Definition itemsetItems (post : Post) : list string :=
  fold_left (fun s h => JS.setAdd h s)
            (JS.slice0 2 (extractHashtags (hashtags post)))
            (JS.setAdd (topic post) []).

Definition itemsetStep (m : list (string * ItemsetData)) (post : Post)
  : list (string * ItemsetData) :=
  if JS.truthy (topic post) then
    let itemArray := JS.sortStrings (itemsetItems post) in
    if (2 <=? length itemArray)%nat then
      let key := JS.join "|" itemArray in
      let m := if JS.has String.eqb key m then m
               else JS.set String.eqb key (mkItemsetData 0 []) m in
      match JS.get String.eqb key m with
      | None => m
      | Some itemsetData =>
          JS.set String.eqb key
                 (mkItemsetData (is_count itemsetData + 1)
                                (JS.setAdd (topic post) (is_topics itemsetData)))
                 m
      end
    else m
  else m.

Definition itemsetCounts (data : list Post) : list (string * ItemsetData) :=
  fold_left itemsetStep data [].

Record FrequentItemset : Type := mkItemset {
  items : list string;
  fi_trend_strength : Q;
  fi_popularity_score : Z;
  fi_occurrence_count : Z;
  fi_trend_direction : string
}.

Definition itemsetOf (data : list Post) (key : string) (d : ItemsetData) : FrequentItemset :=
  mkItemset (JS.split "|" key)
            (Qdiv (ofZ (is_count d)) (ofNat (length data)))
            (Z.min 80 (JS.round (Qmult (Qmult (Qdiv (ofZ (is_count d)) (ofNat (length data)))
                                              100) 12)))
            (is_count d)
            "➡️ Stable".

Definition itemsetsByTopic (data : list Post) : list (string * list FrequentItemset) :=
  fold_left (fun m kv =>
               if is_count (snd kv) <? 8 then m
               else
                 let primaryTopic := nth 0 (is_topics (snd kv)) "" in
                 JS.set String.eqb primaryTopic
                        (match JS.get String.eqb primaryTopic m with
                         | Some l => (l ++ [itemsetOf data (fst kv) (snd kv)])%list
                         | None => [itemsetOf data (fst kv) (snd kv)]
                         end) m)
            (itemsetCounts data) [].

Definition byItemsetCount (a b : FrequentItemset) : bool :=
  fi_occurrence_count b <=? fi_occurrence_count a.

Definition mineFrequentItemsets (data : list Post) : list FrequentItemset :=
  JS.slice0 24
    (JS.sort byItemsetCount
       (flat_map (fun kv => JS.slice0 2 (JS.sort byItemsetCount (snd kv)))
                 (itemsetsByTopic data))).

(** ** Sequential patterns *)

Record Visit : Type := mkVisit {
  v_topic : string;
  v_timestamp : Z
}.

Definition userStep (m : list (string * list Visit)) (post : Post)
  : list (string * list Visit) :=
  if negb (JS.truthy (user post)) || negb (JS.truthy (topic post)) then m
  else
    JS.set String.eqb (user post)
           (match JS.get String.eqb (user post) m with
            | Some l => (l ++ [mkVisit (topic post) (timestamp post)])%list
            | None => [mkVisit (topic post) (timestamp post)]
            end) m.

Definition userSequences (data : list Post) : list (string * list Visit) :=
  fold_left userStep data [].

(** The pairs [(sorted[i], sorted[i + 1])] for [i < sorted.length - 1]. *)
Fixpoint adjacent {A} (l : list A) : list (A * A) :=
  match l with
  | a :: (b :: _) as t => (a, b) :: adjacent t
  | _ => []
  end.

Record Tally : Type := mkTally {
  sequenceCounts : list (string * Z);
  sequenceTimings : list (string * list Q)
}.

Definition seqKey (a b : Visit) : string := v_topic a ++ "|" ++ v_topic b.

(** [1000 * 60 * 60 * 24]. *)
Definition dayMs : Z := 1000 * 60 * 60 * 24.

Definition countOf (seq : string) (counts : list (string * Z)) : Z :=
  match JS.get String.eqb seq counts with Some n => n | None => 0 end.

(** The body of the loop over one author's consecutive posts. *)
Definition transitionStep (st : Tally) (ab : Visit * Visit) : Tally :=
  let (a, b) := ab in
  if negb (String.eqb (v_topic a) (v_topic b)) then
    let seq := seqKey a b in
    let days := Qdiv (ofZ (v_timestamp b - v_timestamp a)) (ofZ dayMs) in
    mkTally (JS.set String.eqb seq (countOf seq (sequenceCounts st) + 1) (sequenceCounts st))
            (JS.set String.eqb seq
                    (match JS.get String.eqb seq (sequenceTimings st) with
                     | Some l => (l ++ [days])%list
                     | None => [days]
                     end)
                    (sequenceTimings st))
  else st.

Definition sortVisits (sequence : list Visit) : list Visit :=
  JS.sort (fun a b => v_timestamp a <=? v_timestamp b) sequence.

(** One turn of [userSequences.forEach((sequence) => ...)]. *)
Definition sequenceStep (st : Tally) (kv : string * list Visit) : Tally :=
  fold_left transitionStep (adjacent (sortVisits (snd kv))) st.

Definition tally (data : list Post) : Tally :=
  fold_left sequenceStep (userSequences data) (mkTally [] []).

Record SequentialPattern : Type := mkSequential {
  sequence : list string;
  pattern_strength : Z;
  sp_occurrence_count : Z;
  avg_duration : string
}.

Definition avgDurationOf (timings : list Q) : string :=
  match timings with
  | [] => "1-7 days"
  | _ =>
      let avgDays := Qdiv (fold_left Qplus timings 0%Q) (ofNat (length timings)) in
      if JS.Qltb avgDays 1 then "< 1 day"
      else if JS.Qltb avgDays 3 then "1-3 days"
      else if JS.Qltb avgDays 7 then "3-7 days"
      else if JS.Qltb avgDays 14 then "1-2 weeks"
      else "2+ weeks"
  end.

Definition patternOf (totalUsers : nat) (timings : list (string * list Q))
           (seq : string) (count : Z) : SequentialPattern :=
  let baseStrength := Qmult (Qdiv (ofZ count) (ofZ (Z.max (Z.of_nat totalUsers) 20))) 100 in
  mkSequential [nth 0 (JS.split "|" seq) ""; nth 1 (JS.split "|" seq) ""]
               (Z.min 85 (JS.round (Qplus 20 (Qmult baseStrength 15))))
               count
               (avgDurationOf (match JS.get String.eqb seq timings with
                               | Some l => l | None => [] end)).

Definition bySequenceCount (a b : SequentialPattern) : bool :=
  sp_occurrence_count b <=? sp_occurrence_count a.

Definition mineSequentialPatterns (data : list Post) : list SequentialPattern :=
  let st := tally data in
  JS.slice0 15
    (JS.sort bySequenceCount
       (flat_map (fun kv =>
                    if snd kv <? 3 then []
                    else [patternOf (length (userSequences data)) (sequenceTimings st)
                                    (fst kv) (snd kv)])
                 (sequenceCounts st))).

End PatternMining.

(* ================================================================== *)
(** * Vocabulary of the statements *)
(* ================================================================== *)

(** The trend stored under a key; a key never seen stands for the
    accumulator [trendMap.set] would create for it. *)
Definition trendOf (key : string) (m : TrendAnalysis.TrendMap) : TrendAnalysis.TrendData :=
  match JS.get String.eqb key m with
  | Some t => t
  | None => TrendAnalysis.mkTrend key [] 0 []
  end.

(** The keys a post is filed under, in the order the two loops meet them. *)
Definition extractedKeys (post : Post) : list string :=
  (if JS.truthy (hashtags post) then filter tagOk (trendTags post) else [])
  ++ filter (JS.includes (JS.toLowerCase (content post))) TrendAnalysis.contentKeywords.

(** What joining a trend does to its accumulator. *)
Definition joined (post : Post) (engagement : Z) (t : TrendAnalysis.TrendData)
  : TrendAnalysis.TrendData :=
  TrendAnalysis.mkTrend
    (TrendAnalysis.keyword t)
    (TrendAnalysis.posts t ++ [post])
    (TrendAnalysis.totalEngagement t + engagement)
    (JS.set Z.eqb (weekOf post)
            (TrendAnalysis.bucket (weekOf post) (TrendAnalysis.timeSeries t) + engagement)
            (TrendAnalysis.timeSeries t)).

(** A post with a hashtag that its text repeats. *)
Definition cryptoPost : Post :=
  mkPost "p1" "Twitter" "asha" "crypto is up" "#crypto" "Finance & Crypto"
         100 0 0 "positive" 0 "IN".

(** A post carrying the same hashtag twice. *)
Definition twiceTaggedPost : Post :=
  mkPost "p1" "Twitter" "asha" "hello" "#abc,#abc" "Gaming"
         100 0 0 "positive" 0 "IN".

(** A post whose raw engagement (30) and weighted engagement (60) differ. *)
Definition sharedPost : Post :=
  mkPost "p2" "Reddit" "ravi" "hello" "#abc" "Gaming"
         10 10 10 "neutral" 700000000 "IN".

(** The classifier in the words of the specification, on the numbers of
    the engine. *)
Module ClassifierSpec.
Import PrimFloat.
Open Scope float_scope.

(** The sum of a sequence of rates, from the first to the last. *)
Fixpoint totalFrom (acc : float) (rates : list float) : float :=
  match rates with
  | [] => acc
  | r :: t => totalFrom (acc + r) t
  end.

(** The mean of a sequence of rates. *)
Definition mean (rates : list float) : float :=
  totalFrom 0 rates / Number.ofNat (length rates).

(** The last [k] rates. *)
Definition lastRates (k : nat) (rates : list float) : list float :=
  rev (firstn k (rev rates)).

Definition avgGrowth (rates : list float) : float := mean rates.

Definition recentGrowth (rates : list float) : float :=
  mean (lastRates (Nat.min 3 (length rates)) rates).

(** A sign change between two consecutive rates that counts: the signs
    differ and the later rate's magnitude exceeds 10. *)
Definition changed (earlier later : float) : bool :=
  Number.differ (Number.sign later) (Number.sign earlier) && (10 <? abs later).

Fixpoint changes (rates : list float) : Z :=
  match rates with
  | earlier :: (later :: _) as t =>
      ((if changed earlier later then 1 else 0) + changes t)%Z
  | _ => 0%Z
  end.

Definition isEmerging (rates : list float) : Prop :=
  (30 <? recentGrowth rates) = true /\ (15 <? avgGrowth rates) = true.

Definition isDeclining (rates : list float) : Prop :=
  (recentGrowth rates <? -20) = true /\ (avgGrowth rates <? -10) = true.

Definition isFlat (rates : list float) : Prop :=
  (abs (avgGrowth rates) <? 15) = true.

Definition isCyclical (rates : list float) : Prop :=
  (Number.max 2 (Number.ofNat (length rates) / 3) <=? Number.ofZ (changes rates)) = true.

(** The test of the sign-change loop of the source, at index [i]. *)
Definition changedAt (l : list float) (i : nat) : bool :=
  Number.differ (Number.sign (nth i l 0)) (Number.sign (nth (i - 1) l 0))
  && (10 <? abs (nth i l 0)).

End ClassifierSpec.

(** The two means the specification speaks of, over a trend's members. *)
Definition sumZ (l : list Z) : Z := fold_right Z.add 0 l.

Definition meanRawEngagement (ps : list Post) : R :=
  (IZR (sumZ (map rawEngagement ps)) / INR (length ps))%R.

Definition meanWeightedEngagement (ps : list Post) : R :=
  (IZR (sumZ (map calculateEngagement ps)) / INR (length ps))%R.

(** Eight posts of one topic whose only hashtag ends in the separator
    that [pairKey] joins with. *)
Definition pipePosts : list Post :=
  map (fun i => mkPost "p" "Twitter" "asha" "" "#a|" "z" 100 0 0 "positive" (Z.of_nat i) "IN")
      (seq 0 8).

(** Eight posts of one topic, no hashtags, a capitalised word in the text. *)
Definition helloPosts : list Post :=
  map (fun i => mkPost "p" "Twitter" "asha" "Hello there" "" "Gaming"
                       100 0 0 "positive" (Z.of_nat i) "IN")
      (seq 0 8).

(** A rule without the two fields that depend on [Math.random]. *)
Definition withoutGrowth (r : PatternMining.AssociationRule) : PatternMining.AssociationRule :=
  PatternMining.mkRule
    (PatternMining.rule r) (PatternMining.antecedent r) (PatternMining.consequent r)
    (PatternMining.trend_strength r) (PatternMining.popularity_score r)
    (PatternMining.occurrence_count r) 0 (PatternMining.engagement_impact r)
    (PatternMining.platforms r) "" (PatternMining.examples r).

(** [Math.random()] returns a number in [0, 1). *)
Definition unitStream (rnd : nat -> Q) : Prop :=
  forall n, (0 <= rnd n)%Q /\ (rnd n < 1)%Q.

(** [m.get(key).push(x)], the array created on first use: the shape of
    [rulesByTopic] and [itemsetsByTopic]. *)
Definition pushTo {V : Type} (key : string) (x : V) (m : list (string * list V))
  : list (string * list V) :=
  JS.set String.eqb key
         (match JS.get String.eqb key m with
          | Some l => (l ++ [x])%list
          | None => [x]
          end) m.

(** Where an emitted rule comes from: a pair of [itemPairs] counted eight
    times at least, and one value of the random stream. *)
Definition ruleOrigin (rnd : nat -> Q) (data : list Post)
           (r : PatternMining.AssociationRule) : Prop :=
  exists key pairData n,
    In (key, pairData) (PatternMining.itemPairs data)
    /\ 8 <= PatternMining.count pairData
    /\ r = fst (PatternMining.ruleOf data key pairData (rnd n)).


(** Twelve posts of one pair, all of one week: short of two buckets, the
    growth rate of their rule is drawn at random. *)
Definition sameWeekPosts : list Post :=
  map (fun i => mkPost "p" "Twitter" "asha" "" "#cup" "Cricket" 100 0 0 "positive"
                       (Z.of_nat i) "IN")
      (seq 0 12).


(** A function applied to every grouped element. *)
Definition mapGroups {V W : Type} (f : V -> W) (m : list (string * list V))
  : list (string * list W) :=
  map (fun kv => (fst kv, map f (snd kv))) m.

(** The tail of [mineAssociationRules]: both passes and the cut. *)
Definition diversify (m : PatternMining.RulesByTopic) : list PatternMining.AssociationRule :=
  JS.slice0 30 (PatternMining.secondPass (PatternMining.firstPass m) (PatternMining.allRules m)).

(** The occurrence count the Sequential Miner holds for a transition key
    once every author has been visited. *)
Definition transitionCount (key : string) (data : list Post) : Z :=
  PatternMining.countOf key (PatternMining.sequenceCounts (PatternMining.tally data)).

(** The transitions with key [key] along one author's visits. *)
Fixpoint transitionsOf (key : string) (visits : list PatternMining.Visit) : Z :=
  match visits with
  | a :: (b :: _) as t =>
      (if negb (String.eqb (PatternMining.v_topic a) (PatternMining.v_topic b))
          && String.eqb (PatternMining.seqKey a b) key
       then 1 else 0) + transitionsOf key t
  | _ => 0
  end.

Definition transitionsOfAll (key : string) (entries : list (string * list PatternMining.Visit)) : Z :=
  fold_right (fun e acc => transitionsOf key (PatternMining.sortVisits (snd e)) + acc) 0 entries.

(** The entries of a map whose key passes a test. *)
Definition filterKeys {V : Type} (q : string -> bool) (m : list (string * V)) : list (string * V) :=
  filter (fun kv => q (fst kv)) m.

(** Author [u] posts topic [A] and, later, topic [B]. *)
Definition postsThen (u A B : string) (a b : Post) : Prop :=
  user a = u /\ user b = u /\ topic a = A /\ topic b = B /\ timestamp a < timestamp b.

(** Two authors who talk about cricket and then about gaming, and a third
    who stays with cricket. *)
Definition cricketThenGaming : list Post :=
  [ mkPost "1" "Twitter" "asha" "" "" "Cricket" 1 0 0 "positive" 10 "IN";
    mkPost "2" "Twitter" "ravi" "" "" "Cricket" 1 0 0 "positive" 20 "IN";
    mkPost "3" "Reddit" "meera" "" "" "Cricket" 1 0 0 "positive" 25 "IN";
    mkPost "4" "Reddit" "ravi" "" "" "Gaming" 1 0 0 "positive" 30 "IN";
    mkPost "5" "Reddit" "meera" "" "" "Cricket" 1 0 0 "positive" 35 "IN";
    mkPost "6" "Twitter" "asha" "" "" "Gaming" 1 0 0 "positive" 40 "IN" ].

(** A string without the separator ["|"]. *)
Fixpoint pipeFree (s : string) : bool :=
  match s with
  | EmptyString => true
  | String c r => negb (Ascii.eqb c "|") && pipeFree r
  end.

(** A rule whose two items are in code-unit order. *)
Definition ordered (r : PatternMining.AssociationRule) : Prop :=
  exists x y,
    PatternMining.antecedent r = [x] /\ PatternMining.consequent r = [y]
    /\ String.leb x y = true.

(** Eight posts of one topic, no hashtags, whose only capitalised word is
    the topic itself. *)
Definition gamingPosts : list Post :=
  map (fun i => mkPost "p" "Twitter" "asha" "Gaming is fun" "" "Gaming"
                       100 0 0 "positive" (Z.of_nat i) "IN")
      (seq 0 8).

(** A list ranked by a score, best first: every element scores at least
    as much as every later one. *)
Definition descendingBy {A : Type} (score : A -> Z) (l : list A) : Prop :=
  StronglySorted (fun a b => score b <= score a) l.

(** Whether a character occurs in a string. *)
Fixpoint hasChar (c : ascii) (s : string) : bool :=
  match s with
  | EmptyString => false
  | String c' r => Ascii.eqb c' c || hasChar c r
  end.

(** One capital letter followed by lower-case letters, one at least:
    the shape [[A-Z][a-z]+]. *)
Definition allLower (s : string) : bool :=
  forallb JS.is_lower (list_ascii_of_string s).

Definition capitalised (w : string) : bool :=
  match w with
  | String c r => JS.is_upper c && JS.truthy r && allLower r
  | EmptyString => false
  end.

(** The number of times a key occurs in a list of keys. *)
Definition occurrences (key : string) (keys : list string) : Z :=
  Z.of_nat (length (filter (String.eqb key) keys)).

(** The count [itemPairs] holds for a key, 0 for a key it does not hold. *)
Definition pairCount (key : string) (m : PatternMining.PairMap) : Z :=
  match JS.get String.eqb key m with
  | Some pairData => PatternMining.count pairData
  | None => 0
  end.

(** Every pair key the posts of a collection give rise to, post by post. *)
Definition allPairKeys (data : list Post) : list string :=
  flat_map (fun post => if JS.truthy (topic post)
                        then PatternMining.pairsOf (PatternMining.itemsOf post)
                        else [])
           data.

(** The entry of a key, a fresh one for a key not met yet. *)
Definition pairOf (key : string) (m : PatternMining.PairMap) : PatternMining.PairData :=
  match JS.get String.eqb key m with
  | Some pairData => pairData
  | None => PatternMining.mkPair 0 [] []
  end.

(** What one more occurrence does to an entry. *)
Definition bumped (post : Post) (pairData : PatternMining.PairData) : PatternMining.PairData :=
  PatternMining.mkPair
    (PatternMining.count pairData + 1)
    (if (length (PatternMining.posts pairData) <? 5)%nat
     then PatternMining.posts pairData ++ [post] else PatternMining.posts pairData)
    (JS.setAdd (topic post) (PatternMining.topics pairData)).

(** An entry as [itemPairs] keeps it: counted once at least, with the
    first five contributing posts and the topics of all of them. *)
Definition wellCounted (pairData : PatternMining.PairData) : Prop :=
  1 <= PatternMining.count pairData
  /\ Z.of_nat (length (PatternMining.posts pairData)) = Z.min (PatternMining.count pairData) 5
  /\ PatternMining.topics pairData <> []
  /\ NoDup (PatternMining.topics pairData).

(** Twelve posts of one pair spread over three weeks: 2, 4 and 6. *)
Definition threeWeekPosts : list Post :=
  map (fun w => mkPost "p" "Twitter" "asha" "" "#cup" "Cricket" 100 0 0 "positive"
                       (w * 604800000) "IN")
      [0; 0; 1; 1; 2; 1; 1; 2; 2; 2; 2; 2].

(** Where an emitted itemset comes from: a key of [itemsetCounts] counted
    eight times at least. *)
Definition itemsetOrigin (data : list Post) (s : PatternMining.FrequentItemset) : Prop :=
  exists key d,
    In (key, d) (PatternMining.itemsetCounts data)
    /\ 8 <= PatternMining.is_count d
    /\ s = PatternMining.itemsetOf data key d.

(** Posts with a topic and two hashtags, nine of one kind and eight of
    another. *)
Definition taggedPosts : list Post :=
  map (fun i => mkPost "p" "Twitter" "asha" "" "#ipl, #cup" "Cricket" 100 0 0 "positive"
                       (Z.of_nat i) "IN") (seq 0 9)
  ++ map (fun i => mkPost "q" "Reddit" "ravi" "" "#ps5" "Gaming" 100 0 0 "positive"
                          (Z.of_nat i) "IN") (seq 0 8).

(** The five bands of an average transition time. *)
Definition durationBands : list string :=
  ["< 1 day"; "1-3 days"; "3-7 days"; "1-2 weeks"; "2+ weeks"].

(** A post the Sequential Miner takes: it has an author and a topic. *)
Definition sequenced (p : Post) : bool := JS.truthy (user p) && JS.truthy (topic p).

(** The visits of an author, in the order of the collection. *)
Definition visitsOf (u : string) (data : list Post) : list PatternMining.Visit :=
  map (fun p => PatternMining.mkVisit (topic p) (timestamp p))
      (filter (fun p => sequenced p && String.eqb (user p) u) data).

(** Three authors who each go from cricket to gaming. *)
Definition threeFans : list Post :=
  flat_map (fun u => [ mkPost "1" "Twitter" u "" "" "Cricket" 1 0 0 "positive" 0 "IN";
                       mkPost "2" "Twitter" u "" "" "Gaming" 1 0 0 "positive" 172800000 "IN" ])
           ["asha"; "ravi"; "meera"].

(** Every counted transition has one elapsed time at least on record. *)
Definition timed (st : PatternMining.Tally) : Prop :=
  forall key, JS.has String.eqb key (PatternMining.sequenceCounts st) = true ->
              exists l, JS.get String.eqb key (PatternMining.sequenceTimings st) = Some l
                        /\ l <> [].

(** A trend as the aggregator of the temporal page keeps it, for the
    collection [data]. *)
Definition accounted (data : list Post) (kv : string * TrendAnalysis.TrendData) : Prop :=
  TrendAnalysis.keyword (snd kv) = fst kv
  /\ TrendAnalysis.totalEngagement (snd kv)
     = sumZ (map rawEngagement (TrendAnalysis.posts (snd kv)))
  /\ TrendAnalysis.totalEngagement (snd kv)
     = sumZ (map snd (TrendAnalysis.timeSeries (snd kv)))
  /\ Forall (fun p => In p data
                      /\ TrendAnalysis.engagementThreshold <= rawEngagement p
                      /\ In (fst kv) (extractedKeys p))
            (TrendAnalysis.posts (snd kv)).

(** Posts of two hashtags over several weeks. *)
Definition seasonPosts : list Post :=
  [ mkPost "a" "Twitter" "asha" "" "#cup" "Cricket" 30 0 0 "positive" 0 "IN";
    mkPost "b" "Twitter" "ravi" "" "#cup, #ipl" "Cricket" 60 0 0 "positive" 604800000 "IN";
    mkPost "c" "Reddit" "asha" "" "#ipl" "Cricket" 300 0 0 "positive" 1209600000 "IN";
    mkPost "d" "Reddit" "meera" "" "#cup" "Cricket" 5 5 5 "positive" 1209600000 "IN";
    mkPost "e" "Reddit" "meera" "" "#ipl" "Cricket" 90 5 5 "positive" 1814400000 "IN" ].

(* ================================================================== *)
(** * The feeds and scores of the dashboards (part_001, part_002) *)
(* ================================================================== *)

Module Feeds.

(** [selectedInterests.includes(topic)]. *)
Definition selected (selectedInterests : list string) (topic : string) : bool :=
  existsb (String.eqb topic) selectedInterests.

(** [prev.includes(topic) ? prev.filter(t => t !== topic) : [...prev, topic]]. *)
Definition toggleInterest (topic : string) (prev : list string) : list string :=
  if selected prev topic
  then filter (fun t => negb (String.eqb t topic)) prev
  else prev ++ [topic].

(** [Array.from(new Map(posts.map(post => [post.post_id, post])).values())]:
    a post id keeps the place of its first post and the value of its last. *)
Definition uniqueById (posts : list Post) : list Post :=
  map snd (fold_left (fun m post => JS.set String.eqb (post_id post) post m) posts []).

Section ForYou.
Context {Trend : Type} (topicsOf : Trend -> list string) (postsOf : Trend -> list Post).

(** [forYouFeed], over the trends [extractTrends] returned. *)
Definition forYouFeed (extractTrends : list Trend) (selectedInterests : list string)
  : list Post :=
  match selectedInterests with
  | [] => []
  | _ =>
      let matchingPosts :=
        JS.sort (fun a b => rawEngagement b <=? rawEngagement a)
                (flat_map postsOf
                          (filter (fun trend => existsb (selected selectedInterests)
                                                        (topicsOf trend))
                                  extractTrends)) in
      JS.slice0 20 (uniqueById matchingPosts)
  end.

(** [relevanceScore] of the earlier dashboard: the share of the trends
    that touch a selected topic. *)
Definition trendRelevance (extractTrends : list Trend) (selectedInterests : list string) : Z :=
  match selectedInterests, extractTrends with
  | [], _ => 0
  | _, [] => 0
  | _, _ =>
      JS.round (Qmult (Qdiv (inject_Z (Z.of_nat
                               (length (filter (fun trend => existsb (selected selectedInterests)
                                                                     (topicsOf trend))
                                               extractTrends))))
                            (inject_Z (Z.of_nat (length extractTrends))))
                      100)
  end.
End ForYou.

(** [topicCounts]: posts per topic, topics in order of first appearance. *)
Definition topicCounts (data : list Post) : list (string * Z) :=
  fold_left (fun m post =>
               JS.set String.eqb (topic post)
                      (match JS.get String.eqb (topic post) m with
                       | Some n => n | None => 0 end + 1) m)
            data [].

(** [relevanceScore] of the later dashboard, front-end branch: the share
    of the posts in the three most common topics when nothing is
    selected, else the share of the posts whose topic is selected. *)
Definition relevanceScore (data : list Post) (selectedInterests : list string) : Z :=
  match selectedInterests with
  | [] =>
      match data with
      | [] => 0
      | _ =>
          let topTopics :=
            JS.slice0 3 (JS.sort (fun a b : string * Z => snd b <=? snd a) (topicCounts data)) in
          let topCount := fold_left (fun sum e => sum + snd e) topTopics 0 in
          JS.round (Qmult (Qdiv (inject_Z topCount) (inject_Z (Z.of_nat (length data)))) 100)
      end
  | _ =>
      match data with
      | [] => 0
      | _ =>
          let matchingPosts := filter (fun post => selected selectedInterests (topic post)) data in
          JS.round (Qmult (Qdiv (inject_Z (Z.of_nat (length matchingPosts)))
                                (inject_Z (Z.of_nat (length data)))) 100)
      end
  end.

(** [activePosts], front-end branch: the posts with engagement above 1000. *)
Definition activePosts (data : list Post) : nat :=
  length (filter (fun post => 1000 <? rawEngagement post) data).

End Feeds.

(** The feed of the earlier dashboard, over its own trends. *)
Definition basicFeed (data : list Post) (selectedInterests : list string) : list Post :=
  Feeds.forYouFeed DashboardBasic.t_topics DashboardBasic.t_posts
                   (DashboardBasic.extractTrends data) selectedInterests.

(** The trend of a key in the later dashboard. *)
Definition dashTrendOf (key : string) (m : Dashboard.TrendMap) : Dashboard.TrendData :=
  match JS.get String.eqb key m with
  | Some t => t
  | None => Dashboard.mkTrend key [] 0 [] []
  end.

(** The tags and the vocabulary keywords of a post, for the later dashboard. *)
Definition dashTags (post : Post) : list string :=
  if JS.truthy (hashtags post) then filter tagOk (trendTags post) else [].

Definition dashKeywords (post : Post) : list string :=
  filter (JS.includes (JS.toLowerCase (content post))) Dashboard.contentKeywords.

(** A trend of the later dashboard as its loop keeps it. *)
Definition dashAccounted (data : list Post) (kv : string * Dashboard.TrendData) : Prop :=
  Dashboard.keyword (snd kv) = fst kv
  /\ Dashboard.totalEngagement (snd kv) = sumZ (map rawEngagement (Dashboard.posts (snd kv)))
  /\ Dashboard.topics (snd kv) = Dashboard.distinct (map topic (Dashboard.posts (snd kv)))
  /\ Dashboard.platforms (snd kv) = Dashboard.distinct (map platform (Dashboard.posts (snd kv)))
  /\ Forall (fun p => In p data /\ Dashboard.engagementThreshold <= rawEngagement p)
            (Dashboard.posts (snd kv)).

(** Two posts that share a hashtag and a keyword of the vocabulary. *)
Definition cricketPosts : list Post :=
  [ mkPost "1" "Twitter" "asha" "cricket tonight" "#cricket, #ipl" "Cricket"
           400 50 50 "positive" 0 "IN";
    mkPost "2" "Reddit" "ravi" "what a match" "#ipl" "Cricket"
           900 100 200 "positive" 1000 "IN";
    mkPost "3" "Reddit" "meera" "new console" "#ps5" "Gaming"
           90 10 20 "positive" 2000 "IN" ].

(** A trend of the earlier dashboard as its loop keeps it. *)
Definition basicAccounted (data : list Post) (kv : string * DashboardBasic.TrendData) : Prop :=
  DashboardBasic.keyword (snd kv) = fst kv
  /\ DashboardBasic.totalEngagement (snd kv)
     = sumZ (map rawEngagement (DashboardBasic.posts (snd kv)))
  /\ Forall (fun p => In p data /\ DashboardBasic.engagementThreshold <= rawEngagement p)
            (DashboardBasic.posts (snd kv)).

(* ================================================================== *)
(** * TrendAnalysis.tsx: the platform matrix *)
(* ================================================================== *)

Module PlatformMatrix.

(** The object [{ YouTube: 0, Twitter: 0, Reddit: 0, Google: 0 }]. *)
Record PlatformData : Type := mkPlatforms {
  YouTube : Z;
  Twitter : Z;
  Reddit : Z;
  Google : Z
}.

Record PlatformTopicMatrix : Type := mkRow {
  pm_topic : string;
  pm_platforms : PlatformData;
  dominantPlatform : string;
  crossPlatformScore : Z
}.

Definition Matrix : Type := list (string * list (string * Z)).

(** One turn of the first [data.forEach]: the cell of the post's topic
    and platform grows by the post's weighted engagement. *)
Definition matrixStep (matrix : Matrix) (post : Post) : Matrix :=
  let matrix := if JS.has String.eqb (topic post) matrix then matrix
                else JS.set String.eqb (topic post) [] matrix in
  match JS.get String.eqb (topic post) matrix with
  | None => matrix
  | Some topicPlatforms =>
      JS.set String.eqb (topic post)
             (JS.set String.eqb (platform post)
                     (match JS.get String.eqb (platform post) topicPlatforms with
                      | Some v => v | None => 0 end + calculateEngagement post)
                     topicPlatforms)
             matrix
  end.

Definition matrixOf (data : list Post) : Matrix := fold_left matrixStep data [].

(** [platform === 'Youtube' ? 'YouTube' : platform]. *)
Definition mappedPlatform (platform : string) : string :=
  if String.eqb platform "Youtube" then "YouTube" else platform.

(** [platformData.hasOwnProperty(name)]. *)
Definition hasOwnProperty (name : string) : bool :=
  String.eqb name "YouTube" || String.eqb name "Twitter"
  || String.eqb name "Reddit" || String.eqb name "Google".

(** [platformData[name] = value], for an own property. *)
Definition assign (name : string) (value : Z) (d : PlatformData) : PlatformData :=
  if String.eqb name "YouTube" then mkPlatforms value (Twitter d) (Reddit d) (Google d)
  else if String.eqb name "Twitter" then mkPlatforms (YouTube d) value (Reddit d) (Google d)
  else if String.eqb name "Reddit" then mkPlatforms (YouTube d) (Twitter d) value (Google d)
  else if String.eqb name "Google" then mkPlatforms (YouTube d) (Twitter d) (Reddit d) value
  else d.

(** [Object.values(platformData)]. *)
Definition values (d : PlatformData) : list Z := [YouTube d; Twitter d; Reddit d; Google d].

Record Scan : Type := mkScan {
  platformData : PlatformData;
  maxPlatform : string;
  maxValue : Z;
  totalEngagement : Z
}.

(** One turn of [platforms.forEach((value, platform) => ...)]. *)
Definition scanStep (st : Scan) (entry : string * Z) : Scan :=
  let name := mappedPlatform (fst entry) in
  let value := snd entry in
  if hasOwnProperty name then
    mkScan (assign name value (platformData st))
           (if maxValue st <? value then name else maxPlatform st)
           (if maxValue st <? value then value else maxValue st)
           (totalEngagement st + value)
  else st.

Definition scan (platforms : list (string * Z)) : Scan :=
  fold_left scanStep platforms (mkScan (mkPlatforms 0 0 0 0) "" 0 0).

(** [Math.round(100 - Math.min(100, (Math.sqrt(variance) / (avg + 1)) * 100))]. *)
Definition scoreOf (st : Scan) : Z :=
  let avg := (IZR (totalEngagement st) / 4)%R in
  let variance :=
    (fold_left (fun acc val => acc + (IZR val - avg) ^ 2) (values (platformData st)) 0 / 4)%R in
  Dashboard.Rround (100 - Rmin 100 (sqrt variance / (avg + 1) * 100))%R.

Definition rowOf (topic : string) (platforms : list (string * Z)) : PlatformTopicMatrix :=
  let st := scan platforms in
  mkRow topic (platformData st) (maxPlatform st) (scoreOf st).

(** [Object.values(row.platforms).reduce((sum, v) => sum + v, 0)]. *)
Definition rowTotal (row : PlatformTopicMatrix) : Z :=
  fold_left Z.add (values (pm_platforms row)) 0.

Definition processPlatformMatrix (data : list Post) : list PlatformTopicMatrix :=
  JS.slice0 15
    (JS.sort (fun a b => rowTotal b <=? rowTotal a)
             (map (fun kv => rowOf (fst kv) (snd kv)) (matrixOf data))).

End PlatformMatrix.

(** The cell of a topic and a platform, 0 when the matrix has none. *)
Definition cell (topic platform : string) (m : PlatformMatrix.Matrix) : Z :=
  match JS.get String.eqb topic m with
  | Some row => match JS.get String.eqb platform row with Some v => v | None => 0 end
  | None => 0
  end.


(** A post whose counts are not negative. *)
Definition countsNonneg (p : Post) : Prop := 0 <= likes p /\ 0 <= shares p /\ 0 <= comments p.

(** Three posts of one hashtag whose weekly totals are 20, 42 and 21:
    the first growth rate, (42 - 20) / 20 * 100, is 110.00000000000001
    in binary64. *)
Definition roundingPosts : list Post :=
  [ mkPost "a" "Twitter" "asha" "" "#cup" "Cricket" 20 0 0 "positive" 0 "IN";
    mkPost "b" "Twitter" "ravi" "" "#cup" "Cricket" 42 0 0 "positive" 604800000 "IN";
    mkPost "c" "Reddit" "asha" "" "#cup" "Cricket" 21 0 0 "positive" 1209600000 "IN" ].

(** What an emitted temporal pattern is computed from: a trend of the
    aggregator, filed under the pattern's topic, with one growth rate at
    least. *)
Definition classified (data : list Post) (p : TemporalPatterns.TemporalPattern) : Prop :=
  exists t,
    In (TemporalPatterns.tp_topic p, t) (TrendAnalysis.aggregate data)
    /\ TemporalPatterns.growthRates (TrendAnalysis.weeklyValues t) <> []
    /\ TemporalPatterns.tp_pattern p
       = TemporalPatterns.classify (TemporalPatterns.growthRates (TrendAnalysis.weeklyValues t))
    /\ TemporalPatterns.weeklyGrowth p
       = map Number.round (TemporalPatterns.growthRates (TrendAnalysis.weeklyValues t))
    /\ TemporalPatterns.peakTime p = TrendAnalysis.peakTimeOf (TemporalPatterns.tp_pattern p).

(** The rational a finite double stands for. *)
Definition valueOf (x : PrimFloat.float) : Q :=
  match FloatOps.Prim2SF x with
  | SpecFloat.S754_finite s m e =>
      (inject_Z (if s then Z.neg m else Z.pos m) * Qpower 2 e)%Q
  | _ => 0%Q
  end.

(** The topic and the total of a pattern, which rank the output. *)
Definition rankOf (p : TemporalPatterns.TemporalPattern) : string * Z :=
  (TemporalPatterns.tp_topic p, TemporalPatterns.tp_totalEngagement p).

Definition exactRankOf (p : TrendAnalysis.TemporalPattern) : string * Z :=
  (TrendAnalysis.tp_topic p, TrendAnalysis.tp_totalEngagement p).

(** Author [u] posts [a] on topic [A] and, as the next post in time
    order, [b] on topic [B]: in [data], every post of [u] that has a
    topic and a time from [a]'s to [b]'s is [a] or [b]. *)
Definition postsNext (data : list Post) (u A B : string) (a b : Post) : Prop :=
  In a data /\ In b data /\ postsThen u A B a b
  /\ forall p, In p data -> user p = u -> topic p <> "" ->
               timestamp a <= timestamp p <= timestamp b -> p = a \/ p = b.

(** The posts of [u] up to the time of [a], and from the time of [b] on. *)
Definition upTo (u : string) (a : Post) (data : list Post) : list Post :=
  filter (fun p => String.eqb (user p) u && (timestamp p <=? timestamp a)) data.

Definition from (u : string) (b : Post) (data : list Post) : list Post :=
  filter (fun p => String.eqb (user p) u && (timestamp b <=? timestamp p)) data.

(** The posts of every other author. *)
Definition others (u1 u2 : string) (data : list Post) : list Post :=
  filter (fun p => negb (String.eqb (user p) u1) && negb (String.eqb (user p) u2)) data.

(** Two authors who post about cricket and later about gaming; the
    first posts about music in between. *)
Definition interleavedPosts : list Post :=
  [ mkPost "1" "Twitter" "asha" "" "" "Cricket" 1 0 0 "positive" 10 "IN";
    mkPost "2" "Twitter" "asha" "" "" "Music" 1 0 0 "positive" 15 "IN";
    mkPost "3" "Twitter" "asha" "" "" "Gaming" 1 0 0 "positive" 20 "IN";
    mkPost "4" "Reddit" "ravi" "" "" "Cricket" 1 0 0 "positive" 12 "IN";
    mkPost "5" "Reddit" "ravi" "" "" "Gaming" 1 0 0 "positive" 30 "IN" ].

(** Two authors whose post about cricket is followed by one about
    gaming; the first wrote about music before, and a third author
    stays with cricket. *)
Definition busyAuthors : list Post :=
  [ mkPost "0" "Twitter" "asha" "" "" "Music" 1 0 0 "positive" 5 "IN";
    mkPost "1" "Twitter" "asha" "" "" "Cricket" 1 0 0 "positive" 10 "IN";
    mkPost "2" "Reddit" "ravi" "" "" "Cricket" 1 0 0 "positive" 12 "IN";
    mkPost "3" "Reddit" "meera" "" "" "Cricket" 1 0 0 "positive" 14 "IN";
    mkPost "4" "Twitter" "asha" "" "" "Gaming" 1 0 0 "positive" 20 "IN";
    mkPost "5" "Reddit" "meera" "" "" "Cricket" 1 0 0 "positive" 25 "IN";
    mkPost "6" "Reddit" "ravi" "" "" "Gaming" 1 0 0 "positive" 30 "IN" ].

(** The visit the Sequential Miner records for a post. *)
Definition visitOf (p : Post) : PatternMining.Visit :=
  PatternMining.mkVisit (topic p) (timestamp p).

(** The weekly buckets a list of posts falls in. *)
Definition weekBuckets (ps : list Post) : list Z := nodup Z.eq_dec (map weekOf ps).

(** A rule built from an entry of [itemPairs], for some outcome of
    [Math.random]. *)
Definition builtFrom (data : list Post) (key : string) (pairData : PatternMining.PairData)
           (r : PatternMining.AssociationRule) : Prop :=
  exists x : Q, r = fst (PatternMining.ruleOf data key pairData x).

(** Two rules that two runs report at the same rank: they are built from
    the same entry, counted eight times at least; they agree on every
    field but the growth rate and the direction drawn from it, and on
    these too when the example posts of the entry fall in two weekly
    buckets at least. *)
Definition agree (data : list Post) (r1 r2 : PatternMining.AssociationRule) : Prop :=
  withoutGrowth r1 = withoutGrowth r2
  /\ exists key pairData,
       In (key, pairData) (PatternMining.itemPairs data)
       /\ 8 <= PatternMining.count pairData
       /\ builtFrom data key pairData r1
       /\ builtFrom data key pairData r2
       /\ ((2 <= length (weekBuckets (PatternMining.posts pairData)))%nat -> r1 = r2).

(** The four ranked collections of a run. *)
Record MiningResults : Type := mkResults {
  associationRules : list PatternMining.AssociationRule;
  frequentItemsets : list PatternMining.FrequentItemset;
  sequentialPatterns : list PatternMining.SequentialPattern;
  temporalPatterns : list TemporalPatterns.TemporalPattern
}.

(** One run of the full pipeline on a collection: the three miners of
    the pattern page, in the order in which its loader calls them, and
    the temporal patterns of the analysis page; [rnd] is what
    [Math.random] returns during the run, call after call. *)
Definition pipeline (rnd : nat -> Q) (data : list Post) : MiningResults :=
  let rules := PatternMining.mineAssociationRules rnd data in
  let itemsets := PatternMining.mineFrequentItemsets data in
  let sequences := PatternMining.mineSequentialPatterns data in
  mkResults rules itemsets sequences (TemporalPatterns.processTemporalPatterns data).

(** Two groupings with the same topics whose rules are related rank by
    rank. *)
Definition related (R : PatternMining.AssociationRule -> PatternMining.AssociationRule -> Prop)
           (m m' : PatternMining.RulesByTopic) : Prop :=
  Forall2 (fun g g' => fst g = fst g' /\ Forall2 R (snd g) (snd g')) m m'.

(** Eight posts of one pair in one week, then four more in the next:
    the five example posts are of the first week, and the growth rate of
    their rule is drawn at random; and the same pair with its first five
    posts over two weeks. *)
Definition lateWeekPosts : list Post :=
  map (fun w => mkPost "p" "Twitter" "asha" "" "#cup" "Cricket" 100 0 0 "positive"
                       (w * 604800000) "IN")
      [0; 0; 0; 0; 0; 0; 0; 0; 1; 1; 1; 1].

Definition twoWeekPosts : list Post :=
  map (fun w => mkPost "p" "Twitter" "asha" "" "#cup" "Cricket" 100 0 0 "positive"
                       (w * 604800000) "IN")
      [0; 0; 1; 1; 1; 0; 0; 0; 1; 1; 1; 1].

(* ================================================================== *)
(** * Facts about the primitives *)
(* ================================================================== *)

Section OrderedMapFacts.
Context {K V : Type} (keq : K -> K -> bool).
Hypothesis keq_spec : forall a b, keq a b = true <-> a = b.

Lemma keq_refl : forall a, keq a a = true.
Proof. intro a. apply keq_spec. reflexivity. Qed.

Lemma keq_neq : forall a b, a <> b -> keq a b = false.
Proof.
  intros a b H. destruct (keq a b) eqn:E; [|reflexivity].
  apply keq_spec in E. contradiction.
Qed.

Lemma get_set_same : forall k (v : V) m, JS.get keq k (JS.set keq k v m) = Some v.
Proof.
  intros k v m. induction m as [|[k' v'] t IH]; simpl.
  - rewrite keq_refl. reflexivity.
  - destruct (keq k k') eqn:E; simpl; rewrite E; [reflexivity | exact IH].
Qed.

Lemma get_set_other : forall k k' (v : V) m,
    k <> k' -> JS.get keq k' (JS.set keq k v m) = JS.get keq k' m.
Proof.
  intros k k' v m Hne. induction m as [|[k0 v0] t IH]; simpl.
  - rewrite keq_neq by congruence. reflexivity.
  - destruct (keq k k0) eqn:E; simpl.
    + apply keq_spec in E. subst k0.
      rewrite keq_neq by congruence. reflexivity.
    + destruct (keq k' k0); [reflexivity | exact IH].
Qed.

(** Every value of the updated map is the new value or an old one. *)
Lemma in_set_inv : forall k (v : V) m kv,
    In kv (JS.set keq k v m) -> snd kv = v \/ In kv m.
Proof.
  intros k v m kv. induction m as [|[k0 v0] t IH]; simpl.
  - intros [<-|[]]. left. reflexivity.
  - destruct (keq k k0); simpl.
    + intros [<-|H]; [left; reflexivity | right; right; exact H].
    + intros [<-|H]; [right; left; reflexivity|].
      destruct (IH H) as [E|E]; [left; exact E | right; right; exact E].
Qed.

Lemma get_in : forall k (v : V) m, JS.get keq k m = Some v -> In (k, v) m.
Proof.
  intros k v m. induction m as [|[k0 v0] t IH]; simpl; [discriminate|].
  destruct (keq k k0) eqn:E.
  - apply keq_spec in E. subst k0. intros [= ->]. left. reflexivity.
  - intro H. right. exact (IH H).
Qed.
End OrderedMapFacts.

Lemma string_eqb_spec : forall a b : string, String.eqb a b = true <-> a = b.
Proof. exact String.eqb_eq. Qed.

Lemma z_eqb_spec : forall a b : Z, Z.eqb a b = true <-> a = b.
Proof. exact Z.eqb_eq. Qed.

Lemma hasId_app : forall id ps qs, hasId id (ps ++ qs) = hasId id ps || hasId id qs.
Proof. intros. unfold hasId. apply existsb_app. Qed.

Lemma hasId_false_notin : forall id ps, hasId id ps = false -> ~ In id (map post_id ps).
Proof.
  intros id ps H Hin. apply in_map_iff in Hin. destruct Hin as [p [E Hp]].
  unfold hasId in H.
  assert (existsb (fun p => String.eqb (post_id p) id) ps = true) as C.
  { apply existsb_exists. exists p. split; [exact Hp|]. apply String.eqb_eq. exact E. }
  congruence.
Qed.

(* ================================================================== *)
(** * Trend aggregation (TrendAnalysis.tsx) *)
(* ================================================================== *)

Section Aggregator.
Import TrendAnalysis.

Variable post : Post.
Let e := rawEngagement post.
Let w := weekOf post.

Lemma trendOf_ensure : forall key k m, trendOf k (ensure key m) = trendOf k m.
Proof.
  intros key k m. unfold ensure, JS.has.
  destruct (JS.get String.eqb key m) eqn:G; [reflexivity|].
  unfold trendOf. destruct (String.eqb_spec key k) as [->|Hne].
  - rewrite (get_set_same _ string_eqb_spec), G. reflexivity.
  - rewrite (get_set_other _ string_eqb_spec) by exact Hne. reflexivity.
Qed.

Lemma get_ensure : forall key m,
    JS.get String.eqb key (ensure key m) = Some (trendOf key m).
Proof.
  intros key m. unfold ensure, JS.has, trendOf.
  destruct (JS.get String.eqb key m) eqn:G; [exact G|].
  apply (get_set_same _ string_eqb_spec).
Qed.

(** The accumulator of [key] after the loop body ran for [key]. *)
Lemma trendOf_addToTrend_same : forall key m,
    trendOf key (addToTrend post e w key m)
    = if hasId (post_id post) (posts (trendOf key m))
      then trendOf key m else joined post e (trendOf key m).
Proof.
  intros key m. unfold addToTrend. rewrite get_ensure.
  destruct (hasId (post_id post) (posts (trendOf key m))).
  - apply trendOf_ensure.
  - unfold trendOf at 1. rewrite (get_set_same _ string_eqb_spec). reflexivity.
Qed.

(** Other accumulators are left alone. *)
Lemma trendOf_addToTrend_other : forall key k m,
    key <> k -> trendOf k (addToTrend post e w key m) = trendOf k m.
Proof.
  intros key k m Hne. unfold addToTrend. rewrite get_ensure.
  destruct (hasId (post_id post) (posts (trendOf key m))).
  - apply trendOf_ensure.
  - unfold trendOf at 1. rewrite (get_set_other _ string_eqb_spec) by exact Hne.
    fold (trendOf k (ensure key m)). apply trendOf_ensure.
Qed.

Lemma hasId_joined : forall ps, hasId (post_id post) (ps ++ [post]) = true.
Proof.
  intro ps. rewrite hasId_app. simpl. rewrite String.eqb_refl.
  rewrite orb_true_r. reflexivity.
Qed.

(** Running the loop body over a list of keys: a key of the list gains
    the post once, however often it occurs; the others are unchanged. *)
Lemma trendOf_fold_addToTrend : forall keys k m,
    trendOf k (fold_left (fun m key => addToTrend post e w key m) keys m)
    = if existsb (String.eqb k) keys && negb (hasId (post_id post) (posts (trendOf k m)))
      then joined post e (trendOf k m) else trendOf k m.
Proof.
  induction keys as [|a rest IH]; intros k m; simpl; [reflexivity|].
  rewrite IH. destruct (String.eqb_spec k a) as [<-|Hne]; simpl.
  - rewrite trendOf_addToTrend_same.
    destruct (hasId (post_id post) (posts (trendOf k m))) eqn:H; simpl.
    + rewrite H, andb_false_r. reflexivity.
    + rewrite hasId_joined, andb_false_r. reflexivity.
  - rewrite trendOf_addToTrend_other by congruence. reflexivity.
Qed.

Lemma fold_left_guarded : forall (A B : Type) (f : A -> B -> A) (g : B -> bool) l a,
    fold_left (fun a b => if g b then f a b else a) l a
    = fold_left f (filter g l) a.
Proof.
  intros A B f g l. induction l as [|b t IH]; intro a; simpl; [reflexivity|].
  destruct (g b); simpl; apply IH.
Qed.

(** [processPost] is the loop body run over [extractedKeys]. *)
Lemma processPost_keys : forall m,
    engagementThreshold <= e ->
    processPost m post
    = fold_left (fun m key => addToTrend post e w key m) (extractedKeys post) m.
Proof.
  intros m He. unfold processPost. fold e. fold w.
  destruct (e <? engagementThreshold) eqn:L; [apply Z.ltb_lt in L; lia|].
  unfold extractedKeys. rewrite fold_left_app.
  rewrite (fold_left_guarded _ _ (fun m key => addToTrend post e w key m)
                             (JS.includes (JS.toLowerCase (content post)))).
  f_equal. destruct (JS.truthy (hashtags post)); [|reflexivity].
  apply (fold_left_guarded _ _ (fun m key => addToTrend post e w key m) tagOk).
Qed.
End Aggregator.

(** Supporting fact for C1: in the temporal page both loops test
    membership, so there a trend never lists a post id twice. *)
Lemma temporal_members_unique : forall (data : list Post) (kv : string * TrendAnalysis.TrendData),
    In kv (TrendAnalysis.aggregate data) ->
    NoDup (map post_id (TrendAnalysis.posts (snd kv))).
Proof.
  intro data. unfold TrendAnalysis.aggregate.
  assert (Hgen : forall m,
             (forall kv, In kv m -> NoDup (map post_id (TrendAnalysis.posts (snd kv)))) ->
             forall kv, In kv (fold_left TrendAnalysis.processPost data m) ->
                        NoDup (map post_id (TrendAnalysis.posts (snd kv)))).
  { induction data as [|post rest IH]; intros m Hm; simpl; [exact Hm|].
    apply IH. clear IH.
    assert (Hadd : forall e w key m0,
               (forall kv, In kv m0 -> NoDup (map post_id (TrendAnalysis.posts (snd kv)))) ->
               forall kv, In kv (TrendAnalysis.addToTrend post e w key m0) ->
                          NoDup (map post_id (TrendAnalysis.posts (snd kv)))).
    { intros e w key m0 H0.
      assert (He : forall kv, In kv (TrendAnalysis.ensure key m0) ->
                              NoDup (map post_id (TrendAnalysis.posts (snd kv)))).
      { unfold TrendAnalysis.ensure. destruct (JS.has String.eqb key m0); [exact H0|].
        intros kv Hin. apply in_set_inv in Hin. destruct Hin as [-> | Hin].
        - simpl. constructor.
        - apply H0. exact Hin. }
      unfold TrendAnalysis.addToTrend.
      destruct (JS.get String.eqb key (TrendAnalysis.ensure key m0)) as [t|] eqn:G; [|exact He].
      destruct (hasId (post_id post) (TrendAnalysis.posts t)) eqn:Hid; [exact He|].
      intros kv Hin. apply in_set_inv in Hin. destruct Hin as [-> | Hin]; [|apply He; exact Hin].
      simpl. rewrite map_app. simpl.
      apply NoDup_app_remove_l with (l := []). simpl.
      apply Permutation_NoDup with (l := post_id post :: map post_id (TrendAnalysis.posts t)).
      - apply Permutation_cons_append.
      - constructor.
        + apply hasId_false_notin. exact Hid.
        + apply (He (key, t)). apply (get_in _ string_eqb_spec). exact G. }
    assert (Hfold : forall (g : string -> bool) e w keys m0,
               (forall kv, In kv m0 -> NoDup (map post_id (TrendAnalysis.posts (snd kv)))) ->
               forall kv,
                 In kv (fold_left (fun m key => if g key
                                                then TrendAnalysis.addToTrend post e w key m
                                                else m) keys m0) ->
                 NoDup (map post_id (TrendAnalysis.posts (snd kv)))).
    { intros g e w keys. induction keys as [|a t IHk]; intros m0 H0; simpl; [exact H0|].
      apply IHk. destruct (g a); [apply Hadd; exact H0 | exact H0]. }
    unfold TrendAnalysis.processPost.
    destruct (rawEngagement post <? TrendAnalysis.engagementThreshold); [exact Hm|].
    apply Hfold. destruct (JS.truthy (hashtags post)); [apply Hfold; exact Hm | exact Hm]. }
  apply Hgen. intros kv [].
Qed.

(** C1: the dashboard pages file one post twice under one trend.  In the
    earlier dashboard neither loop tests membership, so a post whose text
    repeats its hashtag is listed twice under that key; in the later one
    the keyword loop tests membership ("Avoid duplicates") but the hashtag
    loop does not, so a repeated hashtag lists the post twice.  In both
    cases the trend reaches the output with two members. *)
Theorem dashboards_list_a_post_twice :
  map (fun t => (DashboardBasic.t_keyword t, map post_id (DashboardBasic.t_posts t)))
      (DashboardBasic.extractTrends [cryptoPost])
  = [("crypto", ["p1"; "p1"])]
  /\ (forall now,
         map (fun t => (Dashboard.t_keyword t, map post_id (Dashboard.t_posts t)))
             (Dashboard.extractTrends now [twiceTaggedPost])
         = [("abc", ["p1"; "p1"])])
  /\ ~ NoDup ["p1"; "p1"].
Proof.
  split; [reflexivity|]. split; [intro now; reflexivity|].
  intro H. inversion H as [|x l Hnotin _]. apply Hnotin. left. reflexivity.
Qed.

(** C2, as stated, fails: a post with 10 likes, 10 shares and 10 comments
    passes the threshold and joins the trend of its hashtag, whose total
    and weekly bucket grow by 30, not by the weighted 60. *)
Lemma aggregator_weighted_counterexample :
  TrendAnalysis.engagementThreshold <= rawEngagement sharedPost
  /\ In "abc" (extractedKeys sharedPost)
  /\ calculateEngagement sharedPost = 60
  /\ TrendAnalysis.totalEngagement (trendOf "abc" (TrendAnalysis.processPost [] sharedPost))
     <> TrendAnalysis.totalEngagement (trendOf "abc" []) + calculateEngagement sharedPost
  /\ TrendAnalysis.bucket (weekOf sharedPost)
       (TrendAnalysis.timeSeries (trendOf "abc" (TrendAnalysis.processPost [] sharedPost)))
     <> TrendAnalysis.bucket (weekOf sharedPost) (TrendAnalysis.timeSeries (trendOf "abc" []))
        + calculateEngagement sharedPost.
Proof.
  repeat split; try (vm_compute; intuition congruence).
Qed.

(** C2 (amended): a post whose raw engagement meets the threshold of the
    temporal page (20) joins every trend it is filed under and is not yet
    a member of; the trend's total grows by the raw engagement
    (likes + shares + comments), and so does the bucket of the post's
    week, [floor(timestamp / one week)]; the other buckets are unchanged.
    A post below the threshold changes nothing. *)
Theorem aggregator_adds_raw_engagement :
  forall (m : TrendAnalysis.TrendMap) (post : Post) (key : string),
    TrendAnalysis.engagementThreshold <= rawEngagement post ->
    In key (extractedKeys post) ->
    hasId (post_id post) (TrendAnalysis.posts (trendOf key m)) = false ->
    let t := trendOf key m in
    let t' := trendOf key (TrendAnalysis.processPost m post) in
    TrendAnalysis.posts t' = (TrendAnalysis.posts t ++ [post])%list
    /\ TrendAnalysis.totalEngagement t'
       = TrendAnalysis.totalEngagement t + (likes post + shares post + comments post)
    /\ TrendAnalysis.bucket (timestamp post / (7 * 24 * 60 * 60 * 1000))
                            (TrendAnalysis.timeSeries t')
       = TrendAnalysis.bucket (timestamp post / (7 * 24 * 60 * 60 * 1000))
                              (TrendAnalysis.timeSeries t)
         + (likes post + shares post + comments post)
    /\ (forall week, week <> weekOf post ->
          TrendAnalysis.bucket week (TrendAnalysis.timeSeries t')
          = TrendAnalysis.bucket week (TrendAnalysis.timeSeries t))
    /\ (forall p, rawEngagement p < TrendAnalysis.engagementThreshold ->
          TrendAnalysis.processPost m p = m).
Proof.
  intros m post key He Hin Hid t t'.
  assert (Ht' : t' = joined post (rawEngagement post) t).
  { unfold t', t. rewrite processPost_keys by exact He.
    rewrite trendOf_fold_addToTrend. rewrite Hid.
    replace (existsb (String.eqb key) (extractedKeys post)) with true; [reflexivity|].
    symmetry. apply existsb_exists. exists key. split; [exact Hin | apply String.eqb_refl]. }
  rewrite Ht'. simpl. fold (weekOf post). unfold TrendAnalysis.bucket.
  repeat split.
  - change (timestamp post / (7 * 24 * 60 * 60 * 1000)) with (weekOf post).
    rewrite (get_set_same _ z_eqb_spec). reflexivity.
  - intros week Hw. rewrite (get_set_other _ z_eqb_spec) by congruence. reflexivity.
  - intros p Hp. unfold TrendAnalysis.processPost.
    apply Z.ltb_lt in Hp. rewrite Hp. reflexivity.
Qed.

Lemma aggregator_adds_raw_engagement_witness :
  TrendAnalysis.totalEngagement (trendOf "abc" (TrendAnalysis.processPost [] sharedPost)) = 30.
Proof.
  assert (He : TrendAnalysis.engagementThreshold <= rawEngagement sharedPost)
    by (vm_compute; discriminate).
  assert (Hin : In "abc" (extractedKeys sharedPost)) by (left; reflexivity).
  assert (Hid : hasId (post_id sharedPost) (TrendAnalysis.posts (trendOf "abc" [])) = false)
    by reflexivity.
  destruct (aggregator_adds_raw_engagement [] sharedPost "abc" He Hin Hid) as [_ [H _]].
  rewrite H. reflexivity.
Defined.

(* ================================================================== *)
(** * Temporal classification (TrendAnalysis.tsx) *)
(* ================================================================== *)

Section Classifier.
Import TrendAnalysis.
Open Scope Q_scope.

Lemma Qltb_spec : forall x y, reflect (x < y) (JS.Qltb x y).
Proof.
  intros x y. unfold JS.Qltb. destruct (Qle_bool y x) eqn:E; simpl; constructor.
  - apply Qle_bool_iff in E. apply Qle_not_lt. exact E.
  - apply Qnot_le_lt. intro H. apply Qle_bool_iff in H. congruence.
Qed.


Lemma count_loop : forall (P : nat -> bool) (idx : list nat) (c : Z),
    fold_left (fun changes i => if P i then (changes + 1)%Z else changes) idx c
    = (c + Z.of_nat (length (filter P idx)))%Z.
Proof.
  intros P idx. induction idx as [|i t IH]; intro c; simpl; [lia|].
  rewrite IH. destruct (P i); simpl; lia.
Qed.

End Classifier.

(* ================================================================== *)
(** * Trend metrics (src/unnamed/part_001) *)
(* ================================================================== *)

Section Metrics.
Open Scope R_scope.

Lemma engagementSum_from : forall ps a,
    fold_left (fun sum p => sum + IZR (likes p) + IZR (shares p) + IZR (comments p)) ps a
    = a + IZR (sumZ (map rawEngagement ps)).
Proof.
  induction ps as [|p t IH]; intro a; simpl.
  - lra.
  - rewrite IH. unfold rawEngagement. rewrite !plus_IZR. lra.
Qed.

Lemma engagementSum_raw : forall ps,
    Dashboard.engagementSum ps = IZR (sumZ (map rawEngagement ps)).
Proof.
  intro ps. unfold Dashboard.engagementSum. rewrite engagementSum_from. lra.
Qed.

Lemma ln10_pos : 0 < ln 10.
Proof. rewrite <- ln_1. apply ln_increasing; lra. Qed.

Lemma log10_inj : forall x y, 0 < x -> 0 < y ->
    Dashboard.log10 x / 5 = Dashboard.log10 y / 5 -> x = y.
Proof.
  intros x y Hx Hy H. apply ln_inv; [exact Hx | exact Hy |].
  unfold Dashboard.log10 in H. pose proof ln10_pos as L.
  assert (E : ln x / ln 10 = ln y / ln 10) by lra.
  apply (Rmult_eq_compat_r (ln 10)) in E.
  unfold Rdiv in E. rewrite !Rmult_assoc, Rinv_l in E by lra. lra.
Qed.
End Metrics.

(** C4, as stated, fails: for the trend whose one member has 10 likes,
    10 shares and 10 comments the score is log10(30 + 1) / 5, while the
    mean weighted engagement is 60. *)
Lemma engagementScore_weighted_counterexample :
  meanWeightedEngagement [sharedPost] = 60%R
  /\ Dashboard.engagementScore [sharedPost]
     <> (Dashboard.log10 (meanWeightedEngagement [sharedPost] + 1) / 5)%R.
Proof.
  assert (W : meanWeightedEngagement [sharedPost] = 60%R).
  { unfold meanWeightedEngagement.
    replace (sumZ (map calculateEngagement [sharedPost])) with 60%Z by reflexivity.
    change (INR (length [sharedPost])) with 1%R. lra. }
  split; [exact W|]. rewrite W.
  unfold Dashboard.engagementScore, Dashboard.avgEngagement, Dashboard.len.
  rewrite engagementSum_raw.
  replace (sumZ (map rawEngagement [sharedPost])) with 30%Z by reflexivity.
  change (INR (length [sharedPost])) with 1%R. intro H.
  apply log10_inj in H; lra.
Qed.

(** C4 (amended): the engagement score of a trend is log10(m + 1) / 5 where
    m is the mean raw engagement (likes + shares + comments) over the
    trend's member posts. *)
Theorem engagementScore_raw_mean :
  forall posts : list Post,
    Dashboard.engagementScore posts
    = (Dashboard.log10 (meanRawEngagement posts + 1) / 5)%R.
Proof.
  intro posts.
  unfold Dashboard.engagementScore, Dashboard.avgEngagement, Dashboard.len, meanRawEngagement.
  rewrite engagementSum_raw. reflexivity.
Qed.

(* ================================================================== *)
(** * Pattern mining (src/unnamed/part_000) *)
(* ================================================================== *)

(** C10: the pair is sorted before it is joined into the key, but the rule
    reads its two items back by splitting the key at the separator.  With
    the items ["z"] and ["a|"] the sorted pair is ["a|"; "z"], the key is
    ["a||z"], and the split gives the antecedent ["a"] and the empty
    consequent, which is not in order. *)
Theorem rule_items_out_of_order :
  forall rnd : nat -> Q,
    PatternMining.itemsOf (hd cryptoPost pipePosts) = ["z"; "a|"]
    /\ JS.sortStrings ["z"; "a|"] = ["a|"; "z"]
    /\ map (fun r => (PatternMining.antecedent r, PatternMining.consequent r,
                      PatternMining.occurrence_count r))
           (PatternMining.mineAssociationRules rnd pipePosts)
       = [(["a"], [""], 8)]
    /\ String.leb "a" "" = false.
Proof.
  intro rnd. repeat split; reflexivity.
Qed.

Section NoHashtags.
Import PatternMining.

Lemma itemsetStep_no_hashtags : forall m post,
    extractHashtags (hashtags post) = [] -> itemsetStep m post = m.
Proof.
  intros m post H. unfold itemsetStep, itemsetItems. rewrite H. simpl.
  destruct (JS.truthy (topic post)); reflexivity.
Qed.

Lemma itemsOf_topic_only : forall post,
    extractHashtags (hashtags post) = [] ->
    (forall k, In k (extractKeywords (content post)) -> k = topic post) ->
    itemsOf post = [topic post].
Proof.
  intros post H Hk. unfold itemsOf. rewrite H. simpl.
  induction (extractKeywords (content post)) as [|k t IH]; [reflexivity|].
  simpl. rewrite (Hk k) by (left; reflexivity).
  unfold JS.setAdd at 2. simpl. rewrite String.eqb_refl. simpl.
  apply IH. intros k' Hk'. apply Hk. right. exact Hk'.
Qed.

Lemma fold_left_id : forall (A B : Type) (f : A -> B -> A) (l : list B) (a : A),
    (forall b, In b l -> forall x, f x b = x) -> fold_left f l a = a.
Proof.
  intros A B f l. induction l as [|b t IH]; intros a H; simpl; [reflexivity|].
  rewrite H by (left; reflexivity). apply IH.
  intros b' Hb'. apply H. right. exact Hb'.
Qed.
End NoHashtags.

(** C5, as stated, fails for the Association Miner: eight posts of the
    topic Gaming without hashtags whose text starts with "Hello" yield the
    rule Gaming / Hello. *)
Lemma no_hashtags_rule_counterexample :
  (forall p, In p helloPosts -> topic p = "Gaming")
  /\ (forall p, In p helloPosts -> hashtags p = "")
  /\ map (fun r => (PatternMining.antecedent r, PatternMining.consequent r,
                    PatternMining.occurrence_count r))
         (PatternMining.mineAssociationRules (fun _ => 0%Q) helloPosts)
     = [(["Gaming"], ["Hello"], 8)]
  /\ PatternMining.mineAssociationRules (fun _ => 0%Q) helloPosts <> [].
Proof.
  assert (Hall : forall p, In p helloPosts -> topic p = "Gaming" /\ hashtags p = "").
  { intros p Hp. unfold helloPosts in Hp. apply in_map_iff in Hp.
    destruct Hp as [i [<- _]]. split; reflexivity. }
  split; [intros p Hp; apply Hall; exact Hp|].
  split; [intros p Hp; apply Hall; exact Hp|].
  assert (E : map (fun r => (PatternMining.antecedent r, PatternMining.consequent r,
                             PatternMining.occurrence_count r))
                  (PatternMining.mineAssociationRules (fun _ => 0%Q) helloPosts)
              = [(["Gaming"], ["Hello"], 8)]) by reflexivity.
  split; [exact E|]. intro H. rewrite H in E. discriminate E.
Qed.

(** C5 (amended): for a corpus in which all posts share one topic and no
    post has any hashtag, the Itemset Miner returns no itemset; the
    Association Miner returns no rule provided, in addition, that no
    post's text yields a capitalised-word keyword other than the topic
    itself. *)
Theorem no_hashtags_no_itemsets :
  forall (rnd : nat -> Q) (data : list Post) (t : string),
    (forall p, In p data -> topic p = t) ->
    (forall p, In p data -> PatternMining.extractHashtags (hashtags p) = []) ->
    PatternMining.mineFrequentItemsets data = []
    /\ ((forall p k, In p data -> In k (PatternMining.extractKeywords (content p)) -> k = t) ->
        PatternMining.mineAssociationRules rnd data = []).
Proof.
  intros rnd data t Ht Hh. split.
  - unfold PatternMining.mineFrequentItemsets, PatternMining.itemsetsByTopic,
      PatternMining.itemsetCounts.
    rewrite (fold_left_id _ _ PatternMining.itemsetStep data); [reflexivity|].
    intros p Hp m. apply itemsetStep_no_hashtags. apply Hh. exact Hp.
  - intro Hk.
    unfold PatternMining.mineAssociationRules, PatternMining.rulesByTopic,
      PatternMining.itemPairs.
    rewrite (fold_left_id _ _ PatternMining.pairStep data); [reflexivity|].
    intros p Hp m. unfold PatternMining.pairStep.
    rewrite itemsOf_topic_only.
    + simpl. destruct (JS.truthy (topic p)); reflexivity.
    + apply Hh. exact Hp.
    + intros k Hin. rewrite (Ht p Hp). apply (Hk p k Hp Hin).
Qed.

Lemma no_hashtags_no_itemsets_witness :
  PatternMining.mineFrequentItemsets gamingPosts = []
  /\ PatternMining.mineAssociationRules (fun _ => 0%Q) gamingPosts = [].
Proof.
  assert (Hall : forall p, In p gamingPosts ->
                           topic p = "Gaming"
                           /\ PatternMining.extractHashtags (hashtags p) = []
                           /\ PatternMining.extractKeywords (content p) = ["Gaming"]).
  { intros p Hp. unfold gamingPosts in Hp. apply in_map_iff in Hp.
    destruct Hp as [i [<- _]]. repeat split; reflexivity. }
  destruct (no_hashtags_no_itemsets (fun _ => 0%Q) gamingPosts "Gaming") as [H1 H2].
  - intros p Hp. apply Hall. exact Hp.
  - intros p Hp. apply Hall. exact Hp.
  - split; [exact H1|]. apply H2.
    intros p k Hp Hk. destruct (Hall p Hp) as [_ [_ E]]. rewrite E in Hk.
    destruct Hk as [<-|[]]. reflexivity.
Defined.

Section SortFacts.
Context {A : Type} (le : A -> A -> bool).

Lemma in_insert : forall x a l, In x (JS.insert le a l) <-> x = a \/ In x l.
Proof.
  intros x a l. induction l as [|y t IH]; simpl.
  - intuition.
  - destruct (le a y); simpl; [intuition|]. rewrite IH. intuition.
Qed.

Lemma in_sort : forall x l, In x (JS.sort le l) <-> In x l.
Proof.
  intros x l. induction l as [|y t IH]; simpl; [reflexivity|].
  rewrite in_insert, IH. intuition.
Qed.

Lemma length_insert : forall a l, length (JS.insert le a l) = S (length l).
Proof.
  intros a l. induction l as [|y t IH]; simpl; [reflexivity|].
  destruct (le a y); simpl; [reflexivity | rewrite IH; reflexivity].
Qed.

Lemma length_sort : forall l, length (JS.sort le l) = length l.
Proof.
  induction l as [|y t IH]; simpl; [reflexivity|].
  rewrite length_insert, IH. reflexivity.
Qed.
End SortFacts.

Lemma map_sort : forall (A B : Type) (f : A -> B) (le : A -> A -> bool) (le' : B -> B -> bool),
    (forall a b, le' (f a) (f b) = le a b) ->
    forall l, map f (JS.sort le l) = JS.sort le' (map f l).
Proof.
  intros A B f le le' H l. induction l as [|x t IH]; simpl; [reflexivity|].
  rewrite <- IH. generalize (JS.sort le t). intro s.
  induction s as [|y r IHs]; simpl; [reflexivity|].
  rewrite H. destruct (le x y); simpl; [reflexivity | rewrite IHs; reflexivity].
Qed.

Lemma in_slice0 : forall (A : Type) (n : nat) (l : list A) (x : A),
    In x (JS.slice0 n l) -> In x l.
Proof.
  intros A n. unfold JS.slice0. induction n as [|n IH]; intros l x H; simpl in H; [contradiction|].
  destruct l as [|y t]; simpl in H; [contradiction|].
  destruct H as [->|H]; [left; reflexivity | right; apply IH; exact H].
Qed.

Section Grouping.
Context {V : Type} (P : V -> Prop).

(** A property of every grouped element survives one more push. *)
Lemma pushTo_Forall : forall key x (m : list (string * list V)),
    (forall kv, In kv m -> Forall P (snd kv)) ->
    P x ->
    forall kv, In kv (pushTo key x m) -> Forall P (snd kv).
Proof.
  intros key x m Hm Hx kv Hin. unfold pushTo in Hin.
  apply in_set_inv in Hin. destruct Hin as [-> | Hin]; [|apply Hm; exact Hin].
  destruct (JS.get String.eqb key m) as [l|] eqn:G.
  - apply Forall_app. split.
    + apply (Hm (key, l)). apply (get_in _ string_eqb_spec). exact G.
    + constructor; [exact Hx | constructor].
  - constructor; [exact Hx | constructor].
Qed.
End Grouping.

Section RuleOrigin.
Import PatternMining.
Variable rnd : nat -> Q.
Variable data : list Post.

Lemma rulesByTopic_origin : forall kv,
    In kv (rulesByTopic rnd data) -> Forall (ruleOrigin rnd data) (snd kv).
Proof.
  unfold rulesByTopic.
  assert (Hgen : forall l st,
             (forall kv, In kv l -> In kv (itemPairs data)) ->
             (forall kv, In kv (fst st) -> Forall (ruleOrigin rnd data) (snd kv)) ->
             forall kv, In kv (fst (fold_left (ruleStep data rnd) l st)) ->
                        Forall (ruleOrigin rnd data) (snd kv)).
  { induction l as [|[key pd] t IH]; intros st Hl Hst; simpl; [exact Hst|].
    apply IH; [intros kv Hkv; apply Hl; right; exact Hkv|].
    unfold ruleStep. simpl.
    destruct (count pd <? 8) eqn:C; [exact Hst|]. simpl.
    apply pushTo_Forall; [exact Hst|].
    exists key, pd, (snd st). repeat split.
    - apply Hl. left. reflexivity.
    - apply Z.ltb_ge. exact C. }
  apply Hgen; [intros kv H; exact H | intros kv []].
Qed.

Lemma sortedByTopic_values : forall (m : RulesByTopic) r,
    In r (flat_map snd (sortedByTopic m)) -> In r (flat_map snd m).
Proof.
  intros m r H. apply in_flat_map in H. destruct H as [kv [Hkv Hr]].
  unfold sortedByTopic in Hkv. apply in_map_iff in Hkv.
  destruct Hkv as [kv0 [<- Hkv0]]. simpl in Hr. apply in_sort in Hr.
  apply in_flat_map. exists kv0. split; assumption.
Qed.

Lemma firstPass_values : forall (m : RulesByTopic) r,
    In r (firstPass m) -> In r (flat_map snd m).
Proof.
  intros m r H. apply sortedByTopic_values. unfold firstPass in H.
  apply in_flat_map in H. destruct H as [kv [Hkv Hr]].
  apply in_flat_map. exists kv. split; [exact Hkv|].
  destruct (snd kv) as [|r0 t]; [contradiction|].
  destruct Hr as [<-|[]]. left. reflexivity.
Qed.

Lemma allRules_values : forall (m : RulesByTopic) r,
    In r (allRules m) -> In r (flat_map snd m).
Proof.
  intros m r H. apply sortedByTopic_values. unfold allRules in H.
  apply in_sort in H. exact H.
Qed.

Lemma secondPass_values : forall all d r,
    In r (secondPass d all) -> In r d \/ In r all.
Proof.
  unfold secondPass. induction all as [|a t IH]; intros d r H; simpl in H; [left; exact H|].
  apply IH in H. destruct H as [H|H]; [|right; right; exact H].
  destruct ((length d <? 50)%nat
            && negb (existsb (fun r' => String.eqb (rule r') (rule a)) d));
    [|left; exact H].
  apply in_app_or in H. destruct H as [H|[<-|[]]]; [left; exact H | right; left; reflexivity].
Qed.

(** Every rule of the output was built from a pair counted eight times. *)
Lemma mined_rule_origin : forall r,
    In r (mineAssociationRules rnd data) -> ruleOrigin rnd data r.
Proof.
  intros r H. unfold mineAssociationRules in H. apply in_slice0 in H.
  assert (Hv : In r (flat_map snd (rulesByTopic rnd data))).
  { apply secondPass_values in H.
    destruct H as [H|H]; [apply firstPass_values | apply allRules_values]; exact H. }
  apply in_flat_map in Hv. destruct Hv as [kv [Hkv Hr]].
  pose proof (rulesByTopic_origin kv Hkv) as F.
  rewrite Forall_forall in F. apply F. exact Hr.
Qed.
End RuleOrigin.

Section Thresholds.
Import PatternMining.

Lemma itemsetsByTopic_counted : forall data kv,
    In kv (itemsetsByTopic data) -> Forall (fun s => 8 <= fi_occurrence_count s) (snd kv).
Proof.
  intro data. unfold itemsetsByTopic.
  generalize (itemsetCounts data). intro l.
  assert (Hgen : forall (m : list (string * list FrequentItemset)),
             (forall kv, In kv m -> Forall (fun s => 8 <= fi_occurrence_count s) (snd kv)) ->
             forall kv,
               In kv (fold_left
                        (fun m kv =>
                           if is_count (snd kv) <? 8 then m
                           else pushTo (nth 0 (is_topics (snd kv)) "")
                                       (itemsetOf data (fst kv) (snd kv)) m) l m) ->
               Forall (fun s => 8 <= fi_occurrence_count s) (snd kv)).
  { induction l as [|[key d] t IH]; intros m Hm; simpl; [exact Hm|].
    apply IH. destruct (is_count d <? 8) eqn:C; [exact Hm|].
    apply pushTo_Forall; [exact Hm|]. simpl. apply Z.ltb_ge. exact C. }
  apply Hgen. intros kv [].
Qed.

Lemma mined_itemsets_counted : forall data,
    Forall (fun s => 8 <= fi_occurrence_count s) (mineFrequentItemsets data).
Proof.
  intro data. apply Forall_forall. intros s H.
  unfold mineFrequentItemsets in H. apply in_slice0 in H. apply in_sort in H.
  apply in_flat_map in H. destruct H as [kv [Hkv Hs]].
  apply in_slice0 in Hs. apply in_sort in Hs.
  pose proof (itemsetsByTopic_counted data kv Hkv) as F.
  rewrite Forall_forall in F. apply F. exact Hs.
Qed.

Lemma mined_sequences_counted : forall data,
    Forall (fun p => 3 <= sp_occurrence_count p) (mineSequentialPatterns data).
Proof.
  intro data. apply Forall_forall. intros p H.
  unfold mineSequentialPatterns in H. apply in_slice0 in H. apply in_sort in H.
  apply in_flat_map in H. destruct H as [kv [_ Hp]].
  destruct (snd kv <? 3) eqn:C; [contradiction|].
  destruct Hp as [<-|[]]. simpl. apply Z.ltb_ge. exact C.
Qed.
End Thresholds.

(** C8: every association rule of the output was counted 8 times at
    least, every frequent itemset 8 times at least, every sequential
    pattern 3 times at least: a candidate below its miner's threshold is
    dropped before it can enter the result. *)
Theorem miners_apply_minimum_occurrence :
  forall (rnd : nat -> Q) (data : list Post),
    Forall (fun r => 8 <= PatternMining.occurrence_count r)
           (PatternMining.mineAssociationRules rnd data)
    /\ Forall (fun s => 8 <= PatternMining.fi_occurrence_count s)
              (PatternMining.mineFrequentItemsets data)
    /\ Forall (fun p => 3 <= PatternMining.sp_occurrence_count p)
              (PatternMining.mineSequentialPatterns data).
Proof.
  intros rnd data. split; [|split].
  - apply Forall_forall. intros r H.
    destruct (mined_rule_origin rnd data r H) as [key [pd [n [_ [C ->]]]]].
    exact C.
  - apply mined_itemsets_counted.
  - apply mined_sequences_counted.
Qed.

Section GrowthBounds.
Open Scope Q_scope.

Lemma floor_half : forall b : Z, Qfloor (inject_Z b + (1 # 2)) = b.
Proof.
  intro b. unfold Qfloor, Qplus, inject_Z. simpl.
  symmetry. apply Z.div_unique with (r := 1%Z); lia.
Qed.

(** [Math.round] keeps a value between two integers between them. *)
Lemma round_between : forall (a b : Z) (q : Q),
    inject_Z a <= q -> q <= inject_Z b -> (a <= JS.round q <= b)%Z.
Proof.
  intros a b q Ha Hb. unfold JS.round. split.
  - rewrite <- (Qfloor_Z a). apply Qfloor_resp_le.
    apply Qle_trans with q; [exact Ha|].
    rewrite <- (Qplus_0_r q) at 1. apply Qplus_le_r. discriminate.
  - rewrite <- (floor_half b). apply Qfloor_resp_le.
    apply Qplus_le_l. exact Hb.
Qed.






End GrowthBounds.



Section MapGroups.
Context {V W : Type} (f : V -> W).

Lemma get_mapGroups : forall key (m : list (string * list V)),
    JS.get String.eqb key (mapGroups f m) = option_map (map f) (JS.get String.eqb key m).
Proof.
  intros key m. induction m as [|[k v] t IH]; simpl; [reflexivity|].
  destruct (String.eqb key k); [reflexivity | exact IH].
Qed.

Lemma set_mapGroups : forall key v (m : list (string * list V)),
    JS.set String.eqb key (map f v) (mapGroups f m) = mapGroups f (JS.set String.eqb key v m).
Proof.
  intros key v m. induction m as [|[k v0] t IH]; simpl; [reflexivity|].
  destruct (String.eqb key k); simpl; [reflexivity|]. rewrite IH. reflexivity.
Qed.

Lemma pushTo_mapGroups : forall key x (m : list (string * list V)),
    mapGroups f (pushTo key x m) = pushTo key (f x) (mapGroups f m).
Proof.
  intros key x m. unfold pushTo. rewrite <- set_mapGroups, get_mapGroups.
  destruct (JS.get String.eqb key m) as [l|]; simpl; [|reflexivity].
  rewrite map_app. reflexivity.
Qed.
End MapGroups.

Section Determinism.
Import PatternMining.

(** A view of a rule that keeps its count and its description. *)
Variable f : AssociationRule -> AssociationRule.
Hypothesis f_count : forall r, occurrence_count (f r) = occurrence_count r.
Hypothesis f_rule : forall r, rule (f r) = rule r.

Lemma byCount_view : forall a b, byCount (f a) (f b) = byCount a b.
Proof. intros a b. unfold byCount. rewrite !f_count. reflexivity. Qed.

Lemma sortedByTopic_view : forall m,
    mapGroups f (sortedByTopic m) = sortedByTopic (mapGroups f m).
Proof.
  intro m. unfold sortedByTopic, mapGroups. rewrite !map_map.
  apply map_ext. intros [k v]. simpl.
  rewrite (map_sort _ _ f byCount byCount byCount_view). reflexivity.
Qed.

Lemma flat_map_snd_view : forall m : RulesByTopic,
    map f (flat_map snd m) = flat_map snd (mapGroups f m).
Proof.
  induction m as [|[k v] t IH]; simpl; [reflexivity|].
  rewrite map_app, IH. reflexivity.
Qed.

Lemma firstPass_view : forall m, map f (firstPass m) = firstPass (mapGroups f m).
Proof.
  intro m. unfold firstPass. rewrite <- sortedByTopic_view.
  induction (sortedByTopic m) as [|[k v] t IH]; simpl; [reflexivity|].
  rewrite map_app, IH. destruct v; reflexivity.
Qed.

Lemma allRules_view : forall m, map f (allRules m) = allRules (mapGroups f m).
Proof.
  intro m. unfold allRules.
  rewrite (map_sort _ _ f byCount byCount byCount_view).
  rewrite flat_map_snd_view, sortedByTopic_view. reflexivity.
Qed.

Lemma secondPass_view : forall all d,
    map f (secondPass d all) = secondPass (map f d) (map f all).
Proof.
  unfold secondPass. induction all as [|a t IH]; intro d; simpl; [reflexivity|].
  rewrite IH. f_equal. rewrite length_map.
  assert (E : existsb (fun r' => String.eqb (rule r') (rule (f a))) (map f d)
              = existsb (fun r' => String.eqb (rule r') (rule a)) d).
  { rewrite f_rule. induction d as [|x r IHd]; simpl; [reflexivity|].
    rewrite f_rule, IHd. reflexivity. }
  rewrite E.
  destruct ((length d <? 50)%nat
            && negb (existsb (fun r' => String.eqb (rule r') (rule a)) d));
    [rewrite map_app|]; reflexivity.
Qed.

Lemma diversify_view : forall m, map f (diversify m) = diversify (mapGroups f m).
Proof.
  intro m. unfold diversify, JS.slice0.
  rewrite <- firstn_map, secondPass_view, firstPass_view, allRules_view. reflexivity.
Qed.

(** Whether [Math.random] is called does not depend on what it returns. *)
Lemma drew_independent : forall data key pd r r',
    snd (ruleOf data key pd r) = snd (ruleOf data key pd r').
Proof.
  intros data key pd r r'. unfold ruleOf. cbn [snd].
  generalize (JS.sort (fun a b => timestamp a <=? timestamp b) (posts pd)).
  intro sorted. unfold growthRateOf.
  repeat match goal with
         | |- context [if ?c then _ else _] => destruct c
         end; reflexivity.
Qed.

(** Two runs whose rules agree under the view, pair by pair and draw by
    draw, return outputs that agree under the view. *)
Lemma runs_agree_under_view : forall (data : list Post) (rnd1 rnd2 : nat -> Q),
    (forall key pd n,
        f (fst (ruleOf data key pd (rnd1 n))) = f (fst (ruleOf data key pd (rnd2 n)))) ->
    map f (mineAssociationRules rnd1 data) = map f (mineAssociationRules rnd2 data).
Proof.
  intros data rnd1 rnd2 Hf.
  change (map f (diversify (rulesByTopic rnd1 data))
          = map f (diversify (rulesByTopic rnd2 data))).
  rewrite !diversify_view. f_equal. unfold rulesByTopic.
  assert (Hgen : forall l st1 st2,
             snd st1 = snd st2 ->
             mapGroups f (fst st1) = mapGroups f (fst st2) ->
             snd (fold_left (ruleStep data rnd1) l st1)
             = snd (fold_left (ruleStep data rnd2) l st2)
             /\ mapGroups f (fst (fold_left (ruleStep data rnd1) l st1))
                = mapGroups f (fst (fold_left (ruleStep data rnd2) l st2))).
  { induction l as [|[key pd] t IH]; intros [m1 n1] [m2 n2] Hn Hm;
      cbn [fold_left]; [split; assumption|].
    cbn [fst snd] in Hn, Hm. subst n2.
    apply IH; unfold ruleStep; cbn [fst snd];
      destruct (count pd <? 8); cbn [fst snd]; try assumption; try reflexivity.
    - rewrite (drew_independent data key pd (rnd1 n1) (rnd2 n1)). reflexivity.
    - change (mapGroups f (pushTo (nth 0 (topics pd) "")
                                  (fst (ruleOf data key pd (rnd1 n1))) m1)
              = mapGroups f (pushTo (nth 0 (topics pd) "")
                                    (fst (ruleOf data key pd (rnd2 n1))) m2)).
      rewrite !pushTo_mapGroups, Hm, Hf. reflexivity. }
  apply Hgen; reflexivity.
Qed.
End Determinism.

(** C6, as stated, fails for the association rules: on twelve posts of
    one week the growth rate of the one rule is the rounded half of
    10 + 20 * Math.random(), so a run that draws 0 reports 5 and a run
    that draws 0.9 reports 14. *)
Lemma pipeline_random_counterexample :
  unitStream (fun _ => 0%Q)
  /\ unitStream (fun _ => (9 # 10)%Q)
  /\ map PatternMining.growth_rate
         (PatternMining.mineAssociationRules (fun _ => 0%Q) sameWeekPosts) = [5]
  /\ map PatternMining.growth_rate
         (PatternMining.mineAssociationRules (fun _ => (9 # 10)%Q) sameWeekPosts) = [14]
  /\ PatternMining.mineAssociationRules (fun _ => 0%Q) sameWeekPosts
     <> PatternMining.mineAssociationRules (fun _ => (9 # 10)%Q) sameWeekPosts.
Proof.
  assert (E0 : map PatternMining.growth_rate
                   (PatternMining.mineAssociationRules (fun _ => 0%Q) sameWeekPosts) = [5])
    by reflexivity.
  assert (E9 : map PatternMining.growth_rate
                   (PatternMining.mineAssociationRules (fun _ => (9 # 10)%Q) sameWeekPosts)
               = [14])
    by reflexivity.
  split; [intro n; split; [discriminate | reflexivity]|].
  split; [intro n; split; [discriminate | reflexivity]|].
  split; [exact E0|]. split; [exact E9|].
  intro H. rewrite H in E0. rewrite E0 in E9. discriminate E9.
Qed.

Section Sequences.
Import PatternMining.

Lemma userStep_pushTo : forall m post,
    userStep m post
    = if negb (JS.truthy (user post)) || negb (JS.truthy (topic post)) then m
      else pushTo (user post) (mkVisit (topic post) (timestamp post)) m.
Proof. reflexivity. Qed.

Lemma countOf_transitionStep : forall key st a b,
    countOf key (sequenceCounts (transitionStep st (a, b)))
    = countOf key (sequenceCounts st)
      + (if negb (String.eqb (v_topic a) (v_topic b)) && String.eqb (seqKey a b) key
         then 1 else 0).
Proof.
  intros key st a b. unfold transitionStep.
  destruct (String.eqb (v_topic a) (v_topic b)); cbn [negb andb]; [lia|].
  cbn [sequenceCounts]. unfold countOf at 1.
  destruct (String.eqb_spec (seqKey a b) key) as [<-|Hne].
  - rewrite (get_set_same _ string_eqb_spec). reflexivity.
  - rewrite (get_set_other _ string_eqb_spec) by exact Hne.
    fold (countOf key (sequenceCounts st)). lia.
Qed.

Lemma countOf_adjacent : forall key visits st,
    countOf key (sequenceCounts (fold_left transitionStep (adjacent visits) st))
    = countOf key (sequenceCounts st) + transitionsOf key visits.
Proof.
  intros key visits. induction visits as [|a t IH]; intro st; [simpl; lia|].
  destruct t as [|b t']; [simpl; lia|].
  change (adjacent (a :: b :: t')) with ((a, b) :: adjacent (b :: t')).
  cbn [fold_left]. rewrite IH, countOf_transitionStep.
  change (transitionsOf key (a :: b :: t'))
    with ((if negb (String.eqb (v_topic a) (v_topic b)) && String.eqb (seqKey a b) key
           then 1 else 0) + transitionsOf key (b :: t')).
  lia.
Qed.

(** The count of a key is the sum, over the authors, of the transitions
    with that key along the author's visits in time order. *)
Lemma countOf_entries : forall key entries st,
    countOf key (sequenceCounts (fold_left sequenceStep entries st))
    = countOf key (sequenceCounts st) + transitionsOfAll key entries.
Proof.
  intros key entries. induction entries as [|e t IH]; intro st; simpl; [lia|].
  rewrite IH. unfold sequenceStep. rewrite countOf_adjacent. lia.
Qed.

Lemma transitionCount_entries : forall key data,
    transitionCount key data = transitionsOfAll key (userSequences data).
Proof.
  intros key data. unfold transitionCount, tally. rewrite countOf_entries. reflexivity.
Qed.

Lemma transitionsOfAll_split : forall key (q : string -> bool) entries,
    transitionsOfAll key entries
    = transitionsOfAll key (filterKeys q entries)
      + transitionsOfAll key (filterKeys (fun u => negb (q u)) entries).
Proof.
  intros key q entries. induction entries as [|e t IH]; simpl; [reflexivity|].
  rewrite IH. destruct (q (fst e)); simpl; lia.
Qed.

Lemma get_filterKeys : forall (V : Type) (q : string -> bool) key (m : list (string * V)),
    q key = true -> JS.get String.eqb key (filterKeys q m) = JS.get String.eqb key m.
Proof.
  intros V q key m Hq. induction m as [|[k v] t IH]; simpl; [reflexivity|].
  destruct (String.eqb_spec key k) as [<-|Hne].
  - rewrite Hq. simpl. rewrite String.eqb_refl. reflexivity.
  - destruct (q k); simpl; [|exact IH].
    destruct (String.eqb_spec key k); [contradiction | exact IH].
Qed.

Lemma set_filterKeys : forall (V : Type) (q : string -> bool) key (v : V) (m : list (string * V)),
    filterKeys q (JS.set String.eqb key v m)
    = if q key then JS.set String.eqb key v (filterKeys q m) else filterKeys q m.
Proof.
  intros V q key v m. induction m as [|[k v0] t IH]; simpl.
  - destruct (q key); reflexivity.
  - destruct (String.eqb_spec key k) as [<-|Hne]; simpl.
    + destruct (q key) eqn:Hq; simpl; [rewrite String.eqb_refl|]; reflexivity.
    + rewrite IH. destruct (q k) eqn:Hk; destruct (q key) eqn:Hq; simpl; try reflexivity.
      destruct (String.eqb_spec key k); [contradiction | reflexivity].
Qed.

Lemma pushTo_filterKeys : forall (V : Type) (q : string -> bool) key (x : V) m,
    filterKeys q (pushTo key x m)
    = if q key then pushTo key x (filterKeys q m) else filterKeys q m.
Proof.
  intros V q key x m. unfold pushTo. rewrite set_filterKeys.
  destruct (q key) eqn:Hq; [|reflexivity].
  rewrite get_filterKeys by exact Hq. reflexivity.
Qed.

(** Grouping by author commutes with selecting authors. *)
Lemma userSequences_filter : forall (q : string -> bool) data,
    filterKeys q (userSequences data) = userSequences (filter (fun p => q (user p)) data).
Proof.
  intros q data. unfold userSequences.
  change (@nil (string * list Visit)) with (filterKeys q (@nil (string * list Visit))) at 2.
  generalize (@nil (string * list Visit)).
  induction data as [|p t IH]; intro m; simpl; [reflexivity|].
  rewrite IH. destruct (q (user p)) eqn:Hq; simpl; f_equal;
    rewrite !userStep_pushTo;
    destruct (negb (JS.truthy (user p)) || negb (JS.truthy (topic p))); try reflexivity;
    rewrite pushTo_filterKeys, Hq; reflexivity.
Qed.

(** The count of a transition is additive over a split of the authors. *)
Lemma transitionCount_split : forall key (q : string -> bool) data,
    transitionCount key data
    = transitionCount key (filter (fun p => q (user p)) data)
      + transitionCount key (filter (fun p => negb (q (user p))) data).
Proof.
  intros key q data. rewrite !transitionCount_entries.
  rewrite (transitionsOfAll_split key q).
  rewrite !userSequences_filter. reflexivity.
Qed.
End Sequences.

Section TwoAuthors.
Import PatternMining.

Lemma truthy_nonempty : forall s, s <> "" -> JS.truthy s = true.
Proof. intros [|c r] H; [contradiction H; reflexivity | reflexivity]. Qed.

Lemma userSequences_two : forall u a b,
    u <> "" -> topic a <> "" -> topic b <> "" -> user a = u -> user b = u ->
    userSequences [a; b]
    = [(u, [mkVisit (topic a) (timestamp a); mkVisit (topic b) (timestamp b)])].
Proof.
  intros u a b Hu Ha Hb Ua Ub. unfold userSequences. cbn [fold_left].
  rewrite !userStep_pushTo, Ua, Ub.
  rewrite (truthy_nonempty u Hu), (truthy_nonempty _ Ha), (truthy_nonempty _ Hb).
  cbn [negb orb]. unfold pushTo. cbn [JS.get JS.set].
  rewrite String.eqb_refl. reflexivity.
Qed.

(** One author with exactly the posts [a] (topic A) and, later, [b]
    (topic B), whatever their order in the collection: one transition. *)
Lemma one_author_one_transition : forall u A B a b l,
    u <> "" -> A <> "" -> B <> "" -> A <> B ->
    postsThen u A B a b ->
    Permutation l [a; b] ->
    transitionCount (A ++ "|" ++ B) l = 1.
Proof.
  intros u A B a b l Hu HA HB HAB [Ua [Ub [Ta [Tb Hlt]]]] Hperm.
  assert (Hkey : transitionsOf (A ++ "|" ++ B)
                   [mkVisit (topic a) (timestamp a); mkVisit (topic b) (timestamp b)] = 1).
  { cbn [transitionsOf]. unfold seqKey. cbn [v_topic]. rewrite Ta, Tb.
    rewrite String.eqb_refl. destruct (String.eqb_spec A B); [contradiction | reflexivity]. }
  apply Permutation_sym in Hperm. apply Permutation_length_2_inv in Hperm.
  rewrite transitionCount_entries.
  destruct Hperm as [-> | ->].
  - rewrite (userSequences_two u a b) by congruence.
    unfold transitionsOfAll. cbn [fold_right snd]. unfold sortVisits.
    cbn [JS.sort fold_right JS.insert v_timestamp].
    replace (timestamp a <=? timestamp b) with true by (symmetry; apply Z.leb_le; lia).
    rewrite Hkey. reflexivity.
  - rewrite (userSequences_two u b a) by congruence.
    unfold transitionsOfAll. cbn [fold_right snd]. unfold sortVisits.
    cbn [JS.sort fold_right JS.insert v_timestamp].
    replace (timestamp b <=? timestamp a) with false by (symmetry; apply Z.leb_gt; lia).
    rewrite Hkey. reflexivity.
Qed.

Lemma filter_both : forall (A : Type) (f g : A -> bool) (l : list A),
    filter f (filter g l) = filter (fun x => g x && f x) l.
Proof.
  intros A f g l. induction l as [|x t IH]; simpl; [reflexivity|].
  destruct (g x); simpl; [|exact IH]. destruct (f x); rewrite IH; reflexivity.
Qed.

Lemma adjacent_in : forall (A : Type) (l : list A) a b,
    In (a, b) (adjacent l) -> In a l /\ In b l.
Proof.
  intros A l. induction l as [|x t IH]; intros a b H; [contradiction|].
  destruct t as [|y t']; [contradiction|].
  change (adjacent (x :: y :: t')) with ((x, y) :: adjacent (y :: t')) in H.
  destruct H as [[= <- <-] | H].
  - split; [left; reflexivity | right; left; reflexivity].
  - apply IH in H. destruct H as [Ha Hb]. split; right; assumption.
Qed.

Lemma userSequences_topics : forall data t,
    (forall p, In p data -> topic p = t) ->
    forall kv, In kv (userSequences data) -> Forall (fun v => v_topic v = t) (snd kv).
Proof.
  intros data t Ht. unfold userSequences.
  assert (Hgen : forall l (m : list (string * list Visit)),
             (forall p, In p l -> topic p = t) ->
             (forall kv, In kv m -> Forall (fun v => v_topic v = t) (snd kv)) ->
             forall kv, In kv (fold_left userStep l m) ->
                        Forall (fun v => v_topic v = t) (snd kv)).
  { induction l as [|p r IH]; intros m Hl Hm; simpl; [exact Hm|].
    apply IH; [intros q Hq; apply Hl; right; exact Hq|].
    rewrite userStep_pushTo.
    destruct (negb (JS.truthy (user p)) || negb (JS.truthy (topic p))); [exact Hm|].
    apply pushTo_Forall; [exact Hm|]. simpl. apply Hl. left. reflexivity. }
  apply Hgen; [exact Ht | intros kv []].
Qed.

(** A collection in which every post has the same topic holds no
    transition at all. *)
Lemma one_topic_no_transition : forall data t,
    (forall p, In p data -> topic p = t) -> sequenceCounts (tally data) = [].
Proof.
  intros data t Ht. unfold tally.
  rewrite fold_left_id; [reflexivity|].
  intros kv Hkv st. unfold sequenceStep. apply fold_left_id.
  intros [a b] Hab st'. apply adjacent_in in Hab. destruct Hab as [Ha Hb].
  pose proof (userSequences_topics data t Ht kv Hkv) as F.
  rewrite Forall_forall in F.
  unfold sortVisits in Ha, Hb. apply in_sort in Ha. apply in_sort in Hb.
  unfold transitionStep. rewrite (F a Ha), (F b Hb), String.eqb_refl. reflexivity.
Qed.
End TwoAuthors.

(** Two authors whose only posts are a post on topic A and a later one
    on topic B give the transition A|B exactly 2. *)
Lemma two_posts_each :
  forall (data : list Post) (u1 u2 A B : string) (a1 b1 a2 b2 : Post),
    u1 <> "" -> u2 <> "" -> u1 <> u2 ->
    A <> "" -> B <> "" -> A <> B ->
    postsThen u1 A B a1 b1 ->
    postsThen u2 A B a2 b2 ->
    Permutation (filter (fun p => String.eqb (user p) u1) data) [a1; b1] ->
    Permutation (filter (fun p => String.eqb (user p) u2) data) [a2; b2] ->
    transitionCount (A ++ "|" ++ B) data
    = 2 + transitionCount (A ++ "|" ++ B)
            (filter (fun p => negb (String.eqb (user p) u1) && negb (String.eqb (user p) u2))
                    data).
Proof.
  intros d u1 u2 A B a1 b1 a2 b2 Hu1 Hu2 Hu HA HB HAB P1 P2 G1 G2.
  rewrite (transitionCount_split _ (fun u => String.eqb u u1) d).
  rewrite (one_author_one_transition u1 A B a1 b1 _ Hu1 HA HB HAB P1 G1).
  rewrite (transitionCount_split _ (fun u => String.eqb u u2)
                                 (filter (fun p => negb (String.eqb (user p) u1)) d)).
  rewrite !filter_both.
  assert (E : filter (fun p => negb (String.eqb (user p) u1) && String.eqb (user p) u2) d
              = filter (fun p => String.eqb (user p) u2) d).
  { apply filter_ext. intro p.
    destruct (String.eqb_spec (user p) u2) as [->|]; [|apply andb_false_r].
    destruct (String.eqb_spec u2 u1); [congruence | reflexivity]. }
  rewrite E.
  rewrite (one_author_one_transition u2 A B a2 b2 _ Hu2 HA HB HAB P2 G2). lia.
Qed.

Lemma four_posts_two :
  forall (u1 u2 A B : string) (a1 b1 a2 b2 : Post),
    u1 <> "" -> u2 <> "" -> u1 <> u2 ->
    A <> "" -> B <> "" -> A <> B ->
    postsThen u1 A B a1 b1 ->
    postsThen u2 A B a2 b2 ->
    transitionCount (A ++ "|" ++ B) [a1; b1; a2; b2] = 2.
Proof.
  intros u1 u2 A B a1 b1 a2 b2 Hu1 Hu2 Hu HA HB HAB P1 P2.
  pose proof P1 as [Ua1 [Ub1 _]]. pose proof P2 as [Ua2 [Ub2 _]].
  assert (N12 : String.eqb u1 u2 = false) by (apply String.eqb_neq; exact Hu).
  assert (N21 : String.eqb u2 u1 = false) by (apply String.eqb_neq; congruence).
  rewrite (two_posts_each [a1; b1; a2; b2] u1 u2 A B a1 b1 a2 b2); try assumption.
  - cbn [filter]. rewrite Ua1, Ub1, Ua2, Ub2, !String.eqb_refl, ?N12, ?N21.
    cbn [negb andb]. reflexivity.
  - cbn [filter]. rewrite Ua1, Ub1, Ua2, Ub2, !String.eqb_refl, ?N21.
    apply Permutation_refl.
  - cbn [filter]. rewrite Ua1, Ub1, Ua2, Ub2, !String.eqb_refl, ?N12.
    apply Permutation_refl.
Qed.

Section SeparatorFree.
Import PatternMining.

Lemma in_set_key : forall (V : Type) key (v : V) m kv,
    In kv (JS.set String.eqb key v m) -> fst kv = key \/ In kv m.
Proof.
  intros V key v m kv. induction m as [|[k v0] t IH]; simpl.
  - intros [<-|[]]. left. reflexivity.
  - destruct (String.eqb_spec key k) as [<-|Hne]; simpl.
    + intros [<-|H]; [left; reflexivity | right; right; exact H].
    + intros [<-|H]; [right; left; reflexivity|].
      destruct (IH H) as [E|E]; [left; exact E | right; right; exact E].
Qed.

Lemma split_joined : forall a b,
    pipeFree a = true -> pipeFree b = true ->
    JS.split "|" (a ++ "|" ++ b) = [a; b].
Proof.
  intros a b Ha Hb.
  assert (Hone : JS.split "|" b = [b]).
  { clear Ha. induction b as [|c r IH]; [reflexivity|].
    simpl in Hb. apply andb_prop in Hb. destruct Hb as [Hc Hr].
    simpl. apply negb_true_iff in Hc. rewrite Hc, (IH Hr). reflexivity. }
  change (a ++ "|" ++ b) with (a ++ String "|" b).
  induction a as [|c r IH]; simpl.
  - rewrite Hone. reflexivity.
  - simpl in Ha. apply andb_prop in Ha. destruct Ha as [Hc Hr].
    apply negb_true_iff in Hc. rewrite Hc, (IH Hr). reflexivity.
Qed.

Lemma pairKey_joined : forall a b,
    exists x y, pairKey a b = x ++ "|" ++ y
                /\ String.leb x y = true
                /\ ((x = a /\ y = b) \/ (x = b /\ y = a)).
Proof.
  intros a b. unfold pairKey, JS.sortStrings, JS.sort, JS.join. simpl.
  destruct (String.leb a b) eqn:L.
  - exists a, b. repeat split; [exact L | left; split; reflexivity].
  - exists b, a. repeat split; [|right; split; reflexivity].
    destruct (String.leb_total a b) as [H|H]; [congruence | exact H].
Qed.

Lemma pairsOf_items : forall l key,
    In key (pairsOf l) -> exists a b, In a l /\ In b l /\ key = pairKey a b.
Proof.
  induction l as [|a t IH]; intros key H; simpl in H; [contradiction|].
  apply in_app_or in H. destruct H as [H|H].
  - apply in_map_iff in H. destruct H as [b [<- Hb]].
    exists a, b. repeat split; [left; reflexivity | right; exact Hb].
  - destruct (IH key H) as [x [y [Hx [Hy E]]]].
    exists x, y. repeat split; [right; exact Hx | right; exact Hy | exact E].
Qed.

Lemma recordPair_keys : forall post key m kv,
    In kv (recordPair post key m) -> fst kv = key \/ In kv m.
Proof.
  intros post key m kv H. unfold recordPair in H.
  assert (He : forall kv', In kv' (if JS.has String.eqb key m then m
                                   else JS.set String.eqb key (mkPair 0 [] []) m) ->
                           fst kv' = key \/ In kv' m).
  { intros kv' H'. destruct (JS.has String.eqb key m); [right; exact H'|].
    apply in_set_key in H'. exact H'. }
  destruct (JS.get String.eqb key _); [|apply He; exact H].
  apply in_set_key in H. destruct H as [H|H]; [left; exact H | apply He; exact H].
Qed.

(** Every key of [itemPairs] joins two items of one post. *)
Lemma itemPairs_keys : forall data kv,
    In kv (itemPairs data) ->
    exists p a b, In p data /\ In a (itemsOf p) /\ In b (itemsOf p)
                  /\ fst kv = pairKey a b.
Proof.
  intro data. unfold itemPairs.
  assert (Hgen : forall l m,
             (forall p, In p l -> In p data) ->
             (forall kv, In kv m ->
                         exists p a b, In p data /\ In a (itemsOf p) /\ In b (itemsOf p)
                                       /\ fst kv = pairKey a b) ->
             forall kv, In kv (fold_left pairStep l m) ->
                        exists p a b, In p data /\ In a (itemsOf p) /\ In b (itemsOf p)
                                      /\ fst kv = pairKey a b).
  { induction l as [|p t IH]; intros m Hl Hm; simpl; [exact Hm|].
    apply IH; [intros q Hq; apply Hl; right; exact Hq|].
    unfold pairStep. destruct (JS.truthy (topic p)); [|exact Hm].
    assert (Hkeys : forall key, In key (pairsOf (itemsOf p)) ->
                                exists a b, In a (itemsOf p) /\ In b (itemsOf p)
                                            /\ key = pairKey a b)
      by apply pairsOf_items.
    revert Hkeys. generalize (pairsOf (itemsOf p)). intro keys. revert m Hm.
    induction keys as [|key r IHr]; intros m Hm Hkeys; simpl; [exact Hm|].
    apply IHr; [|intros k Hk; apply Hkeys; right; exact Hk].
    intros kv Hkv. apply recordPair_keys in Hkv. destruct Hkv as [E|Hkv]; [|apply Hm; exact Hkv].
    destruct (Hkeys key (or_introl eq_refl)) as [a [b [Ha [Hb Ekey]]]].
    exists p, a, b. repeat split; try assumption.
    - apply Hl. left. reflexivity.
    - rewrite E. exact Ekey. }
  apply Hgen; [intros p H; exact H | intros kv []].
Qed.
End SeparatorFree.

(** Supporting fact for C10: when no item of any post contains the
    separator, the split gives the sorted pair back and every rule has
    its antecedent before its consequent. *)
Lemma separator_free_rules_ordered :
  forall (rnd : nat -> Q) (data : list Post),
    (forall p i, In p data -> In i (PatternMining.itemsOf p) -> pipeFree i = true) ->
    Forall ordered (PatternMining.mineAssociationRules rnd data).
Proof.
  intros rnd data Hfree. apply Forall_forall. intros r H.
  destruct (mined_rule_origin rnd data r H) as [key [pd [n [Hin [_ ->]]]]].
  destruct (itemPairs_keys data (key, pd) Hin) as [p [a [b [Hp [Ha [Hb E]]]]]].
  simpl in E. destruct (pairKey_joined a b) as [x [y [Ek [Hle Hxy]]]].
  assert (Hx : pipeFree x = true /\ pipeFree y = true).
  { destruct Hxy as [[-> ->]|[-> ->]]; split; eapply Hfree; eassumption. }
  destruct Hx as [Hx Hy].
  exists x, y. cbn [PatternMining.ruleOf fst PatternMining.antecedent PatternMining.consequent].
  unfold PatternMining.item1Of, PatternMining.item2Of.
  rewrite E, Ek, (split_joined x y Hx Hy). repeat split. exact Hle.
Qed.

(* ================================================================== *)
(** * Further properties of the mining code *)
(* ================================================================== *)

Section SortOrder.
Context {A : Type} (le : A -> A -> bool).
Hypothesis le_total : forall a b, le a b = true \/ le b a = true.

Lemma insert_sorted : forall x l,
    Sorted (fun a b => le a b = true) l ->
    Sorted (fun a b => le a b = true) (JS.insert le x l).
Proof.
  intros x l H. induction H as [|y t Ht IH Hd]; simpl.
  - constructor; constructor.
  - destruct (le x y) eqn:E.
    + constructor; [constructor; assumption | constructor; exact E].
    + constructor; [exact IH|].
      assert (Hyx : le y x = true) by (destruct (le_total x y); congruence).
      destruct t as [|z t']; simpl.
      * constructor. exact Hyx.
      * destruct (le x z); constructor; [exact Hyx|].
        inversion Hd; assumption.
Qed.

Lemma sort_sorted : forall l, Sorted (fun a b => le a b = true) (JS.sort le l).
Proof.
  induction l as [|x t IH]; simpl; [constructor | apply insert_sorted; exact IH].
Qed.
End SortOrder.

Lemma insert_perm : forall (A : Type) (le : A -> A -> bool) x l,
    Permutation (JS.insert le x l) (x :: l).
Proof.
  intros A le x l. induction l as [|y t IH]; simpl; [apply Permutation_refl|].
  destruct (le x y); [apply Permutation_refl|].
  apply Permutation_trans with (y :: x :: t); [constructor; exact IH | constructor].
Qed.

Lemma sort_perm : forall (A : Type) (le : A -> A -> bool) l,
    Permutation (JS.sort le l) l.
Proof.
  intros A le l. induction l as [|x t IH]; simpl; [constructor|].
  apply Permutation_trans with (x :: JS.sort le t); [apply insert_perm | constructor; exact IH].
Qed.

(** Sorting by [score b <=? score a] and cutting ranks best first. *)
Lemma sort_cut_descending : forall (A : Type) (score : A -> Z) (n : nat) (l : list A),
    descendingBy score (JS.slice0 n (JS.sort (fun a b => score b <=? score a) l)).
Proof.
  intros A score n l. unfold descendingBy, JS.slice0.
  assert (S : StronglySorted (fun a b => score b <= score a)
                             (JS.sort (fun a b => score b <=? score a) l)).
  { apply Sorted_StronglySorted; [intros a b c H1 H2; lia|].
    pose proof (sort_sorted (fun a b => score b <=? score a)) as H.
    assert (T : forall a b, (score b <=? score a) = true \/ (score a <=? score b) = true).
    { intros a b. destruct (Z.leb_spec (score b) (score a)); [left; reflexivity|].
      right. apply Z.leb_le. lia. }
    specialize (H T l). revert H.
    generalize (JS.sort (fun a b => score b <=? score a) l). intros s H.
    induction H as [|y t Ht IH Hd]; constructor; [exact IH|].
    destruct Hd; constructor. apply Z.leb_le. assumption. }
  revert n. induction S as [|a t St IH Ha]; intro n.
  - destruct n; constructor.
  - destruct n; simpl; [constructor|].
    constructor; [apply IH|].
    rewrite Forall_forall in *. intros x Hx. apply Ha.
    apply (in_slice0 _ n t x Hx).
Qed.

Section ItemExtraction.
Import PatternMining.

Lemma hasChar_split : forall c s, Forall (fun h => hasChar c h = false) (JS.split c s).
Proof.
  intros c s. induction s as [|c' r IH]; simpl.
  - constructor; [reflexivity | constructor].
  - destruct (Ascii.eqb c' c) eqn:E.
    + constructor; [reflexivity | exact IH].
    + destruct (JS.split c r) as [|h t]; [constructor; [simpl; rewrite E; reflexivity | constructor]|].
      inversion IH as [|? ? Hh Ht]; subst.
      constructor; [simpl; rewrite E; exact Hh | exact Ht].
Qed.

Lemma hasChar_trimStart : forall c s, hasChar c s = false -> hasChar c (JS.trimStart s) = false.
Proof.
  intros c s. induction s as [|c' r IH]; simpl; [auto|].
  intro H. apply orb_false_iff in H. destruct H as [H1 H2].
  destruct (JS.is_space c'); [apply IH; exact H2|]. simpl. rewrite H1, H2. reflexivity.
Qed.

Lemma hasChar_trimEnd : forall c s, hasChar c s = false -> hasChar c (JS.trimEnd s) = false.
Proof.
  intros c s. induction s as [|c' r IH]; simpl; [auto|].
  intro H. apply orb_false_iff in H. destruct H as [H1 H2].
  specialize (IH H2). destruct (JS.trimEnd r) as [|c2 r2].
  - destruct (JS.is_space c'); simpl; [reflexivity | rewrite H1; reflexivity].
  - change (hasChar c (String c' (String c2 r2)) = false).
    cbn [hasChar] in *. rewrite H1. exact IH.
Qed.

Lemma hasChar_removeFirstHash : forall c s,
    hasChar c s = false -> hasChar c (JS.removeFirstHash s) = false.
Proof.
  intros c s. induction s as [|c' r IH]; simpl; [auto|].
  intro H. apply orb_false_iff in H. destruct H as [H1 H2].
  destruct (Ascii.eqb c' "#"); [exact H2|]. simpl. rewrite H1. apply IH. exact H2.
Qed.

Lemma setAdd_NoDup : forall x s, NoDup s -> NoDup (JS.setAdd x s).
Proof.
  intros x s H. unfold JS.setAdd.
  destruct (existsb (String.eqb x) s) eqn:E; [exact H|].
  apply NoDup_app; [exact H | constructor; [intros [] | constructor] |].
  intros a Ha [Eq|[]]. subst a.
  assert (existsb (String.eqb x) s = true) as C
      by (apply existsb_exists; exists x; split; [exact Ha | apply String.eqb_refl]).
  congruence.
Qed.

Lemma setAdd_length : forall x s, (length (JS.setAdd x s) <= S (length s))%nat.
Proof.
  intros x s. unfold JS.setAdd. destruct (existsb (String.eqb x) s); [lia|].
  rewrite length_app. simpl. lia.
Qed.

Lemma setAdd_hd : forall x s d, s <> [] -> hd d (JS.setAdd x s) = hd d s.
Proof.
  intros x s d H. unfold JS.setAdd. destruct (existsb (String.eqb x) s); [reflexivity|].
  destruct s; [contradiction | reflexivity].
Qed.

Lemma setAdd_nonempty : forall x s, JS.setAdd x s <> [].
Proof.
  intros x s. unfold JS.setAdd. destruct (existsb (String.eqb x) s) eqn:E.
  - destruct s; [discriminate E | discriminate].
  - destruct s; discriminate.
Qed.

Lemma fold_setAdd : forall l s d,
    NoDup s -> s <> [] ->
    let s' := fold_left (fun s x => JS.setAdd x s) l s in
    NoDup s' /\ s' <> [] /\ hd d s' = hd d s /\ (length s' <= length s + length l)%nat.
Proof.
  induction l as [|x t IH]; intros s d Hs Hne; simpl.
  - split; [exact Hs|]. split; [exact Hne|]. split; [reflexivity | lia].
  - destruct (IH (JS.setAdd x s) d (setAdd_NoDup x s Hs) (setAdd_nonempty x s))
      as [H1 [H2 [H3 H4]]].
    split; [exact H1|]. split; [exact H2|]. split.
    + rewrite H3. apply setAdd_hd. exact Hne.
    + pose proof (setAdd_length x s). lia.
Qed.

Lemma emit_capitalised : forall acc,
    capitalised acc = true -> Forall (fun w => capitalised w = true) (emit acc).
Proof.
  intros acc H. unfold emit. destruct (2 <=? String.length acc)%nat; constructor; [exact H | constructor].
Qed.

Lemma allLower_snoc : forall r c,
    allLower r = true -> JS.is_lower c = true -> allLower (r ++ String c EmptyString) = true.
Proof.
  intros r c Hr Hc. unfold allLower in *. induction r as [|c' r' IH]; simpl in *.
  - rewrite Hc. reflexivity.
  - apply andb_prop in Hr. destruct Hr as [H1 H2]. rewrite H1. simpl. apply IH. exact H2.
Qed.

(** While a candidate is being read it is a capital followed by
    lower-case letters; the words emitted have one lower-case letter at
    least. *)
Lemma scanWords_shape : forall s st,
    match st with
    | Candidate (String c r) => JS.is_upper c = true /\ allLower r = true
    | Candidate EmptyString => False
    | _ => True
    end ->
    Forall (fun w => capitalised w = true) (scanWords st s).
Proof.
  assert (Hemit : forall c r, JS.is_upper c = true -> allLower r = true ->
                              Forall (fun w => capitalised w = true) (emit (String c r))).
  { intros c r Hc Hr. unfold emit. destruct r as [|c2 r2]; simpl; [constructor|].
    constructor; [|constructor]. simpl. rewrite Hc. exact Hr. }
  induction s as [|c r IH]; intros st Hst; simpl.
  - destruct st as [| |acc]; [constructor | constructor |].
    destruct acc as [|c0 r0]; [contradiction|].
    destruct Hst. apply Hemit; assumption.
  - destruct st as [| |[|c0 r0]].
    + destruct (JS.is_upper c) eqn:U; [apply IH; split; [exact U | reflexivity]|].
      destruct (JS.is_word c); apply IH; exact I.
    + destruct (JS.is_word c); apply IH; exact I.
    + contradiction.
    + destruct Hst as [Hc0 Hr0].
      destruct (JS.is_lower c) eqn:L.
      * apply IH. simpl. split; [exact Hc0 | apply allLower_snoc; assumption].
      * destruct (JS.is_word c); [apply IH; exact I|].
        apply Forall_app. split; [apply Hemit; assumption | apply IH; exact I].
Qed.
End ItemExtraction.

(** X1: the hashtags read from a post are never empty and never contain
    a comma; a missing hashtag field gives none. *)
Theorem extractHashtags_tags :
  forall hashtagStr : string,
    Forall (fun h => h <> "" /\ hasChar "," h = false)
           (PatternMining.extractHashtags hashtagStr)
    /\ PatternMining.extractHashtags "" = [].
Proof.
  intro s. split; [|reflexivity].
  unfold PatternMining.extractHashtags. destruct (JS.truthy s); [|constructor].
  apply Forall_forall. intros h Hh. apply filter_In in Hh. destruct Hh as [Hin Hlen].
  split.
  - intro E. subst h. discriminate Hlen.
  - apply in_map_iff in Hin. destruct Hin as [piece [<- Hp]].
    apply hasChar_removeFirstHash. unfold JS.trim.
    apply hasChar_trimEnd, hasChar_trimStart.
    pose proof (hasChar_split "," s) as F. rewrite Forall_forall in F. apply F. exact Hp.
Qed.

(** X2: a text gives two keywords at most, and each keyword is one
    capital letter followed by one or more lower-case letters. *)
Theorem extractKeywords_capitalised :
  forall content : string,
    (length (PatternMining.extractKeywords content) <= 2)%nat
    /\ Forall (fun w => capitalised w = true) (PatternMining.extractKeywords content).
Proof.
  intro content. unfold PatternMining.extractKeywords.
  destruct (JS.truthy content); [|split; [simpl; lia | constructor]].
  split; [apply firstn_le_length|].
  apply Forall_forall. intros w Hw. apply in_slice0 in Hw.
  pose proof (scanWords_shape content PatternMining.Outside I) as F.
  rewrite Forall_forall in F. apply F. exact Hw.
Qed.

(** X3: the item set of a post starts with its topic, holds no item
    twice and has five items at most, so a post contributes ten pair keys
    at most. *)
Theorem itemsOf_set :
  forall post : Post,
    hd "" (PatternMining.itemsOf post) = topic post
    /\ NoDup (PatternMining.itemsOf post)
    /\ (length (PatternMining.itemsOf post) <= 5)%nat
    /\ (length (PatternMining.pairsOf (PatternMining.itemsOf post)) <= 10)%nat.
Proof.
  intro post. unfold PatternMining.itemsOf.
  set (s0 := JS.setAdd (topic post) []).
  set (tags := JS.slice0 2 (PatternMining.extractHashtags (hashtags post))).
  set (kws := PatternMining.extractKeywords (content post)).
  assert (N0 : NoDup s0) by (apply setAdd_NoDup; constructor).
  assert (E0 : s0 <> []) by apply setAdd_nonempty.
  destruct (fold_setAdd tags s0 "" N0 E0) as [N1 [E1 [H1 L1]]].
  destruct (fold_setAdd kws _ "" N1 E1) as [N2 [E2 [H2 L2]]].
  assert (Lt : (length tags <= 2)%nat) by apply firstn_le_length.
  assert (Lk : (length kws <= 2)%nat).
  { unfold kws, PatternMining.extractKeywords.
    destruct (JS.truthy (content post)); [apply firstn_le_length | simpl; lia]. }
  assert (L5 : (length (fold_left (fun s k => JS.setAdd k s) kws
                                  (fold_left (fun s h => JS.setAdd h s) tags s0)) <= 5)%nat).
  { change (length s0) with 1%nat in L1. lia. }
  repeat split; [rewrite H2, H1; reflexivity | exact N2 | exact L5 |].
  revert L5. generalize (fold_left (fun s k => JS.setAdd k s) kws
                                   (fold_left (fun s h => JS.setAdd h s) tags s0)).
  intros l Hl.
  assert (Hlen : forall l : list string,
             (2 * length (PatternMining.pairsOf l) = length l * (length l - 1))%nat).
  { induction l0 as [|a t IH]; [reflexivity|].
    cbn [PatternMining.pairsOf length]. rewrite length_app, length_map.
    destruct t as [|b t']; [reflexivity|]. cbn [length] in *. nia. }
  specialize (Hlen l). nia.
Qed.

(** X4: the counter key of a pair does not depend on the order in which
    its two items are met. *)
Theorem pairKey_symmetric :
  forall a b : string, PatternMining.pairKey a b = PatternMining.pairKey b a.
Proof.
  intros a b. unfold PatternMining.pairKey, JS.sortStrings, JS.sort. simpl.
  destruct (String.leb a b) eqn:Lab; destruct (String.leb b a) eqn:Lba; try reflexivity.
  - assert (a = b) as ->; [|reflexivity].
    unfold String.leb in Lab, Lba. rewrite (String.compare_antisym b a) in Lba.
    destruct (String.compare a b) eqn:C;
      [apply String.compare_eq_iff; exact C | discriminate Lba | discriminate Lab].
  - destruct (String.leb_total a b); congruence.
Qed.

Section PairCounting.
Import PatternMining.

Lemma keys_set : forall (V : Type) key (v : V) (m : list (string * V)),
    map fst (JS.set String.eqb key v m)
    = if JS.has String.eqb key m then map fst m else (map fst m ++ [key])%list.
Proof.
  intros V key v m. unfold JS.has. induction m as [|[k v0] t IH]; simpl; [reflexivity|].
  destruct (String.eqb key k) eqn:E; simpl; [reflexivity|].
  rewrite IH. destruct (JS.get String.eqb key t); reflexivity.
Qed.

Lemma has_keys : forall (V : Type) key (m : list (string * V)),
    JS.has String.eqb key m = false -> ~ In key (map fst m).
Proof.
  intros V key m. unfold JS.has. induction m as [|[k v0] t IH]; simpl; [tauto|].
  destruct (String.eqb_spec key k) as [->|Hne]; [discriminate|].
  intros H [E|Hin]; [congruence | exact (IH H Hin)].
Qed.

Lemma set_keys_NoDup : forall (V : Type) key (v : V) (m : list (string * V)),
    NoDup (map fst m) -> NoDup (map fst (JS.set String.eqb key v m)).
Proof.
  intros V key v m H. rewrite keys_set.
  destruct (JS.has String.eqb key m) eqn:E; [exact H|].
  apply NoDup_app; [exact H | constructor; [intros [] | constructor] |].
  intros a Ha [Eq|[]]. subst a. exact (has_keys V key m E Ha).
Qed.

Lemma get_recordPair : forall post key k m,
    JS.get String.eqb k (recordPair post key m)
    = if String.eqb key k then Some (bumped post (pairOf key m))
      else JS.get String.eqb k m.
Proof.
  intros post key k m. unfold recordPair, JS.has, pairOf, bumped.
  destruct (JS.get String.eqb key m) as [pd|] eqn:G.
  - rewrite G. destruct (String.eqb_spec key k) as [<-|Hne].
    + apply (get_set_same _ string_eqb_spec).
    + apply (get_set_other _ string_eqb_spec). exact Hne.
  - rewrite (get_set_same _ string_eqb_spec).
    destruct (String.eqb_spec key k) as [<-|Hne].
    + apply (get_set_same _ string_eqb_spec).
    + rewrite !(get_set_other _ string_eqb_spec) by exact Hne. reflexivity.
Qed.

Lemma set_set : forall (V : Type) key (v1 v2 : V) (m : list (string * V)),
    JS.set String.eqb key v2 (JS.set String.eqb key v1 m) = JS.set String.eqb key v2 m.
Proof.
  intros V key v1 v2 m. induction m as [|[k v0] t IH]; simpl.
  - rewrite String.eqb_refl. reflexivity.
  - destruct (String.eqb key k) eqn:E; simpl; rewrite E; [reflexivity|].
    rewrite IH. reflexivity.
Qed.

(** Recording an occurrence replaces the entry of the key by the bumped
    one, at the key's place, or appends it for a new key. *)
Lemma recordPair_shape : forall post key m,
    recordPair post key m = JS.set String.eqb key (bumped post (pairOf key m)) m.
Proof.
  intros post key m. unfold recordPair, JS.has, pairOf, bumped.
  destruct (JS.get String.eqb key m) as [pd|] eqn:G.
  - rewrite G. reflexivity.
  - rewrite (get_set_same _ string_eqb_spec). apply set_set.
Qed.

Lemma bumped_wellCounted : forall post pd,
    0 <= count pd ->
    Z.of_nat (length (posts pd)) = Z.min (count pd) 5 ->
    NoDup (topics pd) ->
    wellCounted (bumped post pd).
Proof.
  intros post pd H0 Hl Hn. unfold wellCounted, bumped. cbn [count posts topics].
  split; [lia|]. split; [|split; [apply setAdd_nonempty | apply setAdd_NoDup; exact Hn]].
  destruct (Nat.ltb_spec (length (posts pd)) 5).
  - rewrite length_app. simpl. lia.
  - lia.
Qed.

Lemma pairOf_ready : forall key m,
    Forall (fun kv => wellCounted (snd kv)) m ->
    0 <= count (pairOf key m)
    /\ Z.of_nat (length (posts (pairOf key m))) = Z.min (count (pairOf key m)) 5
    /\ NoDup (topics (pairOf key m)).
Proof.
  intros key m H. unfold pairOf.
  destruct (JS.get String.eqb key m) as [pd|] eqn:G.
  - apply (get_in _ string_eqb_spec) in G. rewrite Forall_forall in H.
    destruct (H _ G) as [H1 [H2 [_ H4]]]. simpl in *. repeat split; [lia | exact H2 | exact H4].
  - simpl. repeat split; [lia | constructor].
Qed.

Lemma recordPair_invariant : forall post key m,
    NoDup (map fst m) /\ Forall (fun kv => wellCounted (snd kv)) m ->
    NoDup (map fst (recordPair post key m))
    /\ Forall (fun kv => wellCounted (snd kv)) (recordPair post key m).
Proof.
  intros post key m [Hk Hw]. rewrite recordPair_shape. split.
  - apply set_keys_NoDup. exact Hk.
  - destruct (pairOf_ready key m Hw) as [H0 [Hl Hn]].
    pose proof (bumped_wellCounted post _ H0 Hl Hn) as Hb.
    apply Forall_forall. intros kv Hin.
    apply in_set_inv in Hin. destruct Hin as [-> | Hin]; [exact Hb|].
    rewrite Forall_forall in Hw. apply Hw. exact Hin.
Qed.

Lemma pairCount_recordPair : forall post key k m,
    pairCount k (recordPair post key m)
    = pairCount k m + (if String.eqb k key then 1 else 0).
Proof.
  intros post key k m. unfold pairCount. rewrite get_recordPair.
  rewrite (String.eqb_sym k key).
  destruct (String.eqb_spec key k) as [<-|Hne].
  - unfold bumped, pairOf. cbn [count].
    destruct (JS.get String.eqb key m); reflexivity.
  - lia.
Qed.

Lemma pairCount_fold : forall post keys k m,
    pairCount k (fold_left (fun m key => recordPair post key m) keys m)
    = pairCount k m + occurrences k keys.
Proof.
  intros post keys k. unfold occurrences.
  induction keys as [|key t IH]; intro m; simpl; [lia|].
  rewrite IH, pairCount_recordPair.
  destruct (String.eqb k key); simpl length; lia.
Qed.

Lemma occurrences_app : forall k l1 l2,
    occurrences k (l1 ++ l2) = occurrences k l1 + occurrences k l2.
Proof.
  intros k l1 l2. unfold occurrences. rewrite filter_app, length_app. lia.
Qed.

Lemma invariant_fold : forall post keys m,
    NoDup (map fst m) /\ Forall (fun kv => wellCounted (snd kv)) m ->
    NoDup (map fst (fold_left (fun m key => recordPair post key m) keys m))
    /\ Forall (fun kv => wellCounted (snd kv))
              (fold_left (fun m key => recordPair post key m) keys m).
Proof.
  intros post keys. induction keys as [|key t IH]; intros m H; simpl; [exact H|].
  apply IH. apply recordPair_invariant. exact H.
Qed.
End PairCounting.

Lemma itemPairs_invariant :
  forall data : list Post,
    NoDup (map fst (PatternMining.itemPairs data))
    /\ Forall (fun kv => wellCounted (snd kv)) (PatternMining.itemPairs data).
Proof.
  intro data. unfold PatternMining.itemPairs.
  assert (Hgen : forall l m,
             NoDup (map fst m) /\ Forall (fun kv => wellCounted (snd kv)) m ->
             NoDup (map fst (fold_left PatternMining.pairStep l m))
             /\ Forall (fun kv => wellCounted (snd kv)) (fold_left PatternMining.pairStep l m)).
  { induction l as [|p t IH]; intros m H; simpl; [exact H|].
    apply IH. unfold PatternMining.pairStep.
    destruct (JS.truthy (topic p)); [apply invariant_fold; exact H | exact H]. }
  apply Hgen. split; constructor.
Qed.

(** X5: [itemPairs] holds every key once; each entry was counted once at
    least, keeps the first five contributing posts (min(count, 5) of
    them) and a non-empty set of topics without repetition. *)
Theorem itemPairs_entries :
  forall data : list Post,
    NoDup (map fst (PatternMining.itemPairs data))
    /\ Forall (fun kv =>
                1 <= PatternMining.count (snd kv)
                /\ Z.of_nat (length (PatternMining.posts (snd kv)))
                   = Z.min (PatternMining.count (snd kv)) 5
                /\ PatternMining.topics (snd kv) <> []
                /\ NoDup (PatternMining.topics (snd kv)))
              (PatternMining.itemPairs data).
Proof. exact itemPairs_invariant. Qed.

(** X6: the count [itemPairs] holds for a key is the number of times the
    key is produced by the pairs of the posts that have a topic; a key
    never produced has no entry. *)
Theorem itemPairs_counts :
  forall (data : list Post) (key : string),
    pairCount key (PatternMining.itemPairs data) = occurrences key (allPairKeys data)
    /\ (JS.has String.eqb key (PatternMining.itemPairs data) = true
        <-> In key (allPairKeys data)).
Proof.
  intros data key.
  assert (Hc : pairCount key (PatternMining.itemPairs data) = occurrences key (allPairKeys data)).
  { unfold PatternMining.itemPairs.
    assert (Hgen : forall l m,
               pairCount key (fold_left PatternMining.pairStep l m)
               = pairCount key m + occurrences key (allPairKeys l)).
    { induction l as [|p t IH]; intro m; simpl; [unfold occurrences; simpl; lia|].
      rewrite IH. unfold allPairKeys. cbn [flat_map]. rewrite occurrences_app.
      unfold PatternMining.pairStep. destruct (JS.truthy (topic p)).
      - rewrite pairCount_fold. unfold allPairKeys. lia.
      - unfold occurrences at 2. simpl. unfold allPairKeys. lia. }
    rewrite Hgen. reflexivity. }
  split; [exact Hc|].
  destruct (itemPairs_invariant data) as [_ Hw].
  unfold JS.has. unfold pairCount in Hc. split.
  - intro H. destruct (JS.get String.eqb key (PatternMining.itemPairs data)) as [pd|] eqn:G;
      [|discriminate].
    apply (get_in _ string_eqb_spec) in G. rewrite Forall_forall in Hw.
    destruct (Hw _ G) as [H1 _]. simpl in H1.
    assert (0 < occurrences key (allPairKeys data)) as Hpos by lia.
    unfold occurrences in Hpos.
    destruct (filter (String.eqb key) (allPairKeys data)) as [|x r] eqn:F; [simpl in Hpos; lia|].
    assert (In x (filter (String.eqb key) (allPairKeys data))) as Hx by (rewrite F; left; reflexivity).
    apply filter_In in Hx. destruct Hx as [Hin E]. apply String.eqb_eq in E. subst x. exact Hin.
  - intro Hin.
    destruct (JS.get String.eqb key (PatternMining.itemPairs data)) as [pd|] eqn:G;
      [reflexivity|].
    assert (In key (filter (String.eqb key) (allPairKeys data))) as Hf
        by (apply filter_In; split; [exact Hin | apply String.eqb_refl]).
    unfold occurrences in Hc.
    destruct (filter (String.eqb key) (allPairKeys data)); [contradiction | simpl in Hc; lia].
Qed.

Section RuleShape.
Import PatternMining.
Open Scope Q_scope.

Lemma NoDup_firstn : forall (A : Type) (n : nat) (l : list A), NoDup l -> NoDup (firstn n l).
Proof.
  intros A n l H. rewrite <- (firstn_skipn n l) in H.
  apply NoDup_app_remove_r in H. exact H.
Qed.

Lemma platformCounts_keys : forall (ps : list Post) (m : list (string * Z)),
    NoDup (map fst m) ->
    NoDup (map fst (fold_left (fun m p =>
                                 JS.set String.eqb (platform p)
                                        (match JS.get String.eqb (platform p) m with
                                         | Some n => n | None => 0%Z end + 1)%Z m)
                              ps m)).
Proof.
  induction ps as [|p t IH]; intros m H; simpl; [exact H|].
  apply IH. apply set_keys_NoDup. exact H.
Qed.

Lemma set_nonempty : forall (V : Type) key (v : V) m, JS.set String.eqb key v m <> [].
Proof. intros V key v [|[k v0] t]; simpl; [discriminate|]. destruct (String.eqb key k); discriminate. Qed.

Lemma platformCounts_nonempty : forall (ps : list Post) (m : list (string * Z)),
    ps <> [] \/ m <> [] ->
    fold_left (fun m p =>
                 JS.set String.eqb (platform p)
                        (match JS.get String.eqb (platform p) m with
                         | Some n => n | None => 0%Z end + 1)%Z m)
              ps m <> [].
Proof.
  induction ps as [|p t IH]; intros m H; simpl.
  - destruct H as [H|H]; [contradiction H; reflexivity | exact H].
  - apply IH. right. apply set_nonempty.
Qed.

(** The platforms of a rule: one to three, none twice. *)
Lemma topPlatforms_shape : forall ps,
    ps <> [] ->
    (1 <= length (topPlatforms ps) <= 3)%nat /\ NoDup (topPlatforms ps).
Proof.
  intros ps Hne. unfold topPlatforms, JS.slice0.
  set (pc := fold_left _ ps []).
  assert (Hpc : pc <> []) by (apply platformCounts_nonempty; left; exact Hne).
  assert (Hk : NoDup (map fst pc)) by (apply platformCounts_keys; constructor).
  rewrite length_map, length_firstn, length_sort. split.
  - destruct pc; [contradiction Hpc; reflexivity | cbn [length]; lia].
  - rewrite <- firstn_map. apply NoDup_firstn.
    apply Permutation_NoDup with (l := map fst pc); [|exact Hk].
    apply Permutation_map. apply Permutation_sym. apply sort_perm.
Qed.

(** The growth rate of a rule lies between -50 and 100. *)
Lemma growthRateOf_tight : forall sorted r,
    0 <= r -> r < 1 ->
    (-50 <= fst (growthRateOf sorted r) <= 100)%Z.
Proof.
  intros sorted r Hr0 Hr1. unfold growthRateOf.
  destruct (2 <=? length sorted)%nat.
  - destruct (2 <=? length (JS.sort Z.leb (map fst (timeGroups sorted))))%nat.
    + set (g := timeGroups sorted).
      set (weeks := JS.sort Z.leb (map fst g)).
      set (f := groupCount g (nth 0 weeks 0%Z)).
      set (l := groupCount g (nth (length weeks - 1) weeks 0%Z)).
      set (mid := groupCount g (nth (Nat.div (length weeks) 2) weeks 0%Z)).
      destruct (0 <? f)%Z.
      * set (raw := ofZ (l - f) / ofZ f * 100).
        destruct (Qltb_spec 0 raw) as [Hpos|Hneg].
        -- assert (B : (50 <= JS.round (Qmin 100 (50 + raw / 4)) <= 100)%Z).
           { apply round_between; [|apply Q.le_min_l].
             apply Q.min_glb; [discriminate|].
             apply Qle_trans with (50 + 0); [discriminate|].
             apply Qplus_le_r. apply Qlt_le_weak.
             apply Qlt_shift_div_l; [reflexivity|]. rewrite Qmult_0_l. exact Hpos. }
           destruct ((f <? mid) && (mid <? l))%Z; cbn [fst]; lia.
        -- cbn [fst].
           assert (B : (-50 <= JS.round (Qmax (-50) (raw / 2)) <= 0)%Z).
           { apply round_between; [apply Q.le_max_l|].
             apply Q.max_lub; [discriminate|].
             apply Qle_shift_div_r; [reflexivity|]. rewrite Qmult_0_l.
             apply Qnot_lt_le. exact Hneg. }
           lia.
      * destruct (0 <? l)%Z eqn:L; cbn [fst]; [apply Z.ltb_lt in L|]; lia.
    + cbn [fst].
      assert (B : 10 <= 10 + r * 20 /\ 10 + r * 20 <= 30).
      { split.
        - rewrite <- (Qplus_0_r 10) at 1. apply Qplus_le_r.
          apply Qmult_le_0_compat; [exact Hr0 | discriminate].
        - apply Qle_trans with (10 + 1 * 20); [|discriminate].
          apply Qplus_le_r. apply Qmult_le_compat_r; [|discriminate].
          apply Qlt_le_weak. exact Hr1. }
      destruct B as [B1 B2].
      destruct (5 <? length sorted)%nat.
      * assert (10 <= JS.round (10 + r * 20) <= 30)%Z by (apply round_between; assumption).
        lia.
      * assert (5 <= JS.round ((10 + r * 20) * (1 # 2)) <= 15)%Z.
        { apply round_between.
          - apply Qle_trans with (10 * (1 # 2)); [discriminate|].
            apply Qmult_le_compat_r; [exact B1 | discriminate].
          - apply Qle_trans with (30 * (1 # 2)); [|discriminate].
            apply Qmult_le_compat_r; [exact B2 | discriminate]. }
        lia.
  - cbn [fst].
    assert (0 <= JS.round (r * 15) <= 15)%Z.
    { apply round_between.
      - apply Qmult_le_0_compat; [exact Hr0 | discriminate].
      - apply Qle_trans with (1 * 15); [|discriminate].
        apply Qmult_le_compat_r; [|discriminate]. apply Qlt_le_weak. exact Hr1. }
    lia.
Qed.

Lemma direction_not_fading : forall g : Z,
    (-50 <= g)%Z -> trendDirectionOf g <> "⬇️ Fading".
Proof.
  intros g H. unfold trendDirectionOf.
  destruct (50 <? g)%Z; [discriminate|].
  destruct (15 <? g)%Z; [discriminate|].
  destruct (g <? -50)%Z eqn:E; [apply Z.ltb_lt in E; lia|].
  destruct (g <? -15)%Z; discriminate.
Qed.
End RuleShape.

(** X7: every rule of the output is built from exactly five example
    posts: it shows two examples, names between one and three platforms,
    none twice, and has one antecedent and one consequent. *)
Theorem mined_rule_shape :
  forall (rnd : nat -> Q) (data : list Post),
    Forall (fun r =>
              length (PatternMining.examples r) = 2%nat
              /\ (1 <= length (PatternMining.platforms r) <= 3)%nat
              /\ NoDup (PatternMining.platforms r)
              /\ length (PatternMining.antecedent r) = 1%nat
              /\ length (PatternMining.consequent r) = 1%nat)
           (PatternMining.mineAssociationRules rnd data).
Proof.
  intros rnd data. apply Forall_forall. intros r H.
  destruct (mined_rule_origin rnd data r H) as [key [pd [n [Hin [C ->]]]]].
  destruct (itemPairs_invariant data) as [_ Hw]. rewrite Forall_forall in Hw.
  destruct (Hw _ Hin) as [_ [Hl _]]. cbn [snd] in Hl.
  assert (L5 : length (PatternMining.posts pd) = 5%nat) by lia.
  set (sorted := JS.sort (fun a b => timestamp a <=? timestamp b) (PatternMining.posts pd)).
  assert (Ls : length sorted = 5%nat) by (unfold sorted; rewrite length_sort; exact L5).
  assert (Hne : sorted <> []) by (intro E; rewrite E in Ls; discriminate Ls).
  cbn [PatternMining.ruleOf fst PatternMining.examples PatternMining.platforms
       PatternMining.antecedent PatternMining.consequent length].
  fold sorted. destruct (topPlatforms_shape sorted Hne) as [P1 P2].
  split; [|split; [exact P1 | split; [exact P2 | split; reflexivity]]].
  rewrite length_map. unfold JS.slice0. rewrite length_firstn, Ls. reflexivity.
Qed.

(** X8: for every outcome of [Math.random] in [0, 1), the growth rate of
    every rule of the output lies between -50 and 100, its direction
    label is the one the cut-offs give that growth rate, and the label
    "Fading" is never used. *)
Theorem mined_rule_direction :
  forall (rnd : nat -> Q) (data : list Post),
    unitStream rnd ->
    Forall (fun r =>
              -50 <= PatternMining.growth_rate r <= 100
              /\ PatternMining.trend_direction r
                 = PatternMining.trendDirectionOf (PatternMining.growth_rate r)
              /\ PatternMining.trend_direction r <> "⬇️ Fading")
           (PatternMining.mineAssociationRules rnd data).
Proof.
  intros rnd data Hrnd. apply Forall_forall. intros r H.
  destruct (mined_rule_origin rnd data r H) as [key [pd [n [_ [_ ->]]]]].
  destruct (Hrnd n) as [H0 H1].
  cbn [PatternMining.ruleOf fst PatternMining.growth_rate PatternMining.trend_direction].
  pose proof (growthRateOf_tight
                (JS.sort (fun a b => timestamp a <=? timestamp b) (PatternMining.posts pd))
                (rnd n) H0 H1) as B.
  split; [exact B|]. split; [reflexivity|].
  apply direction_not_fading. lia.
Qed.

Lemma mined_rule_direction_witness :
  map (fun r => (PatternMining.growth_rate r, PatternMining.trend_direction r))
      (PatternMining.mineAssociationRules (fun _ => 1 # 2)%Q threeWeekPosts)
  = [(-25, "📉 Declining")]
  /\ Forall (fun r =>
               -50 <= PatternMining.growth_rate r <= 100
               /\ PatternMining.trend_direction r
                  = PatternMining.trendDirectionOf (PatternMining.growth_rate r)
               /\ PatternMining.trend_direction r <> "⬇️ Fading")
            (PatternMining.mineAssociationRules (fun _ => 1 # 2)%Q threeWeekPosts).
Proof.
  split; [reflexivity|].
  apply mined_rule_direction. intro n. split; [discriminate | reflexivity].
Defined.

Section Itemsets.
Import PatternMining.
Open Scope Q_scope.

Lemma split_nonempty : forall c s, (1 <= length (JS.split c s))%nat.
Proof.
  intros c s. induction s as [|c' r IH]; simpl; [lia|].
  destruct (Ascii.eqb c' c); [simpl; lia|].
  destruct (JS.split c r); simpl in *; lia.
Qed.

Lemma split_separated : forall c x y,
    (2 <= length (JS.split c (x ++ String c y)))%nat.
Proof.
  intros c x y. induction x as [|c' r IH]; simpl.
  - rewrite Ascii.eqb_refl. pose proof (split_nonempty c y). simpl. lia.
  - destruct (Ascii.eqb c' c).
    + pose proof (split_nonempty c (r ++ String c y)). simpl. lia.
    + destruct (JS.split c (r ++ String c y)); simpl in *; lia.
Qed.

Lemma split_join_two : forall l,
    (2 <= length l)%nat -> (2 <= length (JS.split "|" (JS.join "|" l)))%nat.
Proof.
  intros [|a [|b t]] H; simpl in H; try lia.
  unfold JS.join. change (String.concat "|" (a :: b :: t))
    with (a ++ String "|" (String.concat "|" (b :: t))).
  apply split_separated.
Qed.

Lemma itemsetCounts_keys : forall data kv,
    In kv (itemsetCounts data) ->
    exists l, (2 <= length l)%nat /\ fst kv = JS.join "|" l.
Proof.
  intro data. unfold itemsetCounts.
  assert (Hgen : forall l m,
             (forall kv, In kv m -> exists l, (2 <= length l)%nat /\ fst kv = JS.join "|" l) ->
             forall kv, In kv (fold_left itemsetStep l m) ->
                        exists l, (2 <= length l)%nat /\ fst kv = JS.join "|" l).
  { induction l as [|p t IH]; intros m Hm; simpl; [exact Hm|].
    apply IH. unfold itemsetStep.
    destruct (JS.truthy (topic p)); [|exact Hm].
    set (arr := JS.sortStrings (itemsetItems p)).
    destruct (2 <=? length arr)%nat eqn:L; [|exact Hm].
    apply Nat.leb_le in L.
    assert (He : forall kv, In kv (if JS.has String.eqb (JS.join "|" arr) m then m
                                   else JS.set String.eqb (JS.join "|" arr)
                                               (mkItemsetData 0 []) m) ->
                            exists l, (2 <= length l)%nat /\ fst kv = JS.join "|" l).
    { intros kv H. destruct (JS.has String.eqb (JS.join "|" arr) m); [apply Hm; exact H|].
      apply in_set_key in H. destruct H as [E|H]; [exists arr; split; assumption | apply Hm; exact H]. }
    destruct (JS.get String.eqb (JS.join "|" arr) _); [|exact He].
    intros kv H. apply in_set_key in H.
    destruct H as [E|H]; [exists arr; split; assumption | apply He; exact H]. }
  apply Hgen. intros kv [].
Qed.

Lemma itemsetsByTopic_origin : forall data kv,
    In kv (itemsetsByTopic data) -> Forall (itemsetOrigin data) (snd kv).
Proof.
  intro data. unfold itemsetsByTopic.
  assert (Hgen : forall l (m : list (string * list FrequentItemset)),
             (forall kv, In kv l -> In kv (itemsetCounts data)) ->
             (forall kv, In kv m -> Forall (itemsetOrigin data) (snd kv)) ->
             forall kv,
               In kv (fold_left
                        (fun m kv =>
                           if (is_count (snd kv) <? 8)%Z then m
                           else pushTo (nth 0 (is_topics (snd kv)) "")
                                       (itemsetOf data (fst kv) (snd kv)) m) l m) ->
               Forall (itemsetOrigin data) (snd kv)).
  { induction l as [|[key d] t IH]; intros m Hl Hm; simpl; [exact Hm|].
    apply IH; [intros kv Hkv; apply Hl; right; exact Hkv|].
    destruct (is_count d <? 8)%Z eqn:C; [exact Hm|].
    apply pushTo_Forall; [exact Hm|].
    exists key, d. repeat split; [apply Hl; left; reflexivity | apply Z.ltb_ge; exact C]. }
  apply Hgen; [intros kv H; exact H | intros kv []].
Qed.

Lemma mined_itemset_origin : forall data s,
    In s (mineFrequentItemsets data) -> itemsetOrigin data s.
Proof.
  intros data s H. unfold mineFrequentItemsets in H.
  apply in_slice0 in H. apply in_sort in H.
  apply in_flat_map in H. destruct H as [kv [Hkv Hs]].
  apply in_slice0 in Hs. apply in_sort in Hs.
  pose proof (itemsetsByTopic_origin data kv Hkv) as F.
  rewrite Forall_forall in F. apply F. exact Hs.
Qed.

Lemma round_nonneg : forall q, 0 <= q -> (0 <= JS.round q)%Z.
Proof.
  intros q H. unfold JS.round. rewrite <- (Qfloor_Z 0). apply Qfloor_resp_le.
  apply Qle_trans with q; [exact H|].
  rewrite <- (Qplus_0_r q) at 1. apply Qplus_le_r. discriminate.
Qed.

Lemma round_at_least : forall (a : Z) (q : Q), inject_Z a <= q -> (a <= JS.round q)%Z.
Proof.
  intros a q H. unfold JS.round. rewrite <- (Qfloor_Z a). apply Qfloor_resp_le.
  apply Qle_trans with q; [exact H|].
  rewrite <- (Qplus_0_r q) at 1. apply Qplus_le_r. discriminate.
Qed.

Lemma ratio_nonneg : forall (c : Z) (n : nat), (0 <= c)%Z -> 0 <= ofZ c / ofNat n.
Proof.
  intros c n H. unfold Qdiv. apply Qmult_le_0_compat.
  - unfold ofZ. change 0 with (inject_Z 0). rewrite <- Zle_Qle. exact H.
  - apply Qinv_le_0_compat. unfold ofNat. change 0 with (inject_Z 0).
    rewrite <- Zle_Qle. lia.
Qed.
End Itemsets.

(** X9: the frequent itemsets are returned best first by occurrence
    count, 24 at most; each has two items at least and a popularity score
    between 0 and 80. *)
Theorem mined_itemsets_ranked :
  forall data : list Post,
    descendingBy PatternMining.fi_occurrence_count (PatternMining.mineFrequentItemsets data)
    /\ (length (PatternMining.mineFrequentItemsets data) <= 24)%nat
    /\ Forall (fun s =>
                 (2 <= length (PatternMining.items s))%nat
                 /\ 0 <= PatternMining.fi_popularity_score s <= 80)
              (PatternMining.mineFrequentItemsets data).
Proof.
  intro data. split; [|split].
  - unfold PatternMining.mineFrequentItemsets, PatternMining.byItemsetCount.
    apply sort_cut_descending.
  - unfold PatternMining.mineFrequentItemsets. apply firstn_le_length.
  - apply Forall_forall. intros s H.
    destruct (mined_itemset_origin data s H) as [key [d [Hin [C ->]]]].
    cbn [PatternMining.itemsetOf PatternMining.items PatternMining.fi_popularity_score].
    split.
    + destruct (itemsetCounts_keys data (key, d) Hin) as [l [Hl E]].
      cbn [fst] in E. rewrite E. apply split_join_two. exact Hl.
    + assert (0 <= JS.round (PatternMining.ofZ (PatternMining.is_count d)
                             / PatternMining.ofNat (length data) * 100 * 12)%Q).
      { apply round_nonneg. apply Qmult_le_0_compat; [|discriminate].
        apply Qmult_le_0_compat; [|discriminate]. apply ratio_nonneg. lia. }
      lia.
Qed.

Section SequentialOutput.
Import PatternMining.
Open Scope Q_scope.

Lemma in_has : forall (V : Type) key (v : V) (m : list (string * V)),
    In (key, v) m -> JS.has String.eqb key m = true.
Proof.
  intros V key v m H. unfold JS.has. induction m as [|[k v0] t IH]; [contradiction|].
  simpl. destruct (String.eqb_spec key k); [reflexivity|].
  destruct H as [E|H]; [congruence | apply IH; exact H].
Qed.

Lemma has_set : forall (V : Type) key k (v : V) (m : list (string * V)),
    JS.has String.eqb k (JS.set String.eqb key v m)
    = String.eqb key k || JS.has String.eqb k m.
Proof.
  intros V key k v m. unfold JS.has.
  destruct (String.eqb_spec key k) as [<-|Hne].
  - rewrite (get_set_same _ string_eqb_spec). reflexivity.
  - rewrite (get_set_other _ string_eqb_spec) by exact Hne. reflexivity.
Qed.

Lemma transitionStep_timed : forall st ab, timed st -> timed (transitionStep st ab).
Proof.
  intros st [a b] H. unfold transitionStep.
  destruct (String.eqb (v_topic a) (v_topic b)); [exact H|]. cbn [negb].
  unfold timed in *. intros key Hk. cbn [sequenceCounts sequenceTimings] in *.
  rewrite has_set in Hk.
  destruct (String.eqb_spec (seqKey a b) key) as [E|Hne].
  - subst key. rewrite (get_set_same _ string_eqb_spec).
    destruct (JS.get String.eqb (seqKey a b) (sequenceTimings st)) as [l|].
    + exists (l ++ [ofZ (v_timestamp b - v_timestamp a) / ofZ dayMs])%list.
      split; [reflexivity|]. destruct l; discriminate.
    + eexists. split; [reflexivity | discriminate].
  - rewrite (get_set_other _ string_eqb_spec) by exact Hne. apply H. exact Hk.
Qed.

Lemma tally_timed : forall data, timed (tally data).
Proof.
  intro data. unfold tally.
  assert (Hgen : forall entries st, timed st -> timed (fold_left sequenceStep entries st)).
  { induction entries as [|e t IH]; intros st H; simpl; [exact H|].
    apply IH. unfold sequenceStep. generalize (adjacent (sortVisits (snd e))).
    intro pairs. revert st H. induction pairs as [|ab r IHr]; intros st H; simpl; [exact H|].
    apply IHr. apply transitionStep_timed. exact H. }
  apply Hgen. unfold timed. intros key Hk. discriminate Hk.
Qed.

Lemma avgDurationOf_band : forall timings, timings <> [] -> In (avgDurationOf timings) durationBands.
Proof.
  intros timings H. unfold avgDurationOf, durationBands.
  destruct timings as [|t0 ts]; [contradiction H; reflexivity|].
  repeat match goal with
         | |- context [if ?c then _ else _] => destruct c
         end; simpl; tauto.
Qed.
End SequentialOutput.

(** X10: the sequential patterns are returned best first by occurrence
    count, 15 at most; each has a strength between 20 and 85 and one of
    the five duration bands computed from recorded times (the default
    label is never shown). *)
Theorem mined_sequences_ranked :
  forall data : list Post,
    descendingBy PatternMining.sp_occurrence_count (PatternMining.mineSequentialPatterns data)
    /\ (length (PatternMining.mineSequentialPatterns data) <= 15)%nat
    /\ Forall (fun p =>
                 20 <= PatternMining.pattern_strength p <= 85
                 /\ In (PatternMining.avg_duration p) durationBands)
              (PatternMining.mineSequentialPatterns data).
Proof.
  intro data. split; [|split].
  - unfold PatternMining.mineSequentialPatterns, PatternMining.bySequenceCount.
    apply sort_cut_descending.
  - unfold PatternMining.mineSequentialPatterns. apply firstn_le_length.
  - apply Forall_forall. intros p H.
    unfold PatternMining.mineSequentialPatterns in H.
    apply in_slice0 in H. apply in_sort in H.
    apply in_flat_map in H. destruct H as [[seq cnt] [Hin Hp]]. cbn [fst snd] in Hp.
    destruct (cnt <? 3) eqn:C; [contradiction|]. apply Z.ltb_ge in C.
    destruct Hp as [<-|[]].
    cbn [PatternMining.patternOf PatternMining.pattern_strength PatternMining.avg_duration].
    split.
    + assert (20 <= JS.round
                      (20 + PatternMining.ofZ cnt
                            / PatternMining.ofZ
                                (Z.max (Z.of_nat (length (PatternMining.userSequences data))) 20)
                            * 100 * 15)%Q).
      { apply round_at_least.
        rewrite <- (Qplus_0_r (inject_Z 20)) at 1. apply Qplus_le_r.
        apply Qmult_le_0_compat; [|discriminate].
        apply Qmult_le_0_compat; [|discriminate].
        unfold Qdiv. apply Qmult_le_0_compat.
        - unfold PatternMining.ofZ. change 0%Q with (inject_Z 0). rewrite <- Zle_Qle. lia.
        - apply Qinv_le_0_compat. unfold PatternMining.ofZ.
          change 0%Q with (inject_Z 0). rewrite <- Zle_Qle. lia. }
      lia.
    + destruct (tally_timed data seq (in_has _ seq cnt _ Hin)) as [l [G Hl]].
      rewrite G. apply avgDurationOf_band. exact Hl.
Qed.

Section Grouped.
Import PatternMining.

Lemma visits_from_posts : forall (P : Visit -> Prop) data,
    (forall p, In p data -> P (mkVisit (topic p) (timestamp p))) ->
    forall kv, In kv (userSequences data) -> Forall P (snd kv).
Proof.
  intros P data HP. unfold userSequences.
  assert (Hgen : forall l (m : list (string * list Visit)),
             (forall p, In p l -> P (mkVisit (topic p) (timestamp p))) ->
             (forall kv, In kv m -> Forall P (snd kv)) ->
             forall kv, In kv (fold_left userStep l m) -> Forall P (snd kv)).
  { induction l as [|p r IH]; intros m Hl Hm; simpl; [exact Hm|].
    apply IH; [intros q Hq; apply Hl; right; exact Hq|].
    rewrite userStep_pushTo.
    destruct (negb (JS.truthy (user p)) || negb (JS.truthy (topic p))); [exact Hm|].
    apply pushTo_Forall; [exact Hm|]. apply Hl. left. reflexivity. }
  apply Hgen; [exact HP | intros kv []].
Qed.

(** The keys of [sequenceCounts] join the topics of two consecutive
    visits with different topics. *)
Lemma sequenceCounts_keys : forall (P : Visit -> Prop) data,
    (forall p, In p data -> P (mkVisit (topic p) (timestamp p))) ->
    forall kv, In kv (sequenceCounts (tally data)) ->
               exists a b, P a /\ P b /\ v_topic a <> v_topic b /\ fst kv = seqKey a b.
Proof.
  intros P data HP. unfold tally.
  pose proof (visits_from_posts P data HP) as Hv.
  revert Hv. generalize (userSequences data). intros entries Hv.
  assert (Hgen : forall es st,
             (forall e, In e es -> Forall P (snd e)) ->
             (forall kv, In kv (sequenceCounts st) ->
                         exists a b, P a /\ P b /\ v_topic a <> v_topic b /\ fst kv = seqKey a b) ->
             forall kv, In kv (sequenceCounts (fold_left sequenceStep es st)) ->
                        exists a b, P a /\ P b /\ v_topic a <> v_topic b /\ fst kv = seqKey a b).
  { induction es as [|e t IH]; intros st He Hst; simpl; [exact Hst|].
    apply IH; [intros e' H'; apply He; right; exact H'|].
    unfold sequenceStep.
    assert (Hp : forall a b, In (a, b) (adjacent (sortVisits (snd e))) -> P a /\ P b).
    { intros a b Hab. apply adjacent_in in Hab. destruct Hab as [Ha Hb].
      unfold sortVisits in Ha, Hb. apply in_sort in Ha. apply in_sort in Hb.
      pose proof (He e (or_introl eq_refl)) as F. rewrite Forall_forall in F.
      split; apply F; assumption. }
    revert Hp. generalize (adjacent (sortVisits (snd e))). intro pairs.
    revert st Hst. induction pairs as [|[a b] r IHr]; intros st Hst Hp; simpl; [exact Hst|].
    apply IHr; [|intros a' b' H'; apply Hp; right; exact H'].
    unfold transitionStep.
    destruct (String.eqb_spec (v_topic a) (v_topic b)) as [|Hne]; [exact Hst|].
    cbn [negb sequenceCounts]. intros kv Hkv.
    apply in_set_key in Hkv. destruct Hkv as [E|Hkv]; [|apply Hst; exact Hkv].
    destruct (Hp a b (or_introl eq_refl)) as [Pa Pb].
    exists a, b. repeat split; assumption. }
  apply Hgen; [exact Hv | intros kv []].
Qed.

Lemma userSequences_one_author : forall u l acc,
    (forall p, In p l -> user p = u) ->
    fold_left userStep l [(u, acc)] = [(u, (acc ++ visitsOf u l)%list)].
Proof.
  intros u l. induction l as [|p t IH]; intros acc Hu; simpl.
  - unfold visitsOf. simpl. rewrite app_nil_r. reflexivity.
  - rewrite userStep_pushTo. unfold visitsOf. cbn [filter]. unfold sequenced.
    rewrite (Hu p (or_introl eq_refl)), String.eqb_refl, andb_true_r.
    assert (Ht : forall q, In q t -> user q = u) by (intros q Hq; apply Hu; right; exact Hq).
    destruct (JS.truthy u); cbn [negb orb andb];
      [destruct (JS.truthy (topic p)); cbn [negb andb]|].
    + unfold pushTo. cbn [JS.get JS.set]. rewrite String.eqb_refl.
      rewrite (IH _ Ht). cbn [map]. rewrite <- app_assoc. reflexivity.
    + apply IH. exact Ht.
    + apply IH. exact Ht.
Qed.

Lemma userSequences_only_author : forall u l,
    (forall p, In p l -> user p = u) ->
    JS.get String.eqb u (userSequences l)
    = match visitsOf u l with [] => None | v => Some v end.
Proof.
  intros u l. unfold userSequences. induction l as [|p t IH]; intro Hu; [reflexivity|].
  assert (Ht : forall q, In q t -> user q = u) by (intros q Hq; apply Hu; right; exact Hq).
  cbn [fold_left]. rewrite userStep_pushTo. unfold visitsOf. cbn [filter]. unfold sequenced.
  rewrite (Hu p (or_introl eq_refl)), String.eqb_refl, andb_true_r.
  destruct (JS.truthy u); cbn [negb orb andb];
    [destruct (JS.truthy (topic p)); cbn [negb andb]|]; try (apply IH; exact Ht).
  unfold pushTo. cbn [JS.get JS.set].
  rewrite (userSequences_one_author u t _ Ht). cbn [JS.get]. rewrite String.eqb_refl.
  reflexivity.
Qed.
End Grouped.

(** X11: when no topic contains the separator ["|"], every sequential
    pattern of the output names two different topics. *)
Theorem mined_sequences_change_topic :
  forall data : list Post,
    (forall p, In p data -> pipeFree (topic p) = true) ->
    Forall (fun sp => exists A B, PatternMining.sequence sp = [A; B] /\ A <> B)
           (PatternMining.mineSequentialPatterns data).
Proof.
  intros data Hfree. apply Forall_forall. intros sp H.
  unfold PatternMining.mineSequentialPatterns in H.
  apply in_slice0 in H. apply in_sort in H.
  apply in_flat_map in H. destruct H as [[seq cnt] [Hin Hp]]. cbn [fst snd] in Hp.
  destruct (cnt <? 3); [contradiction|]. destruct Hp as [<-|[]].
  destruct (sequenceCounts_keys (fun v => pipeFree (PatternMining.v_topic v) = true) data
                                Hfree (seq, cnt) Hin) as [a [b [Pa [Pb [Hne E]]]]].
  cbn [fst] in E. subst seq.
  exists (PatternMining.v_topic a), (PatternMining.v_topic b). split; [|exact Hne].
  cbn [PatternMining.patternOf PatternMining.sequence]. unfold PatternMining.seqKey.
  rewrite (split_joined _ _ Pa Pb). reflexivity.
Qed.

Lemma mined_sequences_change_topic_witness :
  map PatternMining.sequence (PatternMining.mineSequentialPatterns threeFans)
  = [["Cricket"; "Gaming"]]
  /\ Forall (fun sp => exists A B, PatternMining.sequence sp = [A; B] /\ A <> B)
            (PatternMining.mineSequentialPatterns threeFans).
Proof.
  split; [reflexivity|].
  apply mined_sequences_change_topic.
  intros p Hp. unfold threeFans in Hp. apply in_flat_map in Hp.
  destruct Hp as [u [_ [<-|[<-|[]]]]]; reflexivity.
Defined.

(** X12: the occurrence count of a transition is the sum, over the
    authors, of the transitions with that key along the author's posts in
    time order; hence it is additive over any split of the authors. *)
Theorem transition_counts_by_author :
  forall (key : string) (data : list Post) (q : string -> bool),
    transitionCount key data = transitionsOfAll key (PatternMining.userSequences data)
    /\ transitionCount key data
       = transitionCount key (filter (fun p => q (user p)) data)
         + transitionCount key (filter (fun p => negb (q (user p))) data).
Proof.
  intros key data q. split; [apply transitionCount_entries | apply transitionCount_split].
Qed.

(** X13: the Sequential Miner keeps one sequence per author, under the
    author's name: the topics and times of the author's posts that have a
    topic, in the order of the collection; an author without such a post
    has no sequence, and neither has the empty name. *)
Theorem userSequences_by_author :
  forall (data : list Post) (u : string),
    NoDup (map fst (PatternMining.userSequences data))
    /\ JS.get String.eqb u (PatternMining.userSequences data)
       = match visitsOf u data with [] => None | v => Some v end.
Proof.
  intros data u. split.
  - unfold PatternMining.userSequences.
    assert (Hgen : forall l (m : list (string * list PatternMining.Visit)),
               NoDup (map fst m) -> NoDup (map fst (fold_left PatternMining.userStep l m))).
    { induction l as [|p t IH]; intros m H; simpl; [exact H|].
      apply IH. rewrite userStep_pushTo.
      destruct (negb (JS.truthy (user p)) || negb (JS.truthy (topic p))); [exact H|].
      unfold pushTo. apply set_keys_NoDup. exact H. }
    apply Hgen. constructor.
  - rewrite <- (get_filterKeys _ (String.eqb u) u) by apply String.eqb_refl.
    rewrite userSequences_filter.
    rewrite userSequences_only_author.
    + unfold visitsOf. rewrite filter_both.
      assert (E : filter (fun x => String.eqb u (user x) && (sequenced x && String.eqb (user x) u)) data
                  = filter (fun p => sequenced p && String.eqb (user p) u) data).
      { apply filter_ext. intro p. rewrite (String.eqb_sym u (user p)).
        destruct (String.eqb (user p) u); [reflexivity | rewrite andb_false_r; reflexivity]. }
      rewrite E. reflexivity.
    + intros p Hp. apply filter_In in Hp. destruct Hp as [_ E].
      apply String.eqb_eq in E. symmetry. exact E.
Qed.

Section Accounting.
Import TrendAnalysis.

Lemma in_set_entry : forall (V : Type) key (v : V) m kv,
    In kv (JS.set String.eqb key v m) -> kv = (key, v) \/ In kv m.
Proof.
  intros V key v m kv. induction m as [|[k v0] t IH]; simpl.
  - intros [<-|[]]. left. reflexivity.
  - destruct (String.eqb_spec key k) as [<-|Hne]; simpl.
    + intros [<-|H]; [left; reflexivity | right; right; exact H].
    + intros [<-|H]; [right; left; reflexivity|].
      destruct (IH H) as [E|E]; [left; exact E | right; right; exact E].
Qed.

Lemma sumZ_app : forall l1 l2, sumZ (l1 ++ l2) = sumZ l1 + sumZ l2.
Proof.
  intros l1 l2. unfold sumZ. induction l1 as [|x t IH]; simpl; [reflexivity|].
  rewrite IH. lia.
Qed.

(** Adding to a week's bucket adds as much to the sum of the buckets. *)
Lemma sum_buckets_set : forall week e ts,
    sumZ (map snd (JS.set Z.eqb week (bucket week ts + e) ts)) = sumZ (map snd ts) + e.
Proof.
  intros week e ts. unfold bucket. induction ts as [|[w v] t IH]; simpl.
  - lia.
  - destruct (Z.eqb week w) eqn:E; simpl; [lia|].
    unfold sumZ in *. simpl. rewrite IH. lia.
Qed.

Lemma ensure_accounted : forall data key m,
    Forall (accounted data) m -> Forall (accounted data) (ensure key m).
Proof.
  intros data key m H. unfold ensure. destruct (JS.has String.eqb key m); [exact H|].
  apply Forall_forall. intros kv Hin. apply in_set_entry in Hin.
  destruct Hin as [-> | Hin]; [|rewrite Forall_forall in H; apply H; exact Hin].
  unfold accounted. simpl. repeat split. constructor.
Qed.

Lemma addToTrend_accounted : forall data post key m,
    In post data ->
    engagementThreshold <= rawEngagement post ->
    In key (extractedKeys post) ->
    Forall (accounted data) m ->
    Forall (accounted data) (addToTrend post (rawEngagement post) (weekOf post) key m).
Proof.
  intros data post key m Hp He Hk H. unfold addToTrend.
  pose proof (ensure_accounted data key m H) as H'.
  destruct (JS.get String.eqb key (ensure key m)) as [t|] eqn:G; [|exact H'].
  destruct (hasId (post_id post) (posts t)); [exact H'|].
  apply Forall_forall. intros kv Hin. apply in_set_entry in Hin.
  destruct Hin as [-> | Hin]; [|rewrite Forall_forall in H'; apply H'; exact Hin].
  apply (get_in _ string_eqb_spec) in G. rewrite Forall_forall in H'.
  destruct (H' _ G) as [K [T1 [T2 F]]]. cbn [fst snd] in *.
  unfold accounted. cbn [fst snd keyword posts totalEngagement timeSeries].
  split; [exact K|]. split; [|split].
  - rewrite map_app, sumZ_app. simpl. lia.
  - rewrite sum_buckets_set. lia.
  - apply Forall_app. split; [exact F|].
    constructor; [|constructor]. repeat split; assumption.
Qed.

Lemma processPost_accounted : forall data post m,
    In post data ->
    Forall (accounted data) m -> Forall (accounted data) (processPost m post).
Proof.
  intros data post m Hp H.
  destruct (Z.ltb_spec (rawEngagement post) engagementThreshold) as [Hlt|Hge].
  - unfold processPost. apply Z.ltb_lt in Hlt. rewrite Hlt. exact H.
  - rewrite processPost_keys by exact Hge.
    assert (Hgen : forall keys m0,
               (forall k, In k keys -> In k (extractedKeys post)) ->
               Forall (accounted data) m0 ->
               Forall (accounted data)
                      (fold_left (fun m key => addToTrend post (rawEngagement post)
                                                          (weekOf post) key m) keys m0)).
    { induction keys as [|k t IH]; intros m0 Hk H0; simpl; [exact H0|].
      apply IH; [intros k' H'; apply Hk; right; exact H'|].
      apply addToTrend_accounted; try assumption. apply Hk. left. reflexivity. }
    apply Hgen; [intros k Hk; exact Hk | exact H].
Qed.

Lemma addToTrend_keys : forall post e w key m,
    NoDup (map fst m) -> NoDup (map fst (addToTrend post e w key m)).
Proof.
  intros post e w key m H. unfold addToTrend.
  assert (He : NoDup (map fst (ensure key m))).
  { unfold ensure. destruct (JS.has String.eqb key m); [exact H|].
    apply set_keys_NoDup. exact H. }
  destruct (JS.get String.eqb key (ensure key m)); [|exact He].
  destruct (hasId (post_id post) (posts t)); [exact He|].
  apply set_keys_NoDup. exact He.
Qed.

Lemma aggregate_keys : forall data, NoDup (map fst (aggregate data)).
Proof.
  intro data. unfold aggregate.
  assert (Hgen : forall l m, NoDup (map fst m) -> NoDup (map fst (fold_left processPost l m))).
  { induction l as [|p t IH]; intros m H; simpl; [exact H|].
    apply IH. unfold processPost.
    destruct (rawEngagement p <? engagementThreshold); [exact H|].
    assert (Hf : forall (g : string -> bool) keys m0,
               NoDup (map fst m0) ->
               NoDup (map fst (fold_left
                                 (fun m key => if g key
                                               then addToTrend p (rawEngagement p) (weekOf p) key m
                                               else m) keys m0))).
    { intros g keys. induction keys as [|k r IHk]; intros m0 H0; simpl; [exact H0|].
      apply IHk. destruct (g k); [apply addToTrend_keys; exact H0 | exact H0]. }
    apply Hf. destruct (JS.truthy (hashtags p)); [apply Hf; exact H | exact H]. }
  apply Hgen. constructor.
Qed.

Lemma aggregate_accounted : forall data, Forall (accounted data) (aggregate data).
Proof.
  intro data. unfold aggregate.
  assert (Hgen : forall l m,
             (forall p, In p l -> In p data) ->
             Forall (accounted data) m ->
             Forall (accounted data) (fold_left processPost l m)).
  { induction l as [|p t IH]; intros m Hl H; simpl; [exact H|].
    apply IH; [intros q Hq; apply Hl; right; exact Hq|].
    apply processPost_accounted; [apply Hl; left; reflexivity | exact H]. }
  apply Hgen; [intros p H; exact H | constructor].
Qed.
End Accounting.

(** X14: the aggregator of the temporal page keeps one trend per key,
    stored under its own keyword; the trend's total engagement is the
    sum of its members' raw engagement and also the sum of its weekly
    buckets; every member is a post of the collection that meets the
    threshold and is filed under that key. *)
Theorem aggregate_accounts :
  forall data : list Post,
    NoDup (map fst (TrendAnalysis.aggregate data))
    /\ Forall (fun kv =>
                 TrendAnalysis.keyword (snd kv) = fst kv
                 /\ TrendAnalysis.totalEngagement (snd kv)
                    = sumZ (map rawEngagement (TrendAnalysis.posts (snd kv)))
                 /\ TrendAnalysis.totalEngagement (snd kv)
                    = sumZ (map snd (TrendAnalysis.timeSeries (snd kv)))
                 /\ Forall (fun p => In p data
                                     /\ 20 <= rawEngagement p
                                     /\ In (fst kv) (extractedKeys p))
                           (TrendAnalysis.posts (snd kv)))
              (TrendAnalysis.aggregate data).
Proof.
  intro data. split; [apply aggregate_keys | apply aggregate_accounted].
Qed.

Section Membership.
Import TrendAnalysis.

(** A post stays a member once it is one. *)
Lemma processPost_keeps_member : forall id key m post,
    hasId id (posts (trendOf key m)) = true ->
    hasId id (posts (trendOf key (processPost m post))) = true.
Proof.
  intros id key m post H.
  destruct (Z.ltb_spec (rawEngagement post) engagementThreshold) as [Hlt|Hge].
  - unfold processPost. apply Z.ltb_lt in Hlt. rewrite Hlt. exact H.
  - rewrite processPost_keys by exact Hge. rewrite trendOf_fold_addToTrend.
    destruct (existsb (String.eqb key) (extractedKeys post)
              && negb (hasId (post_id post) (posts (trendOf key m)))); [|exact H].
    simpl. rewrite hasId_app, H. reflexivity.
Qed.

Lemma processPost_adds_member : forall key m post,
    engagementThreshold <= rawEngagement post ->
    In key (extractedKeys post) ->
    hasId (post_id post) (posts (trendOf key (processPost m post))) = true.
Proof.
  intros key m post He Hk.
  rewrite processPost_keys by exact He. rewrite trendOf_fold_addToTrend.
  assert (E : existsb (String.eqb key) (extractedKeys post) = true).
  { apply existsb_exists. exists key. split; [exact Hk | apply String.eqb_refl]. }
  rewrite E. destruct (hasId (post_id post) (posts (trendOf key m))) eqn:H; simpl.
  - exact H.
  - apply hasId_joined.
Qed.
End Membership.

(** X15: every post of the collection that meets the threshold is a
    member, by its id, of the trend of each key it is filed under. *)
Theorem aggregate_files_every_post :
  forall (data : list Post) (post : Post) (key : string),
    In post data ->
    20 <= rawEngagement post ->
    In key (extractedKeys post) ->
    hasId (post_id post)
          (TrendAnalysis.posts (trendOf key (TrendAnalysis.aggregate data))) = true.
Proof.
  intros data post key Hin He Hk. unfold TrendAnalysis.aggregate.
  assert (Hkeep : forall l m,
             hasId (post_id post) (TrendAnalysis.posts (trendOf key m)) = true ->
             hasId (post_id post)
                   (TrendAnalysis.posts (trendOf key (fold_left TrendAnalysis.processPost l m)))
             = true).
  { induction l as [|q t IH]; intros m H; simpl; [exact H|].
    apply IH. apply processPost_keeps_member. exact H. }
  assert (Hgen : forall l m,
             In post l ->
             hasId (post_id post)
                   (TrendAnalysis.posts (trendOf key (fold_left TrendAnalysis.processPost l m)))
             = true).
  { induction l as [|q t IH]; intros m H; [contradiction|]. simpl.
    destruct H as [->|H]; [|apply IH; exact H].
    apply Hkeep. apply processPost_adds_member; assumption. }
  apply Hgen. exact Hin.
Qed.

Lemma aggregate_files_every_post_witness :
  hasId "b" (TrendAnalysis.posts (trendOf "ipl" (TrendAnalysis.aggregate seasonPosts))) = true.
Proof.
  apply (aggregate_files_every_post seasonPosts (nth 1 seasonPosts cryptoPost) "ipl").
  - right. left. reflexivity.
  - vm_compute. discriminate.
  - right. left. reflexivity.
Defined.

Section TemporalOutput.
Import TrendAnalysis.
Open Scope Q_scope.

End TemporalOutput.




Section FeedFacts.
Import Feeds.

Lemma uniqueById_entries : forall posts (m : list (string * Post)),
    NoDup (map fst m) ->
    (forall kv, In kv m -> post_id (snd kv) = fst kv) ->
    let m' := fold_left (fun m post => JS.set String.eqb (post_id post) post m) posts m in
    NoDup (map fst m')
    /\ (forall kv, In kv m' -> post_id (snd kv) = fst kv)
    /\ (forall kv, In kv m' -> In kv m \/ In (snd kv) posts).
Proof.
  induction posts as [|p t IH]; intros m Hk Hid; simpl.
  - repeat split; auto.
  - destruct (IH (JS.set String.eqb (post_id p) p m)) as [H1 [H2 H3]].
    + apply set_keys_NoDup. exact Hk.
    + intros kv Hin. apply in_set_entry in Hin.
      destruct Hin as [->|Hin]; [reflexivity | apply Hid; exact Hin].
    + split; [exact H1|]. split; [exact H2|].
      intros kv Hin. destruct (H3 kv Hin) as [H|H]; [|right; right; exact H].
      apply in_set_entry in H. destruct H as [->|H]; [right; left; reflexivity | left; exact H].
Qed.

Lemma uniqueById_ids : forall posts,
    NoDup (map post_id (uniqueById posts))
    /\ (forall p, In p (uniqueById posts) -> In p posts).
Proof.
  intro posts. unfold uniqueById.
  destruct (uniqueById_entries posts [] (NoDup_nil _) (fun kv (H : In kv []) => match H with end))
    as [H1 [H2 H3]].
  split.
  - rewrite map_map.
    rewrite (map_ext_in (fun kv => post_id (snd kv)) fst); [exact H1|].
    intros kv Hin. apply H2. exact Hin.
  - intros p Hp. apply in_map_iff in Hp. destruct Hp as [kv [<- Hin]].
    destruct (H3 kv Hin) as [[]|H]. exact H.
Qed.

Lemma share_percent : forall c n : Z,
    0 <= c <= n -> 0 <= JS.round (Qmult (Qdiv (inject_Z c) (inject_Z n)) 100) <= 100.
Proof.
  intros c n [Hc Hn].
  apply (round_between 0 100).
  - apply Qmult_le_0_compat; [|discriminate].
    unfold Qdiv. apply Qmult_le_0_compat.
    + change 0%Q with (inject_Z 0). rewrite <- Zle_Qle. exact Hc.
    + apply Qinv_le_0_compat. change 0%Q with (inject_Z 0). rewrite <- Zle_Qle. lia.
  - destruct (Z.eq_dec n 0) as [->|Hn0].
    + assert (c = 0) by lia. subst c. discriminate.
    + assert (Hpos : (0 < inject_Z n)%Q).
      { change 0%Q with (inject_Z 0). rewrite <- Zlt_Qlt. lia. }
      apply Qle_trans with (1 * 100)%Q; [|discriminate].
      apply Qmult_le_compat_r; [|discriminate].
      apply Qle_shift_div_r; [exact Hpos|]. rewrite Qmult_1_l.
      rewrite <- Zle_Qle. exact Hn.
Qed.

Lemma sum_counts_from : forall (l : list (string * Z)) a,
    fold_left (fun sum e => sum + snd e) l a = a + sumZ (map snd l).
Proof.
  induction l as [|e t IH]; intro a; simpl; [unfold sumZ; simpl; lia|].
  rewrite IH. unfold sumZ. simpl. lia.
Qed.

Lemma sumZ_perm : forall l1 l2, Permutation l1 l2 -> sumZ l1 = sumZ l2.
Proof.
  intros l1 l2 H. unfold sumZ. induction H; simpl; lia.
Qed.

Lemma sumZ_firstn : forall n l, Forall (fun x => 0 <= x) l -> 0 <= sumZ (firstn n l) <= sumZ l.
Proof.
  unfold sumZ. induction n as [|n IH]; intros l H; simpl.
  - induction H; simpl; lia.
  - destruct H as [|x t Hx Ht]; simpl; [lia|]. specialize (IH t Ht). lia.
Qed.

Lemma sum_counts_set : forall key (m : list (string * Z)),
    sumZ (map snd (JS.set String.eqb key
                          (match JS.get String.eqb key m with Some n => n | None => 0 end + 1) m))
    = sumZ (map snd m) + 1.
Proof.
  intros key m. unfold sumZ. induction m as [|[k v] t IH]; simpl; [lia|].
  destruct (String.eqb key k); simpl; [lia|]. rewrite IH. lia.
Qed.

Lemma topicCounts_total : forall data,
    sumZ (map snd (topicCounts data)) = Z.of_nat (length data)
    /\ Forall (fun x => 0 <= x) (map snd (topicCounts data)).
Proof.
  intro data. unfold topicCounts.
  assert (Hgen : forall l (m : list (string * Z)),
             Forall (fun x => 0 <= x) (map snd m) ->
             sumZ (map snd (fold_left
                              (fun m post =>
                                 JS.set String.eqb (topic post)
                                        (match JS.get String.eqb (topic post) m with
                                         | Some n => n | None => 0 end + 1) m) l m))
             = sumZ (map snd m) + Z.of_nat (length l)
             /\ Forall (fun x => 0 <= x)
                       (map snd (fold_left
                                   (fun m post =>
                                      JS.set String.eqb (topic post)
                                             (match JS.get String.eqb (topic post) m with
                                              | Some n => n | None => 0 end + 1) m) l m))).
  { induction l as [|p t IH]; intros m Hm; [simpl; split; [lia | exact Hm]|].
    cbn [fold_left].
    destruct (IH (JS.set String.eqb (topic p)
                         (match JS.get String.eqb (topic p) m with
                          | Some n => n | None => 0 end + 1) m)) as [H1 H2].
    - apply Forall_forall. intros x Hx. apply in_map_iff in Hx.
      destruct Hx as [kv [<- Hin]]. apply in_set_inv in Hin.
      rewrite Forall_forall in Hm.
      destruct Hin as [->|Hin].
      + destruct (JS.get String.eqb (topic p) m) as [n|] eqn:G; [|lia].
        apply (get_in _ string_eqb_spec) in G.
        assert (0 <= n) by (apply Hm; apply in_map_iff; exists (topic p, n); split; [reflexivity | exact G]).
        lia.
      + apply Hm. apply in_map_iff. exists kv. split; [reflexivity | exact Hin].
    - split; [|exact H2]. rewrite H1, sum_counts_set. cbn [length]. lia. }
  destruct (Hgen data []) as [H1 H2]; [constructor|].
  split; [rewrite H1; unfold sumZ; simpl; lia | exact H2].
Qed.
End FeedFacts.

(** X18: the "for you" feed is empty when no interest is selected; it
    holds 20 posts at most, no post id twice (even when a trend lists a
    post twice), and every post of the feed is a member of a trend that
    touches a selected topic. *)
Theorem forYouFeed_unique :
  forall (Trend : Type) (topicsOf : Trend -> list string) (postsOf : Trend -> list Post)
         (extractTrends : list Trend) (selectedInterests : list string),
    Feeds.forYouFeed topicsOf postsOf extractTrends [] = []
    /\ (length (Feeds.forYouFeed topicsOf postsOf extractTrends selectedInterests) <= 20)%nat
    /\ NoDup (map post_id (Feeds.forYouFeed topicsOf postsOf extractTrends selectedInterests))
    /\ Forall (fun p => exists trend,
                   In trend extractTrends
                   /\ existsb (Feeds.selected selectedInterests) (topicsOf trend) = true
                   /\ In p (postsOf trend))
              (Feeds.forYouFeed topicsOf postsOf extractTrends selectedInterests).
Proof.
  intros Trend topicsOf postsOf trends interests.
  split; [reflexivity|].
  unfold Feeds.forYouFeed. destruct interests as [|i0 rest].
  - split; [simpl; lia|]. split; constructor.
  - set (interests := i0 :: rest).
    set (matching := JS.sort _ _).
    destruct (uniqueById_ids matching) as [N M].
    split; [apply firstn_le_length|]. split.
    + unfold JS.slice0. rewrite <- firstn_map. apply NoDup_firstn. exact N.
    + apply Forall_forall. intros p Hp. apply in_slice0 in Hp. apply M in Hp.
      unfold matching in Hp. apply in_sort in Hp. apply in_flat_map in Hp.
      destruct Hp as [trend [Ht Hp]]. apply filter_In in Ht. destruct Ht as [Ht Hs].
      exists trend. repeat split; assumption.
Qed.

(** X19: both relevance scores are percentages: between 0 and 100, and 0
    for an empty collection. *)
Theorem relevance_is_percentage :
  forall (data : list Post) (selectedInterests : list string),
    0 <= Feeds.relevanceScore data selectedInterests <= 100
    /\ Feeds.relevanceScore [] selectedInterests = 0
    /\ (forall (Trend : Type) (topicsOf : Trend -> list string) (extractTrends : list Trend),
           0 <= Feeds.trendRelevance topicsOf extractTrends selectedInterests <= 100).
Proof.
  intros data interests. split; [|split].
  - unfold Feeds.relevanceScore. destruct interests as [|i0 rest].
    + destruct data as [|p0 ps]; [lia|].
      set (d := p0 :: ps). apply share_percent.
      destruct (topicCounts_total d) as [Hsum Hpos].
      rewrite sum_counts_from. unfold JS.slice0. rewrite <- firstn_map.
      assert (Hperm : Permutation
                        (map snd (JS.sort (fun a b : string * Z => snd b <=? snd a)
                                          (Feeds.topicCounts d)))
                        (map snd (Feeds.topicCounts d)))
        by (apply Permutation_map, sort_perm).
      assert (Hpos' : Forall (fun x => 0 <= x)
                             (map snd (JS.sort (fun a b : string * Z => snd b <=? snd a)
                                               (Feeds.topicCounts d)))).
      { rewrite Forall_forall in *. intros x Hx. apply Hpos.
        eapply Permutation_in; [exact Hperm | exact Hx]. }
      pose proof (sumZ_firstn 3 _ Hpos') as B.
      rewrite (sumZ_perm _ _ Hperm), Hsum in B. lia.
    + destruct data as [|p0 ps]; [lia|].
      apply share_percent. split; [lia|].
      apply inj_le. apply filter_length_le.
  - unfold Feeds.relevanceScore. destruct interests; reflexivity.
  - intros Trend topicsOf trends. unfold Feeds.trendRelevance.
    destruct interests as [|i0 rest]; [lia|].
    destruct trends as [|t0 ts]; [lia|].
    apply share_percent. split; [lia|]. apply inj_le. apply filter_length_le.
Qed.

(** X20: toggling an interest flips whether it is selected, leaves every
    other topic as it was, and keeps a selection free of repetitions so. *)
Theorem toggleInterest_flips :
  forall (topic : string) (prev : list string),
    (In topic (Feeds.toggleInterest topic prev) <-> ~ In topic prev)
    /\ (forall t, t <> topic -> (In t (Feeds.toggleInterest topic prev) <-> In t prev))
    /\ (NoDup prev -> NoDup (Feeds.toggleInterest topic prev)).
Proof.
  intros topic prev. unfold Feeds.toggleInterest, Feeds.selected.
  destruct (existsb (String.eqb topic) prev) eqn:E.
  - assert (Hin : In topic prev).
    { apply existsb_exists in E. destruct E as [x [Hx Ex]].
      apply String.eqb_eq in Ex. subst x. exact Hx. }
    split; [|split].
    + split; [|tauto]. intro H. apply filter_In in H. destruct H as [_ H].
      rewrite String.eqb_refl in H. discriminate H.
    + intros t Ht. rewrite filter_In. split; [tauto|].
      intro H. split; [exact H|]. apply negb_true_iff. apply String.eqb_neq. exact Ht.
    + intro N. apply NoDup_filter. exact N.
  - assert (Hnot : ~ In topic prev).
    { intro H. assert (existsb (String.eqb topic) prev = true) as C
          by (apply existsb_exists; exists topic; split; [exact H | apply String.eqb_refl]).
      congruence. }
    split; [|split].
    + split; [tauto|]. intros _. apply in_or_app. right. left. reflexivity.
    + intros t Ht. rewrite in_app_iff. simpl. split; [|tauto].
      intros [H|[H|[]]]; [exact H | congruence].
    + intro N. apply NoDup_app; [exact N | constructor; [intros [] | constructor] |].
      intros a Ha [Ea|[]]. subst a. contradiction.
Qed.

Section DashboardAccounting.
Import Dashboard.

Lemma distinct_snoc : forall l x, distinct (l ++ [x]) = JS.setAdd x (distinct l).
Proof. intros l x. unfold distinct. rewrite fold_left_app. reflexivity. Qed.

Lemma push_accounted : forall data post key t,
    In post data ->
    engagementThreshold <= rawEngagement post ->
    dashAccounted data (key, t) ->
    dashAccounted data (key, push post (rawEngagement post) t).
Proof.
  intros data post key t Hp He [K [T [Tp [Pl F]]]]. cbn [fst snd] in *.
  unfold dashAccounted, push. cbn [fst snd keyword posts totalEngagement topics platforms].
  split; [exact K|]. split; [|split; [|split]].
  - rewrite map_app, sumZ_app. simpl. lia.
  - rewrite map_app. simpl. rewrite distinct_snoc, Tp. reflexivity.
  - rewrite map_app. simpl. rewrite distinct_snoc, Pl. reflexivity.
  - apply Forall_app. split; [exact F|]. constructor; [split; assumption | constructor].
Qed.

Lemma dash_ensure_accounted : forall data key m,
    Forall (dashAccounted data) m -> Forall (dashAccounted data) (ensure key m).
Proof.
  intros data key m H. unfold ensure. destruct (JS.has String.eqb key m); [exact H|].
  apply Forall_forall. intros kv Hin. apply in_set_entry in Hin.
  destruct Hin as [-> | Hin]; [|rewrite Forall_forall in H; apply H; exact Hin].
  unfold dashAccounted. simpl. repeat split. constructor.
Qed.

Lemma dash_set_push : forall data post key m t,
    In post data ->
    engagementThreshold <= rawEngagement post ->
    Forall (dashAccounted data) m ->
    JS.get String.eqb key m = Some t ->
    Forall (dashAccounted data) (JS.set String.eqb key (push post (rawEngagement post) t) m).
Proof.
  intros data post key m t Hp He H G.
  apply Forall_forall. intros kv Hin. apply in_set_entry in Hin.
  destruct Hin as [-> | Hin]; [|rewrite Forall_forall in H; apply H; exact Hin].
  apply push_accounted; try assumption.
  apply (get_in _ string_eqb_spec) in G. rewrite Forall_forall in H. apply (H _ G).
Qed.

Lemma dash_processPost_accounted : forall data post m,
    In post data ->
    Forall (dashAccounted data) m -> Forall (dashAccounted data) (processPost m post).
Proof.
  intros data post m Hp H. unfold processPost.
  destruct (rawEngagement post <? engagementThreshold) eqn:L; [exact H|].
  apply Z.ltb_ge in L.
  assert (Htag : forall key m0, Forall (dashAccounted data) m0 ->
                                Forall (dashAccounted data)
                                       (addTag post (rawEngagement post) key m0)).
  { intros key m0 H0. unfold addTag.
    pose proof (dash_ensure_accounted data key m0 H0) as H'.
    destruct (JS.get String.eqb key (ensure key m0)) eqn:G; [|exact H'].
    apply dash_set_push; assumption. }
  assert (Hkw : forall key m0, Forall (dashAccounted data) m0 ->
                               Forall (dashAccounted data)
                                      (addKeyword post (rawEngagement post) key m0)).
  { intros key m0 H0. unfold addKeyword.
    pose proof (dash_ensure_accounted data key m0 H0) as H'.
    destruct (JS.get String.eqb key (ensure key m0)) eqn:G; [|exact H'].
    destruct (hasId (post_id post) (posts t)); [exact H'|].
    apply dash_set_push; assumption. }
  assert (Hfold : forall (step : string -> TrendMap -> TrendMap) (g : string -> bool),
             (forall key m0, Forall (dashAccounted data) m0 ->
                             Forall (dashAccounted data) (step key m0)) ->
             forall keys m0,
               Forall (dashAccounted data) m0 ->
               Forall (dashAccounted data)
                      (fold_left (fun m key => if g key then step key m else m) keys m0)).
  { intros step g Hs keys. induction keys as [|k r IH]; intros m0 H0; simpl; [exact H0|].
    apply IH. destruct (g k); [apply Hs; exact H0 | exact H0]. }
  apply (Hfold (addKeyword post (rawEngagement post))); [exact Hkw|].
  destruct (JS.truthy (hashtags post)); [|exact H].
  apply (Hfold (addTag post (rawEngagement post))); [exact Htag | exact H].
Qed.

Lemma dash_trendMap_accounted : forall data, Forall (dashAccounted data) (trendMap data).
Proof.
  intro data. unfold trendMap.
  assert (Hgen : forall l m,
             (forall p, In p l -> In p data) ->
             Forall (dashAccounted data) m ->
             Forall (dashAccounted data) (fold_left processPost l m)).
  { induction l as [|p t IH]; intros m Hl H; simpl; [exact H|].
    apply IH; [intros q Hq; apply Hl; right; exact Hq|].
    apply dash_processPost_accounted; [apply Hl; left; reflexivity | exact H]. }
  apply Hgen; [intros p H; exact H | constructor].
Qed.
End DashboardAccounting.

(** X21: in the later dashboard a trend's total engagement is the sum of
    the raw engagement over its member list, its topics and platforms
    are exactly those of its members, and every member is a post of the
    collection with raw engagement 50 at least. *)
Theorem dashboard_trend_accounts :
  forall data : list Post,
    Forall (fun kv =>
              Dashboard.keyword (snd kv) = fst kv
              /\ Dashboard.totalEngagement (snd kv)
                 = sumZ (map rawEngagement (Dashboard.posts (snd kv)))
              /\ Dashboard.topics (snd kv)
                 = Dashboard.distinct (map topic (Dashboard.posts (snd kv)))
              /\ Dashboard.platforms (snd kv)
                 = Dashboard.distinct (map platform (Dashboard.posts (snd kv)))
              /\ Forall (fun p => In p data /\ 50 <= rawEngagement p)
                        (Dashboard.posts (snd kv)))
           (Dashboard.trendMap data).
Proof. exact dash_trendMap_accounted. Qed.

Section DashboardMembers.
Import Dashboard.

Variable seen : list string.
Variable post : Post.
Hypothesis fresh : ~ In (post_id post) seen.

(** Members so far: no id twice, every id seen or the current post's. *)
Let tidy (kv : string * TrendData) : Prop :=
  NoDup (map post_id (posts (snd kv)))
  /\ (forall id, In id (map post_id (posts (snd kv))) -> In id seen \/ id = post_id post).

Lemma ids_push : forall e t,
    map post_id (posts (push post e t)) = (map post_id (posts t) ++ [post_id post])%list.
Proof. intros e t. unfold push. cbn [posts]. rewrite map_app. reflexivity. Qed.

Lemma NoDup_snoc : forall (l : list string) x, NoDup l -> ~ In x l -> NoDup (l ++ [x]).
Proof.
  intros l x N H. apply NoDup_app; [exact N | constructor; [intros [] | constructor] |].
  intros a Ha [E|[]]. subst a. contradiction.
Qed.

Lemma ensure_entries : forall key m kv,
    In kv (ensure key m) -> kv = (key, mkTrend key [] 0 [] []) \/ In kv m.
Proof.
  intros key m kv H. unfold ensure in H. destruct (JS.has String.eqb key m); [right; exact H|].
  apply in_set_entry in H. exact H.
Qed.

(** The hashtag loop over tags without repetition. *)
Lemma tag_loop_tidy : forall e tags done m,
    NoDup tags ->
    (forall k, In k tags -> ~ In k done) ->
    (forall kv, In kv m -> tidy kv
                           /\ (In (post_id post) (map post_id (posts (snd kv))) ->
                               In (fst kv) done)) ->
    forall kv, In kv (fold_left (fun m tag => addTag post e tag m) tags m) -> tidy kv.
Proof.
  intros e tags. induction tags as [|key r IH]; intros done m Hn Hd Hm kv Hin.
  - apply Hm. exact Hin.
  - inversion Hn as [|? ? Hkr Hr]; subst. cbn [fold_left] in Hin.
    apply (IH (key :: done) (addTag post e key m) Hr); [| |exact Hin].
    + intros k Hk [E|H]; [subst k; contradiction | exact (Hd k (or_intror Hk) H)].
    + clear kv Hin. intros kv Hin. unfold addTag in Hin.
      assert (He : forall kv', In kv' (ensure key m) ->
                               tidy kv'
                               /\ (In (post_id post) (map post_id (posts (snd kv'))) ->
                                   In (fst kv') done)).
      { intros kv' H'. apply ensure_entries in H'. destruct H' as [->|H']; [|apply Hm; exact H'].
        split; [split; [constructor | intros id []] | intros []]. }
      destruct (JS.get String.eqb key (ensure key m)) as [t|] eqn:G.
      * apply in_set_entry in Hin. destruct Hin as [->|Hin].
        -- apply (get_in _ string_eqb_spec) in G. destruct (He _ G) as [[N S] D].
           cbn [fst snd] in *. split; [|intros _; left; reflexivity].
           unfold tidy. cbn [snd]. rewrite ids_push. split.
           ++ apply NoDup_snoc; [exact N|]. intro H. apply D in H.
              exact (Hd key (or_introl eq_refl) H).
           ++ intros id H. apply in_app_or in H.
              destruct H as [H|[<-|[]]]; [apply S; exact H | right; reflexivity].
        -- destruct (He _ Hin) as [T D]. split; [exact T | intro H; right; apply D; exact H].
      * destruct (He _ Hin) as [T D]. split; [exact T | intro H; right; apply D; exact H].
Qed.

(** The keyword loop tests membership. *)
Lemma keyword_loop_tidy : forall e keys m,
    (forall kv, In kv m -> tidy kv) ->
    forall kv, In kv (fold_left (fun m key => addKeyword post e key m) keys m) -> tidy kv.
Proof.
  intros e keys. induction keys as [|key r IH]; intros m Hm kv Hin; [apply Hm; exact Hin|].
  cbn [fold_left] in Hin. apply (IH (addKeyword post e key m)); [|exact Hin].
  clear kv Hin. intros kv Hin. unfold addKeyword in Hin.
  assert (He : forall kv', In kv' (ensure key m) -> tidy kv').
  { intros kv' H'. apply ensure_entries in H'. destruct H' as [->|H']; [|apply Hm; exact H'].
    split; [constructor | intros id []]. }
  destruct (JS.get String.eqb key (ensure key m)) as [t|] eqn:G; [|apply He; exact Hin].
  destruct (hasId (post_id post) (posts t)) eqn:Hid; [apply He; exact Hin|].
  apply in_set_entry in Hin. destruct Hin as [->|Hin]; [|apply He; exact Hin].
  apply (get_in _ string_eqb_spec) in G. destruct (He _ G) as [N S]. cbn [snd] in *.
  unfold tidy. cbn [snd]. rewrite ids_push. split.
  - apply NoDup_snoc; [exact N | apply hasId_false_notin; exact Hid].
  - intros id H. apply in_app_or in H.
    destruct H as [H|[<-|[]]]; [apply S; exact H | right; reflexivity].
Qed.

Lemma processPost_tidy : forall m,
    NoDup (dashTags post) ->
    (forall kv, In kv m ->
                NoDup (map post_id (posts (snd kv)))
                /\ (forall id, In id (map post_id (posts (snd kv))) -> In id seen)) ->
    forall kv, In kv (processPost m post) ->
               NoDup (map post_id (posts (snd kv)))
               /\ (forall id, In id (map post_id (posts (snd kv))) ->
                              In id (post_id post :: seen)).
Proof.
  intros m Hn Hm kv Hin.
  assert (Hweak : forall kv', tidy kv' ->
                              NoDup (map post_id (posts (snd kv')))
                              /\ (forall id, In id (map post_id (posts (snd kv'))) ->
                                             In id (post_id post :: seen))).
  { intros kv' [N S]. split; [exact N|]. intros id H.
    destruct (S id H) as [H' | E]; [right; exact H' | left; symmetry; exact E]. }
  assert (Hm' : forall kv', In kv' m -> tidy kv').
  { intros kv' H'. destruct (Hm kv' H') as [N S]. split; [exact N|].
    intros id H. left. apply S. exact H. }
  unfold processPost in Hin.
  destruct (rawEngagement post <? engagementThreshold); [apply Hweak, Hm'; exact Hin|].
  rewrite (fold_left_guarded _ _ (fun m key => addKeyword post (rawEngagement post) key m)
                             (JS.includes (JS.toLowerCase (content post)))) in Hin.
  apply Hweak. revert kv Hin. apply keyword_loop_tidy.
  unfold dashTags in Hn. destruct (JS.truthy (hashtags post)); [|exact Hm'].
  rewrite (fold_left_guarded _ _ (fun m key => addTag post (rawEngagement post) key m) tagOk).
  apply (tag_loop_tidy _ _ []); [exact Hn | intros k _ [] |].
  intros kv H. split; [apply Hm'; exact H|].
  intro Hid. destruct (Hm kv H) as [_ S]. apply S in Hid. contradiction.
Qed.
End DashboardMembers.

(** X22: in the later dashboard, when the posts of the collection have
    different ids and no post repeats one of its hashtags, no trend lists
    a post id twice, in the map and in the ranked output. *)
Theorem dashboard_members_unique :
  forall (now : Z) (data : list Post),
    NoDup (map post_id data) ->
    (forall p, In p data -> NoDup (dashTags p)) ->
    Forall (fun kv => NoDup (map post_id (Dashboard.posts (snd kv)))) (Dashboard.trendMap data)
    /\ Forall (fun t => NoDup (map post_id (Dashboard.t_posts t)))
              (Dashboard.extractTrends now data).
Proof.
  intros now data Hids Htags.
  assert (Hmap : Forall (fun kv => NoDup (map post_id (Dashboard.posts (snd kv))))
                        (Dashboard.trendMap data)).
  { unfold Dashboard.trendMap.
    assert (Hgen : forall l seen m,
               NoDup (map post_id l) ->
               (forall p, In p l -> ~ In (post_id p) seen) ->
               (forall p, In p l -> NoDup (dashTags p)) ->
               (forall kv, In kv m ->
                           NoDup (map post_id (Dashboard.posts (snd kv)))
                           /\ (forall id, In id (map post_id (Dashboard.posts (snd kv))) ->
                                          In id seen)) ->
               forall kv, In kv (fold_left Dashboard.processPost l m) ->
                          NoDup (map post_id (Dashboard.posts (snd kv)))).
    { induction l as [|p t IH]; intros seen m Hn Hs Ht Hm kv Hin.
      - apply (Hm kv Hin).
      - cbn [fold_left] in Hin. cbn [map] in Hn. inversion Hn as [|? ? Hp Hr]; subst.
        apply (IH (post_id p :: seen) (Dashboard.processPost m p) Hr); [| | |exact Hin].
        + intros q Hq [E|H].
          * apply Hp. rewrite E. apply in_map. exact Hq.
          * exact (Hs q (or_intror Hq) H).
        + intros q Hq. apply Ht. right. exact Hq.
        + apply processPost_tidy; [apply Hs; left; reflexivity | apply Ht; left; reflexivity | exact Hm]. }
    apply Forall_forall. intros kv Hin.
    apply (Hgen data [] [] Hids); [intros p _ [] | exact Htags | intros kv' [] | exact Hin]. }
  split; [exact Hmap|].
  apply Forall_forall. intros t Ht. unfold Dashboard.extractTrends in Ht.
  destruct data as [|p0 ps]; [contradiction|].
  apply in_sort in Ht. apply in_map_iff in Ht. destruct Ht as [td [<- Htd]].
  apply filter_In in Htd. destruct Htd as [Htd _].
  apply in_map_iff in Htd. destruct Htd as [kv [<- Hkv]].
  rewrite Forall_forall in Hmap. apply (Hmap kv Hkv).
Qed.

Lemma dashboard_members_unique_witness :
  map (fun kv => (fst kv, map post_id (Dashboard.posts (snd kv)))) (Dashboard.trendMap cricketPosts)
  = [("cricket", ["1"]); ("ipl", ["1"; "2"]); ("ps5", ["3"])]
  /\ Forall (fun kv => NoDup (map post_id (Dashboard.posts (snd kv))))
            (Dashboard.trendMap cricketPosts).
Proof.
  split; [reflexivity|].
  refine (proj1 (dashboard_members_unique 0 cricketPosts _ _)).
  - repeat constructor; simpl; intuition discriminate.
  - intros p [<-|[<-|[<-|[]]]]; repeat constructor; simpl; intuition discriminate.
Defined.

Section BasicDashboard.
Import DashboardBasic.

Lemma basic_addToTrend : forall data post key m,
    In post data ->
    engagementThreshold <= rawEngagement post ->
    NoDup (map fst m) /\ Forall (basicAccounted data) m ->
    NoDup (map fst (addToTrend post (rawEngagement post) key m))
    /\ Forall (basicAccounted data) (addToTrend post (rawEngagement post) key m).
Proof.
  intros data post key m Hp He [Hk H]. unfold addToTrend.
  assert (He' : NoDup (map fst (ensure key m)) /\ Forall (basicAccounted data) (ensure key m)).
  { unfold ensure. destruct (JS.has String.eqb key m); [split; assumption|].
    split; [apply set_keys_NoDup; exact Hk|].
    apply Forall_forall. intros kv Hin. apply in_set_entry in Hin.
    destruct Hin as [-> | Hin]; [|rewrite Forall_forall in H; apply H; exact Hin].
    unfold basicAccounted. simpl. repeat split. constructor. }
  destruct He' as [Hk' H'].
  destruct (JS.get String.eqb key (ensure key m)) as [t|] eqn:G; [|split; assumption].
  split; [apply set_keys_NoDup; exact Hk'|].
  apply Forall_forall. intros kv Hin. apply in_set_entry in Hin.
  destruct Hin as [-> | Hin]; [|rewrite Forall_forall in H'; apply H'; exact Hin].
  apply (get_in _ string_eqb_spec) in G. rewrite Forall_forall in H'.
  destruct (H' _ G) as [K [T F]]. cbn [fst snd] in *.
  unfold basicAccounted, push. cbn [fst snd keyword posts totalEngagement].
  split; [exact K|]. split.
  - rewrite map_app, sumZ_app. simpl. lia.
  - apply Forall_app. split; [exact F|]. constructor; [split; assumption | constructor].
Qed.

Lemma basic_trendMap : forall data,
    NoDup (map fst (trendMap data)) /\ Forall (basicAccounted data) (trendMap data).
Proof.
  intro data. unfold trendMap.
  assert (Hfold : forall post (g : string -> bool) keys m,
             In post data ->
             engagementThreshold <= rawEngagement post ->
             NoDup (map fst m) /\ Forall (basicAccounted data) m ->
             NoDup (map fst (fold_left
                               (fun m key => if g key
                                             then addToTrend post (rawEngagement post) key m
                                             else m) keys m))
             /\ Forall (basicAccounted data)
                       (fold_left
                          (fun m key => if g key
                                        then addToTrend post (rawEngagement post) key m
                                        else m) keys m)).
  { intros post g keys. induction keys as [|k r IH]; intros m Hp He H; simpl; [exact H|].
    apply IH; [exact Hp | exact He |].
    destruct (g k); [apply basic_addToTrend; assumption | exact H]. }
  assert (Hgen : forall l m,
             (forall p, In p l -> In p data) ->
             NoDup (map fst m) /\ Forall (basicAccounted data) m ->
             NoDup (map fst (fold_left processPost l m))
             /\ Forall (basicAccounted data) (fold_left processPost l m)).
  { induction l as [|p t IH]; intros m Hl H; simpl; [exact H|].
    apply IH; [intros q Hq; apply Hl; right; exact Hq|].
    unfold processPost.
    destruct (rawEngagement p <? engagementThreshold) eqn:L; [exact H|].
    apply Z.ltb_ge in L.
    assert (Hp : In p data) by (apply Hl; left; reflexivity).
    apply Hfold; [exact Hp | exact L |].
    destruct (JS.truthy (hashtags p)); [apply Hfold; assumption | exact H]. }
  apply Hgen; [intros p H; exact H | split; constructor].
Qed.

Lemma NoDup_map_filter : forall (A B : Type) (f : A -> B) (g : A -> bool) (l : list A),
    NoDup (map f l) -> NoDup (map f (filter g l)).
Proof.
  intros A B f g l. induction l as [|t r IH]; intro Hl; simpl; [constructor|].
  inversion Hl as [|? ? Hnotin Hr]; subst.
  destruct (g t); [|apply IH; exact Hr].
  simpl. constructor; [|apply IH; exact Hr].
  intro Hin. apply Hnotin. apply in_map_iff in Hin. destruct Hin as [x [Ex Hx]].
  apply filter_In in Hx. apply in_map_iff. exists x. split; [exact Ex | apply Hx].
Qed.

Lemma descending_map : forall (A B : Type) (f : A -> B) (sa : A -> Z) (sb : B -> Z) (l : list A),
    (forall a, sb (f a) = sa a) -> descendingBy sa l -> descendingBy sb (map f l).
Proof.
  intros A B f sa sb l Hf H. unfold descendingBy in *.
  induction H as [|a t Ht IH Ha]; simpl; constructor; [exact IH|].
  apply Forall_map. revert Ha. apply Forall_impl. intros x Hx. rewrite !Hf. exact Hx.
Qed.
End BasicDashboard.

(** X23: the earlier dashboard returns its trends best first by total
    engagement, one per keyword; each has two members at least, all of
    them posts of the collection with raw engagement 100 at least, and a
    total that is the sum of the members' raw engagement; an empty
    collection gives no trend. *)
Theorem basic_trends_ranked :
  forall data : list Post,
    DashboardBasic.extractTrends [] = []
    /\ descendingBy DashboardBasic.t_totalEngagement (DashboardBasic.extractTrends data)
    /\ NoDup (map DashboardBasic.t_keyword (DashboardBasic.extractTrends data))
    /\ Forall (fun t =>
                 (2 <= length (DashboardBasic.t_posts t))%nat
                 /\ DashboardBasic.t_totalEngagement t
                    = sumZ (map rawEngagement (DashboardBasic.t_posts t))
                 /\ Forall (fun p => In p data /\ 100 <= rawEngagement p)
                           (DashboardBasic.t_posts t))
              (DashboardBasic.extractTrends data).
Proof.
  intro data. split; [reflexivity|].
  destruct (basic_trendMap data) as [Hk Ha].
  unfold DashboardBasic.extractTrends. destruct data as [|p0 ps].
  - split; [constructor|]. split; constructor.
  - set (d := p0 :: ps) in *.
    set (kept := filter (fun trend => (2 <=? length (DashboardBasic.posts trend))%nat)
                        (map snd (DashboardBasic.trendMap d))).
    split; [|split].
    + apply (descending_map _ _ _ DashboardBasic.totalEngagement); [reflexivity|].
      rewrite <- (firstn_all (JS.sort _ kept)).
      apply (sort_cut_descending _ DashboardBasic.totalEngagement).
    + rewrite map_map. cbn [DashboardBasic.t_keyword].
      eapply Permutation_NoDup;
        [apply Permutation_map; apply Permutation_sym; apply sort_perm|].
      unfold kept.
      assert (E : map DashboardBasic.keyword (map snd (DashboardBasic.trendMap d))
                  = map fst (DashboardBasic.trendMap d)).
      { rewrite map_map. apply map_ext_in. intros kv Hin.
        rewrite Forall_forall in Ha. apply (Ha kv Hin). }
      rewrite <- E in Hk.
      apply (NoDup_map_filter _ _ DashboardBasic.keyword). exact Hk.
    + apply Forall_forall. intros t Ht. apply in_map_iff in Ht.
      destruct Ht as [td [<- Htd]]. apply in_sort in Htd.
      unfold kept in Htd. apply filter_In in Htd. destruct Htd as [Htd L].
      apply in_map_iff in Htd. destruct Htd as [kv [<- Hkv]].
      rewrite Forall_forall in Ha. destruct (Ha kv Hkv) as [_ [T F]].
      cbn [DashboardBasic.t_posts DashboardBasic.t_totalEngagement].
      split; [apply Nat.leb_le; exact L|]. split; [exact T | exact F].
Qed.

Section MatrixFacts.
Import PlatformMatrix.

Lemma matrixStep_shape : forall m post,
    matrixStep m post
    = JS.set String.eqb (topic post)
             (JS.set String.eqb (platform post)
                     (cell (topic post) (platform post) m + calculateEngagement post)
                     (match JS.get String.eqb (topic post) m with
                      | Some row => row | None => [] end))
             m.
Proof.
  intros m post. unfold matrixStep, JS.has, cell.
  destruct (JS.get String.eqb (topic post) m) as [row|] eqn:G.
  - rewrite G. reflexivity.
  - rewrite (get_set_same _ string_eqb_spec). simpl. apply set_set.
Qed.

Lemma cell_matrixStep : forall t p m post,
    cell t p (matrixStep m post)
    = cell t p m
      + (if String.eqb (topic post) t && String.eqb (platform post) p
         then calculateEngagement post else 0).
Proof.
  intros t p m post. rewrite matrixStep_shape. unfold cell at 1.
  destruct (String.eqb_spec (topic post) t) as [<-|Ht]; cbn [andb].
  - rewrite (get_set_same _ string_eqb_spec).
    destruct (String.eqb_spec (platform post) p) as [<-|Hp].
    + rewrite (get_set_same _ string_eqb_spec). reflexivity.
    + rewrite (get_set_other _ string_eqb_spec) by exact Hp.
      unfold cell. destruct (JS.get String.eqb (topic post) m); simpl; lia.
  - rewrite (get_set_other _ string_eqb_spec) by exact Ht.
    fold (cell t p m). lia.
Qed.




Lemma Rround_percent : forall y : R,
    (0 <= y <= 100)%R -> 0 <= Dashboard.Rround y <= 100.
Proof.
  intros y [H0 H1]. unfold Dashboard.Rround.
  destruct (base_Int_part (y + / 2)) as [B1 B2]. split.
  - assert (IZR (-1) < IZR (Int_part (y + / 2)))%R as L by (simpl; lra).
    apply lt_IZR in L. lia.
  - assert (IZR (Int_part (y + / 2)) < IZR 101)%R as L by (simpl; lra).
    apply lt_IZR in L. lia.
Qed.

Lemma scoreOf_percent : forall st,
    0 <= totalEngagement st -> 0 <= scoreOf st <= 100.
Proof.
  intros st H. unfold scoreOf. apply Rround_percent.
  set (avg := (IZR (totalEngagement st) / 4)%R).
  set (variance := (fold_left _ _ 0 / 4)%R).
  assert (Havg : (0 <= avg)%R).
  { unfold avg. apply IZR_le in H. lra. }
  assert (Hx : (0 <= sqrt variance / (avg + 1) * 100)%R).
  { apply Rmult_le_pos; [|lra]. unfold Rdiv. apply Rmult_le_pos; [apply sqrt_pos|].
    apply Rlt_le. apply Rinv_0_lt_compat. lra. }
  pose proof (Rmin_l 100 (sqrt variance / (avg + 1) * 100)) as Hl.
  assert (0 <= Rmin 100 (sqrt variance / (avg + 1) * 100))%R
    by (apply Rmin_glb; [lra | exact Hx]).
  lra.
Qed.

Lemma scan_total_nonneg : forall platforms,
    Forall (fun e : string * Z => 0 <= snd e) platforms ->
    0 <= totalEngagement (scan platforms).
Proof.
  intros platforms H. unfold scan.
  assert (Hgen : forall l st, Forall (fun e : string * Z => 0 <= snd e) l ->
                              0 <= totalEngagement st ->
                              0 <= totalEngagement (fold_left scanStep l st)).
  { induction l as [|e t IH]; intros st Hl Hs; simpl; [exact Hs|].
    inversion Hl as [|? ? He Ht]; subst. apply IH; [exact Ht|].
    unfold scanStep. destruct (hasOwnProperty (mappedPlatform (fst e))); [|exact Hs].
    cbn [totalEngagement]. lia. }
  apply Hgen; [exact H | simpl; lia].
Qed.

Lemma matrix_cells_nonneg : forall data,
    (forall p, In p data -> countsNonneg p) ->
    Forall (fun kv => Forall (fun e : string * Z => 0 <= snd e) (snd kv)) (matrixOf data).
Proof.
  intros data Hd. unfold matrixOf.
  assert (Hgen : forall l (m : Matrix),
             (forall p, In p l -> countsNonneg p) ->
             Forall (fun kv => Forall (fun e : string * Z => 0 <= snd e) (snd kv)) m ->
             Forall (fun kv => Forall (fun e : string * Z => 0 <= snd e) (snd kv))
                    (fold_left matrixStep l m)).
  { induction l as [|p t IH]; intros m Hl Hm; simpl; [exact Hm|].
    apply IH; [intros q Hq; apply Hl; right; exact Hq|].
    rewrite matrixStep_shape. rewrite Forall_forall in Hm.
    apply Forall_forall. intros kv Hin. apply in_set_inv in Hin.
    destruct Hin as [->|Hin]; [|apply Hm; exact Hin].
    assert (Hrow : Forall (fun e : string * Z => 0 <= snd e)
                          (match JS.get String.eqb (topic p) m with
                           | Some row => row | None => [] end)).
    { destruct (JS.get String.eqb (topic p) m) as [row|] eqn:G; [|constructor].
      apply (get_in _ string_eqb_spec) in G. apply (Hm _ G). }
    assert (Hc : 0 <= cell (topic p) (platform p) m).
    { unfold cell. destruct (JS.get String.eqb (topic p) m) as [row|]; [|lia].
      destruct (JS.get String.eqb (platform p) row) as [v|] eqn:G; [|lia].
      apply (get_in _ string_eqb_spec) in G. rewrite Forall_forall in Hrow.
      apply (Hrow _ G). }
    destruct (Hl p (or_introl eq_refl)) as [H1 [H2 H3]].
    rewrite Forall_forall in Hrow.
    apply Forall_forall. intros e He. apply in_set_inv in He.
    destruct He as [->|He]; [unfold calculateEngagement; lia | apply Hrow; exact He]. }
  apply Hgen; [exact Hd | constructor].
Qed.
End MatrixFacts.

(** X24: the cell of a topic and a platform holds the weighted
    engagement (likes + 2 shares + 3 comments) summed over the posts of
    that topic on that platform; it is 0 when there is none. *)
Theorem matrix_cell_sums :
  forall (data : list Post) (t p : string),
    cell t p (PlatformMatrix.matrixOf data)
    = sumZ (map calculateEngagement
                (filter (fun q => String.eqb (topic q) t && String.eqb (platform q) p) data)).
Proof.
  intros data t p. unfold PlatformMatrix.matrixOf.
  assert (Hgen : forall l m,
             cell t p (fold_left PlatformMatrix.matrixStep l m)
             = cell t p m
               + sumZ (map calculateEngagement
                           (filter (fun q => String.eqb (topic q) t && String.eqb (platform q) p)
                                   l))).
  { induction l as [|q r IH]; intro m; simpl; [unfold sumZ; simpl; lia|].
    rewrite IH, cell_matrixStep.
    destruct (String.eqb (topic q) t && String.eqb (platform q) p); unfold sumZ; simpl; lia. }
  rewrite Hgen. reflexivity.
Qed.


(** X26: when no post has a negative count, the cross-platform score of
    every row lies between 0 and 100. *)
Theorem platform_score_percent :
  forall data : list Post,
    (forall p, In p data -> countsNonneg p) ->
    Forall (fun row => 0 <= PlatformMatrix.crossPlatformScore row <= 100)
           (PlatformMatrix.processPlatformMatrix data).
Proof.
  intros data Hd. apply Forall_forall. intros row H.
  unfold PlatformMatrix.processPlatformMatrix in H.
  apply in_slice0 in H. apply in_sort in H.
  apply in_map_iff in H. destruct H as [kv [<- Hkv]].
  cbn [PlatformMatrix.rowOf PlatformMatrix.crossPlatformScore].
  apply scoreOf_percent. apply scan_total_nonneg.
  pose proof (matrix_cells_nonneg data Hd) as F. rewrite Forall_forall in F.
  apply (F kv Hkv).
Qed.

Lemma platform_score_percent_witness :
  Forall (fun row => 0 <= PlatformMatrix.crossPlatformScore row <= 100)
         (PlatformMatrix.processPlatformMatrix seasonPosts).
Proof.
  apply platform_score_percent.
  intros p Hp. unfold seasonPosts in Hp.
  repeat (destruct Hp as [<-|Hp]; [unfold countsNonneg; simpl; lia|]).
  contradiction.
Defined.

Section ItemsetRoundTrip.
Import PatternMining.

Lemma split_free : forall a, pipeFree a = true -> JS.split "|" a = [a].
Proof.
  induction a as [|c r IH]; intro H; [reflexivity|].
  simpl in H. apply andb_prop in H. destruct H as [Hc Hr].
  simpl. apply negb_true_iff in Hc. rewrite Hc, (IH Hr). reflexivity.
Qed.

Lemma split_app_separator : forall a y,
    pipeFree a = true -> JS.split "|" (a ++ String "|" y) = a :: JS.split "|" y.
Proof.
  induction a as [|c r IH]; intros y H; [reflexivity|].
  simpl in H. apply andb_prop in H. destruct H as [Hc Hr].
  simpl. apply negb_true_iff in Hc. rewrite Hc, (IH y Hr). reflexivity.
Qed.

(** Joining separator-free items and splitting the key gives the items
    back. *)
Lemma split_join_free : forall l,
    l <> [] -> Forall (fun i => pipeFree i = true) l ->
    JS.split "|" (JS.join "|" l) = l.
Proof.
  induction l as [|a t IH]; intros Hne H; [contradiction Hne; reflexivity|].
  inversion H as [|? ? Ha Ht]; subst.
  destruct t as [|b t'].
  - simpl. apply split_free. exact Ha.
  - unfold JS.join in *.
    change (String.concat "|" (a :: b :: t'))
      with (a ++ String "|" (String.concat "|" (b :: t'))).
    rewrite (split_app_separator _ _ Ha). f_equal. apply IH; [discriminate | exact Ht].
Qed.

Lemma itemsetCounts_origin : forall data kv,
    In kv (itemsetCounts data) ->
    exists p, In p data /\ fst kv = JS.join "|" (JS.sortStrings (itemsetItems p))
              /\ (2 <= length (JS.sortStrings (itemsetItems p)))%nat.
Proof.
  intro data. unfold itemsetCounts.
  assert (Hgen : forall l m,
             (forall p, In p l -> In p data) ->
             (forall kv, In kv m ->
                         exists p, In p data
                                   /\ fst kv = JS.join "|" (JS.sortStrings (itemsetItems p))
                                   /\ (2 <= length (JS.sortStrings (itemsetItems p)))%nat) ->
             forall kv, In kv (fold_left itemsetStep l m) ->
                        exists p, In p data
                                  /\ fst kv = JS.join "|" (JS.sortStrings (itemsetItems p))
                                  /\ (2 <= length (JS.sortStrings (itemsetItems p)))%nat).
  { induction l as [|p t IH]; intros m Hl Hm; simpl; [exact Hm|].
    apply IH; [intros q Hq; apply Hl; right; exact Hq|].
    unfold itemsetStep.
    destruct (JS.truthy (topic p)); [|exact Hm].
    set (arr := JS.sortStrings (itemsetItems p)).
    destruct (2 <=? length arr)%nat eqn:L; [|exact Hm].
    apply Nat.leb_le in L.
    assert (Hnew : forall kv : string * ItemsetData, fst kv = JS.join "|" arr ->
                              exists q, In q data
                                        /\ fst kv = JS.join "|" (JS.sortStrings (itemsetItems q))
                                        /\ (2 <= length (JS.sortStrings (itemsetItems q)))%nat).
    { intros kv E. exists p. split; [apply Hl; left; reflexivity|]. split; assumption. }
    assert (He : forall kv, In kv (if JS.has String.eqb (JS.join "|" arr) m then m
                                   else JS.set String.eqb (JS.join "|" arr)
                                               (mkItemsetData 0 []) m) ->
                            exists q, In q data
                                      /\ fst kv = JS.join "|" (JS.sortStrings (itemsetItems q))
                                      /\ (2 <= length (JS.sortStrings (itemsetItems q)))%nat).
    { intros kv H. destruct (JS.has String.eqb (JS.join "|" arr) m); [apply Hm; exact H|].
      apply in_set_key in H. destruct H as [E|H]; [apply Hnew; exact E | apply Hm; exact H]. }
    destruct (JS.get String.eqb (JS.join "|" arr) _); [|exact He].
    intros kv H. apply in_set_key in H.
    destruct H as [E|H]; [apply Hnew; exact E | apply He; exact H]. }
  apply Hgen; [intros p H; exact H | intros kv []].
Qed.

Lemma itemsetItems_set : forall p, NoDup (itemsetItems p) /\ In (topic p) (itemsetItems p).
Proof.
  intro p. unfold itemsetItems.
  destruct (fold_setAdd (JS.slice0 2 (extractHashtags (hashtags p)))
                        (JS.setAdd (topic p) []) ""
                        (setAdd_NoDup _ _ (NoDup_nil _)) (setAdd_nonempty _ _))
    as [N [E [H _]]].
  split; [exact N|].
  destruct (fold_left _ _ _) as [|x r]; [contradiction E; reflexivity|].
  simpl in H. left. exact H.
Qed.
End ItemsetRoundTrip.

(** X27: when no topic or hashtag contains the separator ["|"], every
    frequent itemset lists exactly the item set of some post (its topic
    and its first two hashtags), in code-unit order and without
    repetition. *)
Theorem mined_itemsets_items :
  forall data : list Post,
    (forall p i, In p data -> In i (PatternMining.itemsetItems p) -> pipeFree i = true) ->
    Forall (fun s =>
              NoDup (PatternMining.items s)
              /\ Sorted (fun a b => String.leb a b = true) (PatternMining.items s)
              /\ exists p, In p data
                           /\ In (topic p) (PatternMining.items s)
                           /\ Permutation (PatternMining.items s) (PatternMining.itemsetItems p))
           (PatternMining.mineFrequentItemsets data).
Proof.
  intros data Hfree. apply Forall_forall. intros s H.
  destruct (mined_itemset_origin data s H) as [key [d [Hin [_ ->]]]].
  destruct (itemsetCounts_origin data (key, d) Hin) as [p [Hp [E L]]].
  cbn [fst] in E. cbn [PatternMining.itemsetOf PatternMining.items].
  assert (Hperm : Permutation (JS.sortStrings (PatternMining.itemsetItems p))
                              (PatternMining.itemsetItems p)) by apply sort_perm.
  assert (Hitems : JS.split "|" key = JS.sortStrings (PatternMining.itemsetItems p)).
  { rewrite E. apply split_join_free.
    - intro C. rewrite C in L. simpl in L. lia.
    - apply Forall_forall. intros i Hi. apply (Hfree p i Hp).
      eapply Permutation_in; [exact Hperm | exact Hi]. }
  rewrite Hitems. destruct (itemsetItems_set p) as [N T].
  split; [|split].
  - eapply Permutation_NoDup; [apply Permutation_sym; exact Hperm | exact N].
  - apply sort_sorted. apply String.leb_total.
  - exists p. split; [exact Hp|]. split; [|exact Hperm].
    eapply Permutation_in; [apply Permutation_sym; exact Hperm | exact T].
Qed.

Lemma mined_itemsets_items_witness :
  map PatternMining.items (PatternMining.mineFrequentItemsets taggedPosts)
  = [["Cricket"; "cup"; "ipl"]; ["Gaming"; "ps5"]]
  /\ Forall (fun s =>
               NoDup (PatternMining.items s)
               /\ Sorted (fun a b => String.leb a b = true) (PatternMining.items s)
               /\ exists p, In p taggedPosts
                            /\ In (topic p) (PatternMining.items s)
                            /\ Permutation (PatternMining.items s)
                                           (PatternMining.itemsetItems p))
            (PatternMining.mineFrequentItemsets taggedPosts).
Proof.
  split; [reflexivity|].
  apply mined_itemsets_items.
  intros p i Hp Hi. unfold taggedPosts in Hp. apply in_app_or in Hp.
  destruct Hp as [Hp|Hp]; apply in_map_iff in Hp; destruct Hp as [n [<- _]];
    simpl in Hi; intuition (subst; reflexivity).
Defined.

(** X28: in the temporal page both loops test membership, so no trend
    ever lists a post id twice, whatever the collection. *)
Theorem temporal_trends_list_once :
  forall data : list Post,
    Forall (fun kv => NoDup (map post_id (TrendAnalysis.posts (snd kv))))
           (TrendAnalysis.aggregate data).
Proof.
  intro data. apply Forall_forall. intros kv H.
  apply (temporal_members_unique data kv H).
Qed.

(** X29: when no item of any post contains the separator ["|"], the
    split gives the sorted pair back: every rule has one antecedent and
    one consequent, the antecedent not after the consequent in code-unit
    order. *)
Theorem separator_free_rules_in_order :
  forall (rnd : nat -> Q) (data : list Post),
    (forall p i, In p data -> In i (PatternMining.itemsOf p) -> pipeFree i = true) ->
    Forall (fun r => exists x y,
                PatternMining.antecedent r = [x] /\ PatternMining.consequent r = [y]
                /\ String.leb x y = true)
           (PatternMining.mineAssociationRules rnd data).
Proof. exact separator_free_rules_ordered. Qed.

Lemma separator_free_rules_in_order_witness :
  map (fun r => (PatternMining.antecedent r, PatternMining.consequent r))
      (PatternMining.mineAssociationRules (fun _ => 0%Q) sameWeekPosts)
  = [(["Cricket"], ["cup"])]
  /\ Forall (fun r => exists x y,
                 PatternMining.antecedent r = [x] /\ PatternMining.consequent r = [y]
                 /\ String.leb x y = true)
            (PatternMining.mineAssociationRules (fun _ => 0%Q) sameWeekPosts).
Proof.
  split; [reflexivity|].
  apply separator_free_rules_in_order.
  intros p i Hp Hi. unfold sameWeekPosts in Hp. apply in_map_iff in Hp.
  destruct Hp as [n [<- _]]. simpl in Hi. intuition (subst; reflexivity).
Defined.

Lemma itemPairs_counts_witness :
  pairCount "Cricket|cup" (PatternMining.itemPairs sameWeekPosts) = 12
  /\ In "Cricket|cup" (allPairKeys sameWeekPosts).
Proof.
  destruct (itemPairs_counts sameWeekPosts "Cricket|cup") as [Hc Hi].
  split; [rewrite Hc; reflexivity|]. apply Hi. reflexivity.
Defined.

Lemma toggleInterest_flips_witness :
  Feeds.toggleInterest "Gaming" ["Cricket"; "Gaming"] = ["Cricket"]
  /\ NoDup (Feeds.toggleInterest "Gaming" ["Cricket"; "Gaming"]).
Proof.
  split; [reflexivity|].
  apply (proj2 (proj2 (toggleInterest_flips "Gaming" ["Cricket"; "Gaming"]))).
  repeat constructor; simpl; intuition discriminate.
Defined.

(* ================================================================== *)
(** * The temporal classifier in binary64 (TrendAnalysis.tsx) *)
(* ================================================================== *)

Section Classifier64.
Import PrimFloat TemporalPatterns.
Open Scope float_scope.

Lemma sum_totalFrom : forall l a, fold_left PrimFloat.add l a = ClassifierSpec.totalFrom a l.
Proof. induction l as [|r t IH]; intro a; simpl; [reflexivity | apply IH]. Qed.

Lemma avgGrowth_is_mean : forall l, avgGrowth l = ClassifierSpec.avgGrowth l.
Proof.
  intro l. unfold avgGrowth, ClassifierSpec.avgGrowth, ClassifierSpec.mean, sum.
  rewrite sum_totalFrom. reflexivity.
Qed.

Lemma sliceLast_lastRates : forall (k : nat) (l : list float),
    JS.sliceLast k l = ClassifierSpec.lastRates k l.
Proof.
  intros k l. unfold JS.sliceLast, ClassifierSpec.lastRates.
  rewrite firstn_rev, rev_involutive. reflexivity.
Qed.

Lemma length_lastRates : forall (k : nat) (l : list float),
    (k <= length l)%nat -> length (ClassifierSpec.lastRates k l) = k.
Proof.
  intros k l H. unfold ClassifierSpec.lastRates.
  rewrite length_rev, length_firstn, length_rev. lia.
Qed.

Lemma recentGrowth_is_mean : forall l, recentGrowth l = ClassifierSpec.recentGrowth l.
Proof.
  intro l. unfold recentGrowth, ClassifierSpec.recentGrowth, ClassifierSpec.mean, sum.
  rewrite sum_totalFrom, sliceLast_lastRates.
  rewrite length_lastRates by apply Nat.le_min_r. reflexivity.
Qed.

Lemma changedAt_head : forall a b t,
    ClassifierSpec.changedAt (a :: b :: t) 1 = ClassifierSpec.changed a b.
Proof. reflexivity. Qed.

Lemma changedAt_tail : forall a l j,
    (1 <= j)%nat -> ClassifierSpec.changedAt (a :: l) (S j) = ClassifierSpec.changedAt l j.
Proof.
  intros a l j Hj. unfold ClassifierSpec.changedAt.
  destruct j as [|j']; [lia|]. cbn [nth Nat.sub]. rewrite Nat.sub_0_r. reflexivity.
Qed.

Lemma signChanges_is_changes : forall l, signChanges l = ClassifierSpec.changes l.
Proof.
  intro l. unfold signChanges.
  change (fold_left _ (seq 1 (length l - 1)) 0%Z)
    with (fold_left (fun changes i => if ClassifierSpec.changedAt l i
                                      then (changes + 1)%Z else changes)
                    (seq 1 (length l - 1)) 0%Z).
  rewrite count_loop. rewrite Z.add_0_l.
  induction l as [|a l' IH]; [reflexivity|].
  destruct l' as [|b t]; [reflexivity|].
  change (length (a :: b :: t) - 1)%nat with (S (length t)).
  change (seq 1 (S (length t))) with (1%nat :: seq 2 (length t)).
  cbn [filter]. rewrite changedAt_head.
  rewrite <- seq_shift.
  assert (E : filter (ClassifierSpec.changedAt (a :: b :: t)) (map S (seq 1 (length t)))
              = map S (filter (ClassifierSpec.changedAt (b :: t)) (seq 1 (length t)))).
  { generalize (seq 1 (length t)) (fun j => proj1 (in_seq (length t) 1 j)).
    intros idx Hidx. induction idx as [|j r IHr]; [reflexivity|].
    cbn [map filter]. rewrite changedAt_tail by (apply Hidx; left; reflexivity).
    rewrite IHr by (intros j' Hj'; apply Hidx; right; exact Hj').
    destruct (ClassifierSpec.changedAt (b :: t) j); reflexivity. }
  rewrite E.
  change (ClassifierSpec.changes (a :: b :: t))
    with ((if ClassifierSpec.changed a b then 1 else 0)
          + ClassifierSpec.changes (b :: t))%Z.
  rewrite <- IH. cbn [length]. rewrite Nat.sub_succ, Nat.sub_0_r.
  destruct (ClassifierSpec.changed a b); cbn [length]; rewrite length_map; lia.
Qed.

(** The chain of the classifier, test by test. *)
Lemma classify_chain : forall rates : list float,
    (ClassifierSpec.isEmerging rates -> classify rates = TrendAnalysis.emerging)
    /\ (~ ClassifierSpec.isEmerging rates -> ClassifierSpec.isDeclining rates ->
          classify rates = TrendAnalysis.declining)
    /\ (~ ClassifierSpec.isEmerging rates -> ~ ClassifierSpec.isDeclining rates ->
        ClassifierSpec.isFlat rates ->
          classify rates = TrendAnalysis.sustained)
    /\ (~ ClassifierSpec.isEmerging rates -> ~ ClassifierSpec.isDeclining rates ->
        ~ ClassifierSpec.isFlat rates -> ClassifierSpec.isCyclical rates ->
          classify rates = TrendAnalysis.cyclical)
    /\ (~ ClassifierSpec.isEmerging rates -> ~ ClassifierSpec.isDeclining rates ->
        ~ ClassifierSpec.isFlat rates -> ~ ClassifierSpec.isCyclical rates ->
          classify rates = TrendAnalysis.sustained).
Proof.
  intro rates.
  unfold ClassifierSpec.isEmerging, ClassifierSpec.isDeclining,
    ClassifierSpec.isFlat, ClassifierSpec.isCyclical.
  rewrite <- !avgGrowth_is_mean, <- !recentGrowth_is_mean, <- signChanges_is_changes.
  unfold classify.
  destruct (30 <? recentGrowth rates);
    destruct (15 <? avgGrowth rates);
    destruct (recentGrowth rates <? -20);
    destruct (avgGrowth rates <? -10);
    destruct (abs (avgGrowth rates) <? 15);
    destruct (Number.max 2 (Number.ofNat (length rates) / 3)
              <=? Number.ofZ (signChanges rates));
    cbn [andb];
    repeat split; intros; try reflexivity; exfalso; intuition congruence.
Qed.

(** Every emitted pattern carries the label and the rounded rates of
    its trend. *)
Lemma emitted_pattern_classified : forall data p,
    In p (processTemporalPatterns data) -> classified data p.
Proof.
  intros data p H. unfold processTemporalPatterns in H.
  apply in_sort in H. apply in_flat_map in H. destruct H as [[k t] [Hkv Hp]].
  cbn [fst snd] in Hp. unfold patternOf in Hp.
  destruct (length (TrendAnalysis.posts t) <? 2)%nat; [contradiction|].
  destruct (length (TrendAnalysis.weeksOf t) <? 2)%nat; [contradiction|].
  destruct (growthRates (TrendAnalysis.weeklyValues t)) as [|g0 gs] eqn:E; [contradiction|].
  destruct Hp as [<-|[]]. exists t. cbn [tp_topic tp_pattern weeklyGrowth peakTime].
  rewrite E. repeat split; try reflexivity; [exact Hkv | discriminate].
Qed.

(** Both embeddings of the temporal page emit a pattern for the same
    trends, with the same totals, in the same order. *)
Lemma patterns_same_trends : forall data,
    map rankOf (processTemporalPatterns data)
    = map exactRankOf (TrendAnalysis.processTemporalPatterns data).
Proof.
  intro data. unfold processTemporalPatterns, TrendAnalysis.processTemporalPatterns.
  rewrite (map_sort _ _ rankOf _ (fun a b : string * Z => (snd b <=? snd a)%Z))
    by reflexivity.
  rewrite (map_sort _ _ exactRankOf _ (fun a b : string * Z => (snd b <=? snd a)%Z))
    by reflexivity.
  f_equal. induction (TrendAnalysis.aggregate data) as [|[k t] r IH]; [reflexivity|].
  cbn [flat_map fst snd]. rewrite !map_app, IH. f_equal.
  unfold patternOf, TrendAnalysis.patternOf.
  destruct (length (TrendAnalysis.posts t) <? 2)%nat; [reflexivity|].
  destruct (length (TrendAnalysis.weeksOf t) <? 2)%nat; [reflexivity|].
  unfold growthRates, TrendAnalysis.growthRates.
  destruct (seq 1 (length (TrendAnalysis.weeklyValues t) - 1)); reflexivity.
Qed.
End Classifier64.

(** Rounding decides the label.  For the weekly totals 20, 42 and 21 the
    first rate is 110.00000000000001, the mean of the two rates exceeds
    30 and the engine answers emerging, where the exact mean is 30 and
    exact arithmetic would answer sustained; for 20, 36, 30 and 38 the
    three rates add up to 90, their mean is 30 and the engine answers
    cyclical, where the exact mean of the same rates exceeds 30. *)
Lemma rounding_decides_the_label :
  map TemporalPatterns.tp_pattern (TemporalPatterns.processTemporalPatterns roundingPosts)
  = [TrendAnalysis.emerging]
  /\ map TrendAnalysis.tp_pattern (TrendAnalysis.processTemporalPatterns roundingPosts)
     = [TrendAnalysis.sustained]
  /\ map TemporalPatterns.weeklyGrowth (TemporalPatterns.processTemporalPatterns roundingPosts)
     = [map Number.ofZ [110; -50]]
  /\ TemporalPatterns.classify (TemporalPatterns.growthRates [20; 36; 30; 38])
     = TrendAnalysis.cyclical
  /\ TrendAnalysis.classify (map valueOf (TemporalPatterns.growthRates [20; 36; 30; 38]))
     = TrendAnalysis.emerging
  /\ map Number.round (TemporalPatterns.growthRates [40; 29]) = [Number.ofZ (-28)]
  /\ map JS.round (TrendAnalysis.growthRates [40; 29]) = [-27].
Proof.
  split; [vm_compute; reflexivity|]. split; [vm_compute; reflexivity|].
  split; [vm_compute; reflexivity|]. split; [vm_compute; reflexivity|].
  split; [vm_compute; reflexivity|]. split; vm_compute; reflexivity.
Qed.

(** C3: on a non-empty sequence of growth rates the classifier answers the
    first rule that applies: emerging when the mean of the last min(3, n)
    rates exceeds 30 and the mean of all rates exceeds 15; else declining
    when they are below -20 and -10; else sustained when the magnitude of
    the overall mean is below 15; else cyclical when the counted sign
    changes reach max(2, n/3), and sustained if they do not.  The means
    and the comparisons are those of the engine, in binary64.  The three
    sequences of the specification classify as it says, and every
    emitted pattern carries the label the classifier gives to the growth
    rates of its trend. *)
Theorem classify_first_match :
  forall rates : list PrimFloat.float,
    rates <> [] ->
    (ClassifierSpec.isEmerging rates ->
       TemporalPatterns.classify rates = TrendAnalysis.emerging)
    /\ (~ ClassifierSpec.isEmerging rates -> ClassifierSpec.isDeclining rates ->
          TemporalPatterns.classify rates = TrendAnalysis.declining)
    /\ (~ ClassifierSpec.isEmerging rates -> ~ ClassifierSpec.isDeclining rates ->
        ClassifierSpec.isFlat rates ->
          TemporalPatterns.classify rates = TrendAnalysis.sustained)
    /\ (~ ClassifierSpec.isEmerging rates -> ~ ClassifierSpec.isDeclining rates ->
        ~ ClassifierSpec.isFlat rates -> ClassifierSpec.isCyclical rates ->
          TemporalPatterns.classify rates = TrendAnalysis.cyclical)
    /\ (~ ClassifierSpec.isEmerging rates -> ~ ClassifierSpec.isDeclining rates ->
        ~ ClassifierSpec.isFlat rates -> ~ ClassifierSpec.isCyclical rates ->
          TemporalPatterns.classify rates = TrendAnalysis.sustained)
    /\ TemporalPatterns.classify (map Number.ofZ [40; 35; 32]) = TrendAnalysis.emerging
    /\ TemporalPatterns.classify (map Number.ofZ [-30; -25; -22]) = TrendAnalysis.declining
    /\ TemporalPatterns.classify (map Number.ofZ [5; -3; 4]) = TrendAnalysis.sustained
    /\ (forall data : list Post,
           Forall (classified data) (TemporalPatterns.processTemporalPatterns data)).
Proof.
  intros rates _.
  destruct (classify_chain rates) as [H1 [H2 [H3 [H4 H5]]]].
  repeat (split; [assumption|]).
  split; [vm_compute; reflexivity|].
  split; [vm_compute; reflexivity|].
  split; [vm_compute; reflexivity|].
  intro data. apply Forall_forall. intros p Hp.
  apply emitted_pattern_classified. exact Hp.
Qed.

Lemma classify_first_match_witness :
  TemporalPatterns.classify (TemporalPatterns.growthRates [20; 36; 30; 38])
  = TrendAnalysis.cyclical.
Proof.
  assert (Hne : TemporalPatterns.growthRates [20; 36; 30; 38] <> []) by discriminate.
  destruct (classify_first_match _ Hne) as [_ [_ [_ [H _]]]].
  apply H.
  - unfold ClassifierSpec.isEmerging. vm_compute. intros [C _]. discriminate C.
  - unfold ClassifierSpec.isDeclining. vm_compute. intros [C _]. discriminate C.
  - unfold ClassifierSpec.isFlat. vm_compute. intro C. discriminate C.
  - unfold ClassifierSpec.isCyclical. vm_compute. reflexivity.
Defined.

(* ================================================================== *)
(** * Consecutive posts of an author (src/unnamed/part_000) *)
(* ================================================================== *)

Section SortedByKey.
Context {A : Type} (key : A -> Z).

Lemma sort_by_key_sorted : forall l,
    StronglySorted (fun a b => key a <= key b) (JS.sort (fun a b : A => key a <=? key b) l).
Proof.
  intro l. apply Sorted_StronglySorted; [intros a b c H1 H2; lia|].
  assert (T : forall a b : A, (key a <=? key b) = true \/ (key b <=? key a) = true).
  { intros a b. cbn beta. destruct (Z.leb_spec (key a) (key b)); [left; reflexivity|].
    right. apply Z.leb_le. lia. }
  pose proof (sort_sorted (fun a b : A => key a <=? key b) T l) as H. revert H.
  generalize (JS.sort (fun a b : A => key a <=? key b) l). intros s H.
  induction H as [|y t Ht IH Hd]; constructor; [exact IH|].
  destruct Hd; constructor. apply Z.leb_le. assumption.
Qed.

Lemma filter_strongly_sorted : forall (p : A -> bool) l,
    StronglySorted (fun a b => key a <= key b) l ->
    StronglySorted (fun a b => key a <= key b) (filter p l).
Proof.
  intros p l H. induction H as [|x t Ht IH Hx]; simpl; [constructor|].
  destruct (p x); [|exact IH]. constructor; [exact IH|].
  apply Forall_forall. intros y Hy. apply filter_In in Hy.
  rewrite Forall_forall in Hx. apply Hx. tauto.
Qed.

Lemma insert_below : forall x l,
    Forall (fun y => key x <= key y) l -> JS.insert (fun a b : A => key a <=? key b) x l = x :: l.
Proof.
  intros x l H. destruct H as [|y t Hy _]; [reflexivity|].
  simpl. replace (key x <=? key y) with true; [reflexivity|].
  symmetry. apply Z.leb_le. exact Hy.
Qed.

Lemma filter_insert : forall (p : A -> bool) x l,
    StronglySorted (fun a b => key a <= key b) l ->
    filter p (JS.insert (fun a b : A => key a <=? key b) x l)
    = if p x then JS.insert (fun a b : A => key a <=? key b) x (filter p l) else filter p l.
Proof.
  intros p x l H. induction H as [|y t Ht IH Hy]; simpl.
  - destruct (p x); reflexivity.
  - destruct (Z.leb_spec (key x) (key y)) as [Hxy|Hxy].
    + cbn [filter]. destruct (p x); [|reflexivity].
      symmetry. apply insert_below.
      apply Forall_forall. intros z Hz.
      assert (Hin : In z (y :: t)).
      { destruct (p y); [|apply filter_In in Hz; right; tauto].
        destruct Hz as [<-|Hz]; [left; reflexivity | apply filter_In in Hz; right; tauto]. }
      destruct Hin as [<-|Hin]; [exact Hxy|].
      rewrite Forall_forall in Hy. specialize (Hy z Hin). lia.
    + cbn [filter]. rewrite IH.
      destruct (p y); destruct (p x); try reflexivity.
      simpl. replace (key x <=? key y) with false; [reflexivity|].
      symmetry. apply Z.leb_gt. exact Hxy.
Qed.

(** A stable sort commutes with a selection. *)
Lemma filter_sort : forall (p : A -> bool) l,
    filter p (JS.sort (fun a b : A => key a <=? key b) l) = JS.sort (fun a b : A => key a <=? key b) (filter p l).
Proof.
  intros p l. induction l as [|x t IH]; [reflexivity|].
  cbn [JS.sort fold_right].
  change (fold_right (JS.insert (fun a b : A => key a <=? key b)) [] t) with (JS.sort (fun a b : A => key a <=? key b) t).
  rewrite filter_insert by apply sort_by_key_sorted.
  rewrite IH. cbn [filter]. destruct (p x); reflexivity.
Qed.

(** A sorted list is its part up to a bound followed by its part above. *)
Lemma sorted_split : forall (c : Z) l,
    StronglySorted (fun a b => key a <= key b) l ->
    l = (filter (fun x => key x <=? c) l ++ filter (fun x => c <? key x) l)%list.
Proof.
  intros c l H. induction H as [|x t Ht IH Hx]; [reflexivity|].
  cbn [filter]. destruct (Z.leb_spec (key x) c) as [Hc|Hc].
  - replace (c <? key x) with false by (symmetry; apply Z.ltb_ge; exact Hc).
    simpl. f_equal. exact IH.
  - replace (c <? key x) with true by (symmetry; apply Z.ltb_lt; exact Hc).
    assert (E1 : filter (fun y => key y <=? c) t = []).
    { clear IH Ht. induction t as [|y r IHr]; [reflexivity|].
      inversion Hx as [|? ? Hy Hr]; subst. simpl.
      replace (key y <=? c) with false by (symmetry; apply Z.leb_gt; lia).
      apply IHr. exact Hr. }
    assert (E2 : filter (fun y => c <? key y) t = t).
    { clear IH Ht E1. induction t as [|y r IHr]; [reflexivity|].
      inversion Hx as [|? ? Hy Hr]; subst. simpl.
      replace (c <? key y) with true by (symmetry; apply Z.ltb_lt; lia).
      f_equal. apply IHr. exact Hr. }
    rewrite E1, E2. reflexivity.
Qed.

Lemma sorted_last : forall l e x,
    StronglySorted (fun a b => key a <= key b) (l ++ [e]) ->
    In x (l ++ [e]) -> key x <= key e.
Proof.
  induction l as [|y t IH]; intros e x H Hin; simpl in *.
  - destruct Hin as [<-|[]]. lia.
  - inversion H as [|? ? Ht Hy]; subst.
    destruct Hin as [<-|Hin]; [|apply IH; assumption].
    rewrite Forall_forall in Hy. apply Hy. apply in_or_app. right. left. reflexivity.
Qed.
End SortedByKey.

Section NextPost.
Import PatternMining.

Lemma transitionsOf_nonneg : forall key visits, 0 <= transitionsOf key visits.
Proof.
  intros key visits. induction visits as [|a t IH]; [simpl; lia|].
  destruct t as [|b t']; [simpl; lia|].
  change (transitionsOf key (a :: b :: t'))
    with ((if negb (String.eqb (v_topic a) (v_topic b)) && String.eqb (seqKey a b) key
           then 1 else 0) + transitionsOf key (b :: t')).
  destruct (negb (String.eqb (v_topic a) (v_topic b)) && String.eqb (seqKey a b) key); lia.
Qed.

Lemma transitionCount_nonneg : forall key data, 0 <= transitionCount key data.
Proof.
  intros key data. rewrite transitionCount_entries.
  induction (userSequences data) as [|e t IH]; simpl; [lia|].
  pose proof (transitionsOf_nonneg key (sortVisits (snd e))). lia.
Qed.

(** The transitions along a sequence are those up to an element plus
    those from it on. *)
Lemma transitionsOf_app : forall key l x r,
    transitionsOf key (l ++ x :: r)
    = transitionsOf key (l ++ [x]) + transitionsOf key (x :: r).
Proof.
  intros key l x r. induction l as [|y t IH]; [simpl; lia|].
  destruct t as [|z t'].
  - cbn [app]. cbn [transitionsOf]. lia.
  - change (((y :: z :: t') ++ x :: r)%list) with (y :: z :: (t' ++ x :: r)%list).
    change (((y :: z :: t') ++ [x])%list) with (y :: z :: (t' ++ [x])%list).
    change (transitionsOf key (y :: z :: (t' ++ x :: r)%list))
      with ((if negb (String.eqb (v_topic y) (v_topic z)) && String.eqb (seqKey y z) key
             then 1 else 0) + transitionsOf key ((z :: t') ++ x :: r)%list).
    change (transitionsOf key (y :: z :: (t' ++ [x])%list))
      with ((if negb (String.eqb (v_topic y) (v_topic z)) && String.eqb (seqKey y z) key
             then 1 else 0) + transitionsOf key ((z :: t') ++ [x])%list).
    rewrite IH. lia.
Qed.

(** The sequences of a collection with one author. *)
Lemma userSequences_author : forall u l,
    (forall p, In p l -> user p = u) ->
    userSequences l = match visitsOf u l with [] => [] | v => [(u, v)] end.
Proof.
  intros u l. unfold userSequences. induction l as [|p t IH]; intro Hu; [reflexivity|].
  assert (Ht : forall q, In q t -> user q = u) by (intros q Hq; apply Hu; right; exact Hq).
  cbn [fold_left]. rewrite userStep_pushTo. unfold visitsOf. cbn [filter]. unfold sequenced.
  rewrite (Hu p (or_introl eq_refl)), String.eqb_refl, andb_true_r.
  destruct (JS.truthy u); cbn [negb orb andb];
    [destruct (JS.truthy (topic p)); cbn [negb andb]|]; try (apply IH; exact Ht).
  unfold pushTo. cbn [JS.get JS.set].
  rewrite (userSequences_one_author u t _ Ht). reflexivity.
Qed.

(** The count a single author gives to a transition. *)
Lemma transitionCount_author : forall key u l,
    (forall p, In p l -> user p = u) ->
    transitionCount key l = transitionsOf key (sortVisits (visitsOf u l)).
Proof.
  intros key u l Hu. rewrite transitionCount_entries, (userSequences_author u l Hu).
  destruct (visitsOf u l) as [|v t]; [reflexivity|].
  unfold transitionsOfAll. cbn [fold_right snd]. lia.
Qed.

Lemma filter_map_swap : forall (A B : Type) (f : A -> B) (q : B -> bool) (l : list A),
    filter q (map f l) = map f (filter (fun x => q (f x)) l).
Proof.
  intros A B f q l. induction l as [|x t IH]; simpl; [reflexivity|].
  rewrite IH. destruct (q (f x)); reflexivity.
Qed.

Lemma visitsOf_selected : forall u (q : Z -> bool) data,
    visitsOf u (filter (fun p => String.eqb (user p) u && q (timestamp p)) data)
    = filter (fun v => q (v_timestamp v)) (visitsOf u data).
Proof.
  intros u q data. unfold visitsOf. rewrite filter_map_swap. cbn [v_timestamp].
  f_equal. rewrite !filter_both. apply filter_ext. intro p.
  destruct (sequenced p); destruct (String.eqb (user p) u); destruct (q (timestamp p));
    reflexivity.
Qed.

Lemma in_visitsOf : forall u data v,
    In v (visitsOf u data) ->
    exists p, In p data /\ user p = u /\ topic p <> "" /\ v = visitOf p.
Proof.
  intros u data v H. unfold visitsOf in H. apply in_map_iff in H.
  destruct H as [p [<- Hp]]. apply filter_In in Hp. destruct Hp as [Hin Hq].
  apply andb_true_iff in Hq. destruct Hq as [Hs Hu]. apply String.eqb_eq in Hu.
  unfold sequenced in Hs. apply andb_true_iff in Hs. destruct Hs as [_ Ht].
  exists p. repeat split; try assumption.
  intro E. rewrite E in Ht. discriminate Ht.
Qed.

Lemma visitOf_in : forall u data p,
    u <> "" -> In p data -> user p = u -> topic p <> "" -> In (visitOf p) (visitsOf u data).
Proof.
  intros u data p Hu Hin Hp Ht. unfold visitsOf. apply in_map_iff. exists p.
  split; [reflexivity|]. apply filter_In. split; [exact Hin|].
  unfold sequenced. rewrite Hp, String.eqb_refl.
  rewrite (truthy_nonempty u Hu), (truthy_nonempty _ Ht). reflexivity.
Qed.

(** When [b] is the next post of [u] after [a], the transitions of [u]
    are the one from [a] to [b], those among the posts up to [a] and
    those among the posts from [b] on. *)
Lemma next_post_transition : forall data u A B a b,
    u <> "" -> A <> "" -> B <> "" -> A <> B ->
    postsNext data u A B a b ->
    transitionsOf (A ++ "|" ++ B) (sortVisits (visitsOf u data))
    = 1 + transitionsOf (A ++ "|" ++ B) (sortVisits (visitsOf u (upTo u a data)))
        + transitionsOf (A ++ "|" ++ B) (sortVisits (visitsOf u (from u b data))).
Proof.
  intros data u A B a b Hu HA HB HAB [Ia [Ib [[Ua [Ub [Ta [Tb Hlt]]]] Hwin]]].
  set (V := visitsOf u data).
  assert (HS : StronglySorted (fun x y => v_timestamp x <= v_timestamp y) (sortVisits V))
    by apply (sort_by_key_sorted v_timestamp).
  assert (Hfrom : forall v, In v (sortVisits V) ->
                            exists p, In p data /\ user p = u /\ topic p <> "" /\ v = visitOf p).
  { intros v Hv. apply in_sort in Hv. apply in_visitsOf. exact Hv. }
  assert (Hva : In (visitOf a) (sortVisits V)).
  { apply in_sort. apply visitOf_in; try assumption. rewrite Ta. exact HA. }
  assert (Hvb : In (visitOf b) (sortVisits V)).
  { apply in_sort. apply visitOf_in; try assumption. rewrite Tb. exact HB. }
  (* the part up to [a] ends with [a] *)
  assert (Early : exists E', filter (fun v => v_timestamp v <=? timestamp a) (sortVisits V)
                             = (E' ++ [visitOf a])%list).
  { set (E := filter (fun v => v_timestamp v <=? timestamp a) (sortVisits V)).
    assert (HE : StronglySorted (fun x y => v_timestamp x <= v_timestamp y) E)
      by (apply (filter_strongly_sorted v_timestamp); exact HS).
    assert (Ha : In (visitOf a) E).
    { apply filter_In. split; [exact Hva|]. apply Z.leb_le. simpl. lia. }
    destruct (exists_last (l := E)) as [E' [e Ee]]; [intro C; rewrite C in Ha; contradiction|].
    exists E'. rewrite Ee. f_equal. f_equal.
    rewrite Ee in HE, Ha.
    pose proof (sorted_last v_timestamp E' e (visitOf a) HE Ha) as Hle.
    assert (He : In e E) by (rewrite Ee; apply in_or_app; right; left; reflexivity).
    apply filter_In in He. destruct He as [HeS Hec]. apply Z.leb_le in Hec.
    destruct (Hfrom e HeS) as [p [Hp [Up [Tp ->]]]]. simpl in Hle, Hec.
    destruct (Hwin p Hp Up Tp) as [->| ->]; [lia | reflexivity | lia]. }
  (* the part after [a] starts with [b] *)
  assert (Late : exists L', filter (fun v => timestamp a <? v_timestamp v) (sortVisits V)
                            = visitOf b :: L').
  { set (L := filter (fun v => timestamp a <? v_timestamp v) (sortVisits V)).
    assert (HL : StronglySorted (fun x y => v_timestamp x <= v_timestamp y) L)
      by (apply (filter_strongly_sorted v_timestamp); exact HS).
    assert (Hb : In (visitOf b) L).
    { apply filter_In. split; [exact Hvb|]. apply Z.ltb_lt. simpl. lia. }
    destruct L as [|f L'] eqn:EL; [contradiction|].
    exists L'. f_equal.
    assert (Hf : In f (filter (fun v => timestamp a <? v_timestamp v) (sortVisits V))).
    { fold L. rewrite EL. left. reflexivity. }
    apply filter_In in Hf. destruct Hf as [HfS Hfc]. apply Z.ltb_lt in Hfc.
    assert (Hle : v_timestamp f <= v_timestamp (visitOf b)).
    { destruct Hb as [<-|Hb]; [lia|].
      inversion HL as [|? ? _ Hall]; subst. rewrite Forall_forall in Hall.
      apply Hall. exact Hb. }
    destruct (Hfrom f HfS) as [p [Hp [Up [Tp ->]]]]. simpl in Hle, Hfc.
    destruct (Hwin p Hp Up Tp) as [->| ->]; [lia | lia | reflexivity]. }
  destruct Early as [E' HE']. destruct Late as [L' HL'].
  (* the two selections are the sorted sub-collections *)
  assert (Hup : sortVisits (visitsOf u (upTo u a data)) = (E' ++ [visitOf a])%list).
  { unfold upTo. rewrite (visitsOf_selected u (fun t => t <=? timestamp a)).
    unfold sortVisits. rewrite <- (filter_sort v_timestamp). exact HE'. }
  assert (Hfr : sortVisits (visitsOf u (from u b data)) = visitOf b :: L').
  { unfold from. rewrite (visitsOf_selected u (fun t => timestamp b <=? t)).
    unfold sortVisits. rewrite <- (filter_sort v_timestamp).
    rewrite <- HL'. apply filter_ext_in. intros v Hv.
    destruct (Hfrom v Hv) as [p [Hp [Up [Tp ->]]]]. simpl.
    destruct (Z.leb_spec (timestamp b) (timestamp p)) as [H1|H1];
      destruct (Z.ltb_spec (timestamp a) (timestamp p)) as [H2|H2]; try reflexivity; try lia.
    destruct (Hwin p Hp Up Tp) as [->| ->]; lia. }
  rewrite Hup, Hfr.
  rewrite (sorted_split v_timestamp (timestamp a) (sortVisits V) HS).
  rewrite HE', HL'. rewrite <- app_assoc. cbn [app].
  rewrite transitionsOf_app.
  change (transitionsOf (A ++ "|" ++ B) (visitOf a :: visitOf b :: L'))
    with ((if negb (String.eqb (v_topic (visitOf a)) (v_topic (visitOf b)))
              && String.eqb (seqKey (visitOf a) (visitOf b)) (A ++ "|" ++ B)
           then 1 else 0) + transitionsOf (A ++ "|" ++ B) (visitOf b :: L')).
  unfold seqKey. cbn [visitOf v_topic]. rewrite Ta, Tb, String.eqb_refl.
  destruct (String.eqb_spec A B); [contradiction|]. cbn [negb andb]. lia.
Qed.
End NextPost.

Section TwoNextPosts.
Import PatternMining.

Lemma visitsOf_author : forall u data,
    visitsOf u (filter (fun p => String.eqb (user p) u) data) = visitsOf u data.
Proof.
  intros u data. unfold visitsOf. rewrite filter_both. f_equal. apply filter_ext.
  intro p. destruct (String.eqb (user p) u); destruct (sequenced p); reflexivity.
Qed.

(** What one author gives to the transition when [b] is the author's next
    post after [a]. *)
Lemma author_contributes_one : forall data u A B a b,
    u <> "" -> A <> "" -> B <> "" -> A <> B ->
    postsNext data u A B a b ->
    transitionCount (A ++ "|" ++ B) (filter (fun p => String.eqb (user p) u) data)
    = 1 + transitionCount (A ++ "|" ++ B) (upTo u a data)
        + transitionCount (A ++ "|" ++ B) (from u b data).
Proof.
  intros data u A B a b Hu HA HB HAB Hnext.
  assert (Hsel : forall (q : Post -> bool) p,
             In p (filter (fun p => String.eqb (user p) u && q p) data) -> user p = u).
  { intros q p Hp. apply filter_In in Hp. destruct Hp as [_ Hq].
    apply andb_true_iff in Hq. apply String.eqb_eq. tauto. }
  rewrite (transitionCount_author _ u (filter _ data)).
  - rewrite visitsOf_author, (next_post_transition data u A B a b Hu HA HB HAB Hnext).
    rewrite (transitionCount_author _ u (upTo u a data))
      by (apply (Hsel (fun p => timestamp p <=? timestamp a))).
    rewrite (transitionCount_author _ u (from u b data))
      by (apply (Hsel (fun p => timestamp b <=? timestamp p))).
    reflexivity.
  - intros p Hp. apply filter_In in Hp. apply String.eqb_eq. tauto.
Qed.
End TwoNextPosts.

(** C7, as stated, fails: asha posts about cricket and later about
    gaming, and so does ravi, but asha posts about music in between; the
    miner counts consecutive posts only, and the transition from cricket
    to gaming is counted once. *)
Lemma interleaved_post_counterexample :
  postsThen "asha" "Cricket" "Gaming"
            (nth 0 interleavedPosts cryptoPost) (nth 2 interleavedPosts cryptoPost)
  /\ postsThen "ravi" "Cricket" "Gaming"
               (nth 3 interleavedPosts cryptoPost) (nth 4 interleavedPosts cryptoPost)
  /\ transitionCount "Cricket|Gaming" interleavedPosts = 1
  /\ PatternMining.sequenceCounts (PatternMining.tally interleavedPosts)
     = [("Cricket|Music", 1); ("Music|Gaming", 1); ("Cricket|Gaming", 1)].
Proof.
  split; [|split; [|split]]; try reflexivity;
    unfold postsThen; cbn; repeat split; reflexivity.
Qed.

(** C7 (amended): when two distinct authors each post topic A and, as
    their next post in time order, topic B (A and B different), those
    four posts give the transition A|B exactly 2: its count is 2 plus
    what each author's posts up to the first of the two, each author's
    posts from the second on, and the posts of the other authors give
    it; so it is 2 at least, and 2 when the collection holds the four
    posts only.  A consecutive pair with one topic leaves every count as
    it was, so a collection with a single topic holds no transition. *)
Theorem two_authors_contribute_two :
  forall (data : list Post) (u1 u2 A B : string) (a1 b1 a2 b2 : Post),
    u1 <> "" -> u2 <> "" -> u1 <> u2 ->
    A <> "" -> B <> "" -> A <> B ->
    postsNext data u1 A B a1 b1 ->
    postsNext data u2 A B a2 b2 ->
    transitionCount (A ++ "|" ++ B) data
    = 2 + transitionCount (A ++ "|" ++ B) (upTo u1 a1 data)
        + transitionCount (A ++ "|" ++ B) (from u1 b1 data)
        + transitionCount (A ++ "|" ++ B) (upTo u2 a2 data)
        + transitionCount (A ++ "|" ++ B) (from u2 b2 data)
        + transitionCount (A ++ "|" ++ B) (others u1 u2 data)
    /\ 2 <= transitionCount (A ++ "|" ++ B) data
    /\ transitionCount (A ++ "|" ++ B) [a1; b1; a2; b2] = 2
    /\ (forall st a b,
           PatternMining.v_topic a = PatternMining.v_topic b ->
           PatternMining.transitionStep st (a, b) = st)
    /\ (forall (data' : list Post) (t : string),
           (forall p, In p data' -> topic p = t) ->
           PatternMining.sequenceCounts (PatternMining.tally data') = []).
Proof.
  intros data u1 u2 A B a1 b1 a2 b2 Hu1 Hu2 Hu HA HB HAB N1 N2.
  assert (Hmain : transitionCount (A ++ "|" ++ B) data
                  = 2 + transitionCount (A ++ "|" ++ B) (upTo u1 a1 data)
                      + transitionCount (A ++ "|" ++ B) (from u1 b1 data)
                      + transitionCount (A ++ "|" ++ B) (upTo u2 a2 data)
                      + transitionCount (A ++ "|" ++ B) (from u2 b2 data)
                      + transitionCount (A ++ "|" ++ B) (others u1 u2 data)).
  { rewrite (transitionCount_split _ (fun u => String.eqb u u1) data).
    rewrite (author_contributes_one data u1 A B a1 b1 Hu1 HA HB HAB N1).
    rewrite (transitionCount_split _ (fun u => String.eqb u u2)
                                   (filter (fun p => negb (String.eqb (user p) u1)) data)).
    rewrite !filter_both.
    assert (E : filter (fun p => negb (String.eqb (user p) u1) && String.eqb (user p) u2) data
                = filter (fun p => String.eqb (user p) u2) data).
    { apply filter_ext. intro p.
      destruct (String.eqb_spec (user p) u2) as [->|]; [|apply andb_false_r].
      destruct (String.eqb_spec u2 u1); [congruence | reflexivity]. }
    rewrite E.
    rewrite (author_contributes_one data u2 A B a2 b2 Hu2 HA HB HAB N2).
    unfold others. lia. }
  split; [exact Hmain|]. split; [|split; [|split]].
  - rewrite Hmain.
    pose proof (transitionCount_nonneg (A ++ "|" ++ B) (upTo u1 a1 data)).
    pose proof (transitionCount_nonneg (A ++ "|" ++ B) (from u1 b1 data)).
    pose proof (transitionCount_nonneg (A ++ "|" ++ B) (upTo u2 a2 data)).
    pose proof (transitionCount_nonneg (A ++ "|" ++ B) (from u2 b2 data)).
    pose proof (transitionCount_nonneg (A ++ "|" ++ B) (others u1 u2 data)).
    lia.
  - destruct N1 as [_ [_ [P1 _]]]. destruct N2 as [_ [_ [P2 _]]].
    apply (four_posts_two u1 u2 A B a1 b1 a2 b2); assumption.
  - intros st a b H. unfold PatternMining.transitionStep.
    rewrite H, String.eqb_refl. reflexivity.
  - apply one_topic_no_transition.
Qed.

Lemma two_authors_contribute_two_witness :
  transitionCount "Cricket|Gaming" busyAuthors = 2.
Proof.
  assert (N : forall u a b,
             In a busyAuthors -> In b busyAuthors ->
             postsThen u "Cricket" "Gaming" a b ->
             (forall p, In p busyAuthors -> user p = u -> In p [a; b] \/ timestamp p < 10) ->
             10 <= timestamp a ->
             postsNext busyAuthors u "Cricket" "Gaming" a b).
  { intros u a b Ia Ib P Hall Ha. repeat split; try assumption; try apply P.
    intros p Hp Up _ Hts. destruct (Hall p Hp Up) as [[<-|[<-|[]]]|Hlt]; [tauto | tauto | lia]. }
  pose proof (two_authors_contribute_two
                busyAuthors "asha" "ravi" "Cricket" "Gaming"
                (nth 1 busyAuthors cryptoPost) (nth 4 busyAuthors cryptoPost)
                (nth 2 busyAuthors cryptoPost) (nth 6 busyAuthors cryptoPost)) as H.
  destruct H as [H _]; try discriminate.
  - apply N; cbn; try lia; try tauto; [repeat split; reflexivity|].
    intros p Hp Up.
    repeat (destruct Hp as [<-|Hp]; [try discriminate Up; cbn; (tauto || lia)|]).
    contradiction.
  - apply N; cbn; try lia; try tauto; [repeat split; reflexivity|].
    intros p Hp Up.
    repeat (destruct Hp as [<-|Hp]; [try discriminate Up; cbn; (tauto || lia)|]).
    contradiction.
  - refine (eq_trans H _). vm_compute. reflexivity.
Defined.

(* ================================================================== *)
(** * Two runs of the pipeline (src/unnamed/part_000) *)
(* ================================================================== *)

Section WeeklyBuckets.
Import PatternMining.

Lemma weeks_set : forall (w v : Z) (g : list (Z * Z)),
    map fst (JS.set Z.eqb w v g)
    = if existsb (Z.eqb w) (map fst g) then map fst g else (map fst g ++ [w])%list.
Proof.
  intros w v g. induction g as [|[k n] t IH]; simpl; [reflexivity|].
  destruct (Z.eqb w k); simpl; [reflexivity|].
  rewrite IH. destruct (existsb (Z.eqb w) (map fst t)); reflexivity.
Qed.

(** The keys of [timeGroups] are the weeks of the posts, each once. *)
Lemma timeGroups_weeks : forall ps,
    NoDup (map fst (timeGroups ps))
    /\ forall w, In w (map fst (timeGroups ps)) <-> In w (map weekOf ps).
Proof.
  intro ps. unfold timeGroups.
  assert (Hgen : forall l (g : list (Z * Z)),
             NoDup (map fst g) ->
             NoDup (map fst (fold_left
                               (fun g post =>
                                  JS.set Z.eqb (weekOf post)
                                         (match JS.get Z.eqb (weekOf post) g with
                                          | Some n => n | None => 0 end + 1) g) l g))
             /\ forall w, In w (map fst (fold_left
                                          (fun g post =>
                                             JS.set Z.eqb (weekOf post)
                                                    (match JS.get Z.eqb (weekOf post) g with
                                                     | Some n => n | None => 0 end + 1) g) l g))
                          <-> In w (map fst g) \/ In w (map weekOf l)).
  { induction l as [|p t IH]; intros g Hg; cbn [fold_left map].
    - split; [exact Hg | intro w; simpl; tauto].
    - set (g' := JS.set Z.eqb (weekOf p) _ g).
      assert (Hk : map fst g'
                   = if existsb (Z.eqb (weekOf p)) (map fst g)
                     then map fst g else (map fst g ++ [weekOf p])%list)
        by apply weeks_set.
      assert (Hg' : NoDup (map fst g')).
      { rewrite Hk. destruct (existsb (Z.eqb (weekOf p)) (map fst g)) eqn:E; [exact Hg|].
        apply NoDup_app; [exact Hg | constructor; [intros [] | constructor] |].
        intros a Ha [Eq|[]]. subst a.
        assert (C : existsb (Z.eqb (weekOf p)) (map fst g) = true).
        { apply existsb_exists. exists (weekOf p). split; [exact Ha | apply Z.eqb_refl]. }
        congruence. }
      destruct (IH g' Hg') as [N I]. split; [exact N|].
      intro w. rewrite I, Hk. cbn [In].
      destruct (existsb (Z.eqb (weekOf p)) (map fst g)) eqn:E.
      + apply existsb_exists in E. destruct E as [k [Hin Ek]]. apply Z.eqb_eq in Ek. subst k.
        split; [tauto|]. intros [H|[<-|H]]; tauto.
      + rewrite in_app_iff. cbn [In]. tauto. }
  destruct (Hgen ps [] (NoDup_nil _)) as [N I]. split; [exact N|].
  intro w. rewrite I. simpl. tauto.
Qed.

(** The weeks that the growth rate of a rule looks at are the weekly
    buckets of its example posts. *)
Lemma weeks_are_buckets : forall sorted ps,
    Permutation sorted ps ->
    length (JS.sort Z.leb (map fst (timeGroups sorted))) = length (weekBuckets ps).
Proof.
  intros sorted ps HP. rewrite length_sort. unfold weekBuckets.
  destruct (timeGroups_weeks sorted) as [N I].
  apply Permutation_length. apply NoDup_Permutation; [exact N | apply NoDup_nodup |].
  intro w. rewrite I, nodup_In. split; apply Permutation_in.
  - apply Permutation_map. exact HP.
  - apply Permutation_map. apply Permutation_sym. exact HP.
Qed.

Lemma buckets_le_posts : forall ps, (length (weekBuckets ps) <= length ps)%nat.
Proof.
  intro ps. unfold weekBuckets.
  rewrite <- (length_map weekOf ps). apply NoDup_incl_length; [apply NoDup_nodup|].
  intros w Hw. apply nodup_In in Hw. exact Hw.
Qed.

(** With two weekly buckets among the example posts the growth rate is
    computed from the counts, without a draw. *)
Lemma growth_without_draw : forall ps x y,
    (2 <= length (weekBuckets ps))%nat ->
    growthRateOf (JS.sort (fun a b => timestamp a <=? timestamp b) ps) x
    = growthRateOf (JS.sort (fun a b => timestamp a <=? timestamp b) ps) y.
Proof.
  intros ps x y H. unfold growthRateOf.
  rewrite (weeks_are_buckets _ ps (sort_perm _ _ ps)).
  rewrite length_sort.
  pose proof (buckets_le_posts ps) as L.
  replace (2 <=? length ps)%nat with true by (symmetry; apply Nat.leb_le; lia).
  replace (2 <=? length (weekBuckets ps))%nat with true by (symmetry; apply Nat.leb_le; lia).
  reflexivity.
Qed.

(** Two rules of one entry. *)
Lemma same_entry_agree : forall data key pd x y,
    In (key, pd) (itemPairs data) -> 8 <= count pd ->
    agree data (fst (ruleOf data key pd x)) (fst (ruleOf data key pd y)).
Proof.
  intros data key pd x y Hin Hc. split; [reflexivity|].
  exists key, pd. repeat split; try assumption.
  - exists x. reflexivity.
  - exists y. reflexivity.
  - intro H. unfold ruleOf. cbn [fst].
    rewrite (growth_without_draw (posts pd) x y H). reflexivity.
Qed.
End WeeklyBuckets.

Section RelatedRuns.
Import PatternMining.

(** A relation between rules of equal count and equal description. *)
Variable R : AssociationRule -> AssociationRule -> Prop.
Hypothesis R_count : forall a b, R a b -> occurrence_count a = occurrence_count b.
Hypothesis R_rule : forall a b, R a b -> rule a = rule b.

Lemma insert_related : forall x y l l',
    R x y -> Forall2 R l l' ->
    Forall2 R (JS.insert byCount x l) (JS.insert byCount y l').
Proof.
  intros x y l l' Hxy H. induction H as [|a b t t' Hab Ht IH]; simpl.
  - constructor; [exact Hxy | constructor].
  - unfold byCount at 1 3. rewrite (R_count x y Hxy), (R_count a b Hab).
    destruct (occurrence_count b <=? occurrence_count y).
    + constructor; [exact Hxy|]. constructor; assumption.
    + constructor; [exact Hab | exact IH].
Qed.

Lemma sort_related : forall l l',
    Forall2 R l l' -> Forall2 R (JS.sort byCount l) (JS.sort byCount l').
Proof.
  intros l l' H. induction H as [|a b t t' Hab Ht IH]; simpl; [constructor|].
  apply insert_related; assumption.
Qed.

Lemma sortedByTopic_related : forall m m',
    related R m m' -> related R (sortedByTopic m) (sortedByTopic m').
Proof.
  intros m m' H. unfold related, sortedByTopic in *.
  induction H as [|g g' t t' [Hk Hg] Ht IH]; simpl; constructor; [|exact IH].
  split; [exact Hk | apply sort_related; exact Hg].
Qed.

Lemma values_related : forall m m',
    related R m m' -> Forall2 R (flat_map snd m) (flat_map snd m').
Proof.
  intros m m' H. induction H as [|g g' t t' [Hk Hg] Ht IH]; simpl; [constructor|].
  apply Forall2_app; assumption.
Qed.

Lemma firstPass_related : forall m m',
    related R m m' -> Forall2 R (firstPass m) (firstPass m').
Proof.
  intros m m' H. unfold firstPass. apply sortedByTopic_related in H.
  induction H as [|g g' t t' [Hk Hg] Ht IH]; simpl; [constructor|].
  apply Forall2_app; [|exact IH].
  destruct Hg; constructor; [assumption | constructor].
Qed.

Lemma allRules_related : forall m m',
    related R m m' -> Forall2 R (allRules m) (allRules m').
Proof.
  intros m m' H. unfold allRules. apply sort_related. apply values_related.
  apply sortedByTopic_related. exact H.
Qed.

Lemma listed_related : forall a b d d',
    R a b -> Forall2 R d d' ->
    existsb (fun r' => String.eqb (rule r') (rule a)) d
    = existsb (fun r' => String.eqb (rule r') (rule b)) d'.
Proof.
  intros a b d d' Hab H. induction H as [|x y t t' Hxy Ht IH]; simpl; [reflexivity|].
  rewrite IH, (R_rule x y Hxy), (R_rule a b Hab). reflexivity.
Qed.

Lemma secondPass_related : forall all all' d d',
    Forall2 R all all' -> Forall2 R d d' ->
    Forall2 R (secondPass d all) (secondPass d' all').
Proof.
  unfold secondPass. intros all all' d d' H. revert d d'.
  induction H as [|a b t t' Hab Ht IH]; intros d d' Hd; simpl; [exact Hd|].
  apply IH.
  rewrite (Forall2_length Hd), (listed_related a b d d' Hab Hd).
  destruct ((length d' <? 50)%nat
            && negb (existsb (fun r' => String.eqb (rule r') (rule b)) d')); [|exact Hd].
  apply Forall2_app; [exact Hd | constructor; [exact Hab | constructor]].
Qed.

Lemma slice0_related : forall n l l',
    Forall2 R l l' -> Forall2 R (JS.slice0 n l) (JS.slice0 n l').
Proof.
  unfold JS.slice0. induction n as [|n IH]; intros l l' H; simpl; [constructor|].
  destruct H; constructor; [assumption | apply IH; assumption].
Qed.

Lemma diversify_related : forall m m',
    related R m m' -> Forall2 R (diversify m) (diversify m').
Proof.
  intros m m' H. unfold diversify. apply slice0_related.
  apply secondPass_related; [apply allRules_related | apply firstPass_related]; exact H.
Qed.

Lemma pushRule_related : forall k x y m m',
    related R m m' -> R x y -> related R (pushRule k x m) (pushRule k y m').
Proof.
  intros k x y m m' H Hxy. unfold pushRule.
  assert (Hnew : Forall2 R [x] [y]) by (constructor; [exact Hxy | constructor]).
  induction H as [|[k1 l1] [k2 l2] t t' [Hk Hg] Ht IH]; cbn [fst snd] in *.
  - constructor; [split; [reflexivity | exact Hnew] | constructor].
  - subst k2. cbn [JS.get JS.set]. destruct (String.eqb k k1).
    + constructor; [|exact Ht]. split; [reflexivity|].
      apply Forall2_app; assumption.
    + constructor; [split; [reflexivity | exact Hg] | exact IH].
Qed.

Variable data : list Post.
Variables rnd1 rnd2 : nat -> Q.
Hypothesis R_entry : forall key pd n,
    In (key, pd) (itemPairs data) -> 8 <= count pd ->
    R (fst (ruleOf data key pd (rnd1 n))) (fst (ruleOf data key pd (rnd2 n))).

Lemma rulesByTopic_related : related R (rulesByTopic rnd1 data) (rulesByTopic rnd2 data).
Proof.
  unfold rulesByTopic.
  assert (Hgen : forall l st1 st2,
             (forall kv, In kv l -> In kv (itemPairs data)) ->
             snd st1 = snd st2 -> related R (fst st1) (fst st2) ->
             related R (fst (fold_left (ruleStep data rnd1) l st1))
                     (fst (fold_left (ruleStep data rnd2) l st2))).
  { induction l as [|[key pd] t IH]; intros [m1 n1] [m2 n2] Hl Hn Hm;
      cbn [fold_left]; [exact Hm|].
    cbn [fst snd] in Hn, Hm. subst n2.
    assert (Ht : forall kv, In kv t -> In kv (itemPairs data))
      by (intros kv Hkv; apply Hl; right; exact Hkv).
    apply IH; [exact Ht | |]; unfold ruleStep; cbn [fst snd];
      destruct (count pd <? 8) eqn:C; cbn [fst snd]; try assumption; try reflexivity.
    - rewrite (drew_independent data key pd (rnd1 n1) (rnd2 n1)). reflexivity.
    - apply pushRule_related; [exact Hm|].
      apply R_entry; [apply Hl; left; reflexivity | apply Z.ltb_ge; exact C]. }
  apply Hgen; [intros kv H; exact H | reflexivity | constructor].
Qed.

(** Two runs whose rules are related entry by entry and draw by draw
    return related rules, rank by rank. *)
Lemma runs_related :
    Forall2 R (mineAssociationRules rnd1 data) (mineAssociationRules rnd2 data).
Proof.
  change (Forall2 R (diversify (rulesByTopic rnd1 data)) (diversify (rulesByTopic rnd2 data))).
  apply diversify_related. apply rulesByTopic_related.
Qed.
End RelatedRuns.

(** C6 (amended): the itemset, sequential and temporal results of a run
    do not depend on what [Math.random] returns, and the association
    rules depend on it in two fields only: two runs on the same
    collection report, rank by rank, rules built from the same pair,
    equal in every field but growth_rate and trend_direction, and equal
    in these too when the example posts of the pair fall in two weekly
    buckets at least; runs that draw the same numbers return the same
    results. *)
Theorem association_rules_agree_up_to_growth :
  forall (data : list Post) (rnd1 rnd2 : nat -> Q),
    frequentItemsets (pipeline rnd1 data) = frequentItemsets (pipeline rnd2 data)
    /\ sequentialPatterns (pipeline rnd1 data) = sequentialPatterns (pipeline rnd2 data)
    /\ temporalPatterns (pipeline rnd1 data) = temporalPatterns (pipeline rnd2 data)
    /\ Forall2 (agree data)
               (associationRules (pipeline rnd1 data))
               (associationRules (pipeline rnd2 data))
    /\ ((forall n, rnd1 n = rnd2 n) -> pipeline rnd1 data = pipeline rnd2 data).
Proof.
  intros data rnd1 rnd2.
  split; [reflexivity|]. split; [reflexivity|]. split; [reflexivity|]. split.
  - cbn [pipeline associationRules].
    apply (runs_related (agree data)).
    + intros a b [H _]. apply (f_equal PatternMining.occurrence_count) in H. exact H.
    + intros a b [H _]. apply (f_equal PatternMining.rule) in H. exact H.
    + intros key pd n Hin Hc. apply same_entry_agree; assumption.
  - intro Hsame. unfold pipeline. f_equal.
    rewrite <- (map_id (PatternMining.mineAssociationRules rnd1 data)).
    rewrite <- (map_id (PatternMining.mineAssociationRules rnd2 data)).
    apply runs_agree_under_view; try reflexivity.
    intros key pd n. rewrite Hsame. reflexivity.
Qed.

Lemma association_rules_agree_up_to_growth_witness :
  pipeline (fun _ => 0%Q) sameWeekPosts
  = pipeline (fun n => inject_Z (Z.of_nat n - Z.of_nat n)) sameWeekPosts.
Proof.
  refine (proj2 (proj2 (proj2 (proj2 (association_rules_agree_up_to_growth
                          sameWeekPosts (fun _ => 0%Q)
                          (fun n => inject_Z (Z.of_nat n - Z.of_nat n)))))) _).
  intro n. rewrite Z.sub_diag. reflexivity.
Defined.

(** The draw depends on the example posts, the first five of the pair:
    when these are of one week the growth rate follows the draw, even if
    later posts of the pair are of another week; when they are of two
    weeks it does not. *)
Lemma examples_decide_the_draw :
  map PatternMining.growth_rate
      (PatternMining.mineAssociationRules (fun _ => 0%Q) lateWeekPosts) = [5]
  /\ map PatternMining.growth_rate
         (PatternMining.mineAssociationRules (fun _ => (9 # 10)%Q) lateWeekPosts) = [14]
  /\ PatternMining.mineAssociationRules (fun _ => 0%Q) twoWeekPosts
     = PatternMining.mineAssociationRules (fun _ => (9 # 10)%Q) twoWeekPosts
  /\ map (fun kv => (PatternMining.count (snd kv),
                     weekBuckets (PatternMining.posts (snd kv))))
         (PatternMining.itemPairs lateWeekPosts) = [(12, [0])]
  /\ map (fun kv => (PatternMining.count (snd kv),
                     weekBuckets (PatternMining.posts (snd kv))))
         (PatternMining.itemPairs twoWeekPosts) = [(12, [0; 1])].
Proof.
  split; [vm_compute; reflexivity|]. split; [vm_compute; reflexivity|].
  split; [vm_compute; reflexivity|]. split; vm_compute; reflexivity.
Qed.
